(** * onvifscout: snapshot acquisition, vendor contexts and stream URLs

    A shallow embedding of the parts of [onvifscout] that decide the
    behaviour of snapshot acquisition:

    - [device_contexts.py]: the vendor catalog, [DeviceContext.matches],
      [DeviceContextManager.get_context] and [get_all_paths];
    - [snapshot.py]: the class [ONVIFSnapshot] (probing by URL, media
      profiles over SOAP, stream capture, [capture_snapshot]);
    - [snapshot/base.py]: the class [ONVIFSnapshotBase] (probing with
      retries and image signatures);
    - [snapshot/profile.py]: the class [MediaProfileHandler];
    - [snapshot/capability.py]: the class [CapabilityDetector];
    - [device_manager/manager.py]: the methods of [DeviceManager] that
      work on the stored JSON only ([load_devices], [delete_device],
      [update_device_metadata], [clear_all]);
    - [scripts/release.py]: the release script.

    Python strings are modelled as [string] (sequences of bytes); the
    string methods used by the code ([lower], [startswith], [in]) are
    modelled on ASCII text, where they agree with Python's. *)

From Stdlib Require Import Strings.String Strings.Ascii Lists.List Bool.Bool.
From Stdlib Require Import ZArith.ZArith QArith.QArith micromega.Lia.
From Stdlib Require Import Numbers.DecimalString.
Import ListNotations.

Open Scope list_scope.
Open Scope string_scope.

(** ** Python string methods *)

Module PyStr.

(** [c.lower()] for one ASCII character: 'A'..'Z' go to 'a'..'z'. *)
Definition lower_ascii (c : ascii) : ascii :=
  let n := nat_of_ascii c in
  if (65 <=? n)%nat && (n <=? 90)%nat then ascii_of_nat (n + 32) else c.

(** [s.lower()]. *)
Fixpoint lower (s : string) : string :=
  match s with
  | EmptyString => EmptyString
  | String c rest => String (lower_ascii c) (lower rest)
  end.

(** [s.startswith(p)]. *)
Fixpoint startswith (p s : string) : bool :=
  match p with
  | EmptyString => true
  | String a p' =>
      match s with
      | EmptyString => false
      | String b s' => Ascii.eqb a b && startswith p' s'
      end
  end.

(** [sub in s]: [sub] occurs in [s] as a contiguous substring. *)
Fixpoint str_in (sub s : string) : bool :=
  startswith sub s ||
  match s with
  | EmptyString => false
  | String _ s' => str_in sub s'
  end.

(** [c in s] for a single character. *)
Fixpoint char_in (c : ascii) (s : string) : bool :=
  match s with
  | EmptyString => false
  | String b s' => Ascii.eqb c b || char_in c s'
  end.

(** Truth value of a string: [bool(s)]. *)
Definition truthy (s : string) : bool :=
  match s with EmptyString => false | _ => true end.

(** [str(n)] for an integer. *)
Definition of_Z (n : Z) : string :=
  NilEmpty.string_of_int (Z.to_int n).

End PyStr.

(** ** device_contexts.py *)

(** The dataclass [DeviceContext]. *)
Record DeviceContext := mkDeviceContext {
  name : string;
  ports : list Z;
  paths : list string;
  keywords : list string;
  auth_modes : list string;
  media_services : list string
}.

(** [DeviceContext.matches]. *)
Definition matches (self : DeviceContext) (device_name : string) : bool :=
  let device_name := PyStr.lower device_name in
  existsb (fun keyword => PyStr.str_in (PyStr.lower keyword) device_name)
          (keywords self).

Definition tp_link_context : DeviceContext := {|
  name := "TP-Link";
  keywords := ["tp-link"; "tplink"; "vigi"];
  ports := [2020; 80; 8080; 554]%Z;
  paths := [
    "/onvif/snapshot";
    "/onvif/media/snapshot";
    "/onvif/media1/snapshot";
    "/onvif/media2/snapshot";
    "/onvif/media3/snapshot";
    "/onvif/media_service/snapshot";
    "/onvif/device_service/snapshot";
    "/onvif/event_service/snapshot";
    "/onvif/snapshot/jpeg";
    "/media/snapshot/stream";
    "/stream/snap";
    "/stream/snapshot" ];
  auth_modes := ["Digest"; "Basic"];
  media_services := [
    "/onvif/media_service";
    "/onvif/device_service";
    "/onvif/service" ]
|}.

Definition cp_plus_context : DeviceContext := {|
  name := "CP-Plus";
  keywords := ["cp-plus"; "cp plus"; "cpplus"];
  ports := [80; 8000; 8080; 554]%Z;
  paths := [
    "/onvif/media_service/snapshot";
    "/onvif/streaming/channels/1/picture";
    "/onvif/snap.jpg";
    "/picture/1/current";
    "/picture.jpg";
    "/picture/1";
    "/images/snapshot.jpg";
    "/cgi-bin/snapshot.cgi";
    "/cgi-bin/snapshot";
    "/jpeg";
    "/jpg/1/image.jpg";
    "/snap" ];
  auth_modes := ["Digest"; "Basic"];
  media_services := [
    "/onvif/media_service";
    "/onvif/streaming";
    "/media" ]
|}.

Definition hikvision_context : DeviceContext := {|
  name := "Hikvision";
  keywords := ["hikvision"; "hik"];
  ports := [80; 8000; 554]%Z;
  paths := [
    "/ISAPI/Streaming/channels/101/picture";
    "/ISAPI/Streaming/channels/1/picture";
    "/Streaming/channels/1/picture";
    "/onvif/snapshot";
    "/onvif-http/snapshot" ];
  auth_modes := ["Digest"; "Basic"];
  media_services := [
    "/ISAPI/Streaming";
    "/onvif/media_service" ]
|}.

Definition dahua_context : DeviceContext := {|
  name := "Dahua";
  keywords := ["dahua"];
  ports := [80; 8080; 554]%Z;
  paths := [
    "/cgi-bin/snapshot.cgi";
    "/cgi-bin/snapshot.cgi?channel=1";
    "/cgi-bin/snapManager.cgi?action=attachFileProc&Flags=1";
    "/snapshot/1";
    "/cgi-bin/snapshot" ];
  auth_modes := ["Digest"; "Basic"];
  media_services := [
    "/onvif/media_service";
    "/cgi-bin" ]
|}.

Definition generic_context : DeviceContext := {|
  name := "Generic";
  keywords := [];
  ports := [80; 8080; 554]%Z;
  paths := [
    "/onvif-http/snapshot";
    "/onvif/camera/1/snapshot";
    "/snap.jpg";
    "/snapshot";
    "/image";
    "/image/jpeg.cgi";
    "/cgi-bin/snapshot.cgi";
    "/snapshot.jpg";
    "/jpeg";
    "/video.mjpg";
    "/cgi-bin/api.cgi?cmd=Snap&channel=1" ];
  auth_modes := ["Digest"; "Basic"];
  media_services := [
    "/onvif/media_service";
    "/onvif/device_service" ]
|}.

(** The module-level dict [DEVICE_CONTEXTS], in insertion order (the order
    in which [.values()] iterates). *)
Definition DEVICE_CONTEXTS : list (string * DeviceContext) := [
  ("tp-link", tp_link_context);
  ("cp-plus", cp_plus_context);
  ("hikvision", hikvision_context);
  ("dahua", dahua_context);
  ("generic", generic_context) ].

(** [d[key]] on an insertion-ordered dict with string keys; [None] stands
    for [KeyError]. *)
Fixpoint dict_getitem {V : Type} (d : list (string * V)) (key : string)
  : option V :=
  match d with
  | [] => None
  | (k, v) :: d' => if String.eqb k key then Some v else dict_getitem d' key
  end.

(** [d.values()]. *)
Definition dict_values {V : Type} (d : list (string * V)) : list V :=
  map snd d.

(** [DEVICE_CONTEXTS["generic"]]; the key is present, see
    [DEVICE_CONTEXTS_generic_present]. *)
Definition DEVICE_CONTEXTS_generic : DeviceContext :=
  match dict_getitem DEVICE_CONTEXTS "generic" with
  | Some c => c
  | None => generic_context
  end.

(** The loop of [get_context] over the catalog values: the first context
    that matches, if any. *)
Fixpoint first_match (cs : list DeviceContext) (device_name : string)
  : option DeviceContext :=
  match cs with
  | [] => None
  | context :: cs' =>
      if matches context device_name then Some context
      else first_match cs' device_name
  end.

(** [DeviceContextManager.get_context].  The argument is [None] when the
    device has no name ([ONVIFDevice.name] is optional). *)
Definition get_context (device_name : option string) : DeviceContext :=
  match device_name with
  | None => DEVICE_CONTEXTS_generic
  | Some device_name =>
      if negb (PyStr.truthy device_name) then DEVICE_CONTEXTS_generic
      else
        match first_match (dict_values DEVICE_CONTEXTS) device_name with
        | Some context => context
        | None => DEVICE_CONTEXTS_generic
        end
  end.

(** Membership test on a list of strings ([k in d] on the keys seen so
    far). *)
Definition mem_str (x : string) (l : list string) : bool :=
  existsb (String.eqb x) l.

(** [list(dict.fromkeys(paths))]: the keys are inserted one by one, an
    insertion of a key already present keeps its position. *)
Definition dict_fromkeys (l : list string) : list string :=
  fold_left (fun keys k => if mem_str k keys then keys else (keys ++ [k])%list) l [].

(** [DeviceContextManager.get_all_paths]. *)
Definition get_all_paths (context : DeviceContext) : list string :=
  let paths0 := paths context in
  let paths1 :=
    if negb (String.eqb (PyStr.lower (name context)) "generic")
    then (paths0 ++ paths DEVICE_CONTEXTS_generic)%list
    else paths0 in
  dict_fromkeys paths1.

(** ** Exceptions and results *)

(** The exception classes that occur in the modelled code.  All of them
    are subclasses of [Exception]; [Timeout] is a subclass of
    [RequestException].  Signals outside [Exception] (keyboard interrupt,
    interpreter exit) are not modelled. *)
Inductive ExnClass :=
| ValueError
| IndexError
| KeyError
| AttributeError
| SyntaxError
| ParseError
| OSError
| Timeout
| RequestException
| OtherException.

(** An exception object: its class and [str(e)]. *)
Record PyExn := mkExn { exn_class : ExnClass; exn_str : string }.

(** [isinstance(e, requests.exceptions.Timeout)]. *)
Definition is_Timeout (e : PyExn) : bool :=
  match exn_class e with Timeout => true | _ => false end.

(** [isinstance(e, requests.exceptions.RequestException)]. *)
Definition is_RequestException (e : PyExn) : bool :=
  match exn_class e with Timeout | RequestException => true | _ => false end.

(** The outcome of evaluating a Python expression: a value or a raised
    exception. *)
Inductive PyResult (A : Type) :=
| Ok (a : A)
| Raise (e : PyExn).
Arguments Ok {A} a.
Arguments Raise {A} e.

Definition is_Ok {A} (r : PyResult A) : bool :=
  match r with Ok _ => true | Raise _ => false end.

(** ** urllib.parse.urlparse

    A model of CPython's [urllib.parse.urlparse] (3.11) on ASCII text,
    with the properties [hostname] and [port] of its result.  A netloc
    with a bracketed (IPv6) host is validated by CPython with the
    [ipaddress] module; the model raises [ValueError] on every netloc
    that contains a bracket. *)
Module UrlParse.

Import PyStr.

(** The result of [urlparse]: the six components, and the values of the
    properties [hostname] ([None] is Python's [None]) and [port] (which
    raises [ValueError] on a port that is not a number in range). *)
Record ParseResult := mkParseResult {
  scheme : string;
  netloc : string;
  path : string;
  params : string;
  query : string;
  fragment : string;
  hostname : option string;
  port : PyResult (option Z)
}.

(** [s.find(c)]. *)
Fixpoint find (c : ascii) (s : string) : option nat :=
  match s with
  | EmptyString => None
  | String b s' =>
      if Ascii.eqb c b then Some O
      else match find c s' with Some i => Some (S i) | None => None end
  end.

(** [s.rfind(c)]. *)
Fixpoint rfind (c : ascii) (s : string) : option nat :=
  match s with
  | EmptyString => None
  | String b s' =>
      match rfind c s' with
      | Some i => Some (S i)
      | None => if Ascii.eqb c b then Some O else None
      end
  end.

(** [s[:i]] and [s[i:]]. *)
Fixpoint take (i : nat) (s : string) : string :=
  match i, s with
  | S i', String b s' => String b (take i' s')
  | _, _ => EmptyString
  end.

Fixpoint drop (i : nat) (s : string) : string :=
  match i, s with
  | S i', String _ s' => drop i' s'
  | _, _ => s
  end.

(** [s.partition(c)]: the parts before and after the first [c], and
    whether [c] was found. *)
Definition partition (c : ascii) (s : string) : string * bool * string :=
  match find c s with
  | Some i => (take i s, true, drop (S i) s)
  | None => (s, false, EmptyString)
  end.

(** [s.rpartition(c)]. *)
Definition rpartition (c : ascii) (s : string) : string * bool * string :=
  match rfind c s with
  | Some i => (take i s, true, drop (S i) s)
  | None => (EmptyString, false, s)
  end.

(** [url.lstrip(_WHATWG_C0_CONTROL_OR_SPACE)]. *)
Fixpoint lstrip_c0 (s : string) : string :=
  match s with
  | EmptyString => EmptyString
  | String b s' => if (nat_of_ascii b <=? 32)%nat then lstrip_c0 s' else s
  end.

(** Removal of tab, carriage return and newline
    ([_UNSAFE_URL_BYTES_TO_REMOVE]). *)
Fixpoint remove_unsafe (s : string) : string :=
  match s with
  | EmptyString => EmptyString
  | String b s' =>
      let n := nat_of_ascii b in
      if (n =? 9)%nat || (n =? 13)%nat || (n =? 10)%nat
      then remove_unsafe s' else String b (remove_unsafe s')
  end.

Definition is_alpha (b : ascii) : bool :=
  let n := nat_of_ascii b in
  ((65 <=? n) && (n <=? 90) || (97 <=? n) && (n <=? 122))%nat.

Definition is_digit (b : ascii) : bool :=
  let n := nat_of_ascii b in ((48 <=? n) && (n <=? 57))%nat.

(** [c in scheme_chars]. *)
Definition is_scheme_char (b : ascii) : bool :=
  is_alpha b || is_digit b || char_in b "+-.".

Fixpoint all_chars (p : ascii -> bool) (s : string) : bool :=
  match s with
  | EmptyString => true
  | String b s' => p b && all_chars p s'
  end.

(** [_splitnetloc(url, 2)]: the index of the first of '/', '?', '#' at
    position [start] or later, or the length of [url]. *)
Fixpoint delim_from (start : nat) (s : string) : nat :=
  match s with
  | EmptyString => O
  | String b s' =>
      match start with
      | S start' => S (delim_from start' s')
      | O => if char_in b "/?#" then O else S (delim_from O s')
      end
  end.

Definition _splitnetloc (url : string) : string * string :=
  let delim := delim_from 2 url in
  (take (delim - 2) (drop 2 url), drop delim url).

Definition uses_params : list string :=
  [""; "ftp"; "hdl"; "prospero"; "http"; "imap"; "https"; "shttp"; "rtsp";
   "rtspu"; "sip"; "sips"; "mms"; "sftp"; "tel"].

(** [url.find(';', start)]. *)
Definition find_from (c : ascii) (start : nat) (s : string) : option nat :=
  match find c (drop start s) with
  | Some i => Some (start + i)%nat
  | None => None
  end.

Definition _splitparams (url : string) : string * string :=
  match rfind "/" url with
  | Some j =>
      match find_from ";" j url with
      | Some i => (take i url, drop (S i) url)
      | None => (url, EmptyString)
      end
  | None =>
      match find ";" url with
      | Some i => (take i url, drop (S i) url)
      | None =>
          (* [i = -1]: [url[:-1]] and [url[0:]]; not reached from
             [urlparse], which calls only when ';' occurs *)
          (take (String.length url - 1) url, url)
      end
  end.

(** [urlsplit(url)] with the default empty scheme. *)
Definition urlsplit (url : string)
  : PyResult (string * string * string * string * string) :=
  let url := remove_unsafe (lstrip_c0 url) in
  let '(scheme, url) :=
    match find ":" url, url with
    | Some (S i), String b0 _ =>
        if is_alpha b0 && all_chars is_scheme_char (take (S i) url)
        then (lower (take (S i) url), drop (S (S i)) url)
        else (EmptyString, url)
    | _, _ => (EmptyString, url)
    end in
  let '(netloc, url) :=
    if String.eqb (take 2 url) "//" then _splitnetloc url
    else (EmptyString, url) in
  if char_in "[" netloc || char_in "]" netloc
  then Raise (mkExn ValueError "Invalid IPv6 URL")
  else
    let '(url, _, fragment) := partition "#" url in
    let '(url, _, query) := partition "?" url in
    Ok (scheme, netloc, url, query, fragment).

(** [_hostinfo] for a netloc without brackets. *)
Definition _hostinfo (netloc : string) : string * option string :=
  let '(_, _, hostinfo) := rpartition "@" netloc in
  let '(hostname, _, port) := partition ":" hostinfo in
  (hostname, if truthy port then Some port else None).

(** The property [hostname]. *)
Definition hostname_of (netloc : string) : option string :=
  let hostname := fst (_hostinfo netloc) in
  if truthy hostname then
    let '(hostname, have_percent, zone) := partition "%" hostname in
    Some (lower hostname ++ (if have_percent then "%" else "") ++ zone)
  else None.

(** [int(port)] for a string of ASCII digits. *)
Fixpoint digits_value (acc : Z) (s : string) : Z :=
  match s with
  | EmptyString => acc
  | String b s' =>
      digits_value (10 * acc + Z.of_nat (nat_of_ascii b - 48)) s'
  end.

(** The property [port]. *)
Definition port_of (netloc : string) : PyResult (option Z) :=
  match snd (_hostinfo netloc) with
  | None => Ok None
  | Some port =>
      if all_chars is_digit port then
        let port := digits_value 0 port in
        if (0 <=? port)%Z && (port <=? 65535)%Z then Ok (Some port)
        else Raise (mkExn ValueError "Port out of range 0-65535")
      else Raise (mkExn ValueError
                    ("Port could not be cast to integer value as '"
                       ++ port ++ "'"))
  end.

Definition urlparse (url : string) : PyResult ParseResult :=
  match urlsplit url with
  | Raise e => Raise e
  | Ok (scheme, netloc, url, query, fragment) =>
      let '(url, params) :=
        if mem_str scheme uses_params && char_in ";" url
        then _splitparams url else (url, EmptyString) in
      Ok (mkParseResult scheme netloc url params query fragment
            (hostname_of netloc) (port_of netloc))
  end.

End UrlParse.

(** ** xml.etree.ElementTree *)

Module ET.

(** An element: its tag (a namespaced tag reads "{uri}local"), its
    attributes, its text and its children in document order. *)
#[warnings="-register-all"]
Inductive Element :=
| mkElement (tag : string) (attrib : list (string * string))
            (text : option string) (children : list Element).

Definition tag (e : Element) : string :=
  match e with mkElement t _ _ _ => t end.
Definition attrib (e : Element) : list (string * string) :=
  match e with mkElement _ a _ _ => a end.
Definition text (e : Element) : option string :=
  match e with mkElement _ _ t _ => t end.
Definition children (e : Element) : list Element :=
  match e with mkElement _ _ _ c => c end.

(** [e.get(key, default)]. *)
Definition get (e : Element) (key default : string) : string :=
  match dict_getitem (attrib e) key with
  | Some v => v
  | None => default
  end.

(** [e.iter()]: the element and all its descendants in document order. *)
Fixpoint iter (e : Element) : list Element :=
  match e with
  | mkElement _ _ _ cs => e :: flat_map iter cs
  end.

(** The elements selected by ".//": the descendants of [e], without [e]
    itself. *)
Definition descendants (e : Element) : list Element :=
  flat_map iter (children e).

(** [e.findall(".//prefix:local", namespaces)]: the prefix is looked up
    in [namespaces] (a prefix that is missing there raises
    [SyntaxError]), and the descendants with the tag "{uri}local" are
    returned in document order. *)
Definition findall_prefixed (e : Element) (prefix local : string)
           (namespaces : list (string * string))
  : PyResult (list Element) :=
  match dict_getitem namespaces prefix with
  | None =>
      Raise (mkExn SyntaxError
               ("prefix '" ++ prefix ++ "' not found in prefix map"))
  | Some uri =>
      Ok (filter (fun d => String.eqb (tag d) ("{" ++ uri ++ "}" ++ local))
                 (descendants e))
  end.

(** [e.findall(".//*[local-name()='X']")] and
    [e.find(".//*[local-name()='X']")]: ElementTree's path language has
    no function [local-name()]; compiling the predicate raises
    [SyntaxError("invalid predicate")], whatever the element is. *)
Definition findall_local_name (e : Element) (local : string)
  : PyResult (list Element) :=
  Raise (mkExn SyntaxError "invalid predicate").

Definition find_local_name (e : Element) (local : string)
  : PyResult (option Element) :=
  Raise (mkExn SyntaxError "invalid predicate").

(** [bool(e)]: an element without children is false. *)
Definition truthy (e : Element) : bool :=
  match children e with [] => false | _ => true end.

(** [e.find(".//prefix:local", namespaces)]: the first element that
    [findall] would return, or [None]. *)
Definition find_prefixed (e : Element) (prefix local : string)
           (namespaces : list (string * string))
  : PyResult (option Element) :=
  match findall_prefixed e prefix local namespaces with
  | Ok found => Ok (hd_error found)
  | Raise x => Raise x
  end.

End ET.

(** ** The outside world: HTTP, clock, file system, processes *)

(** The [auth] argument of a request: [HTTPDigestAuth(user, password)] or
    the pair [(user, password)] (HTTP basic authentication). *)
Inductive AuthHandler :=
| HTTPDigestAuth (username password : string)
| BasicPair (username password : string).

(** A credential [(username, password, auth_type)]. *)
Definition Credential : Type := string * string * string.

(** [HTTPDigestAuth(auth[0], auth[1]) if auth[2] == "Digest" else
    (auth[0], auth[1])]. *)
Definition auth_handler_of (auth : Credential) : AuthHandler :=
  let '(user, password, auth_type) := auth in
  if String.eqb auth_type "Digest" then HTTPDigestAuth user password
  else BasicPair user password.

(** A [requests.Response]: status, headers, body ([content] raises when
    reading a streamed body fails) and decoded body. *)
Record Response := mkResponse {
  status_code : Z;
  headers : list (string * string);
  content : PyResult (list Byte.byte);
  text : string
}.

(** [response.headers.get(key, default)]; header names are compared
    without regard to case. *)
Fixpoint headers_get (h : list (string * string)) (key default : string)
  : string :=
  match h with
  | [] => default
  | (k, v) :: h' =>
      if String.eqb (PyStr.lower k) (PyStr.lower key) then v
      else headers_get h' key default
  end.

(** [bool(response)], that is [response.ok]: no 4xx or 5xx status. *)
Definition response_ok (r : Response) : bool :=
  negb ((400 <=? status_code r)%Z && (status_code r <? 600)%Z).

(** What the program does to the outside world, in the order it does
    it. *)
Inductive Event :=
| EvGet (url : string) (auth : AuthHandler)
        (hdrs : list (string * string)) (timeout : Z)
| EvPost (url : string) (auth : AuthHandler) (data : string)
         (hdrs : list (string * string)) (timeout : Z)
| EvClose
| EvSleep (seconds : Q)
| EvMakedirs (path : string)
| EvWriteFile (path : string) (data : list Byte.byte)
| EvRun (cmd : list string).

(** The state threaded through the program: the events so far, oldest
    first, and the messages given to [Logger.error].  The other levels
    of [Logger] are diagnostics and are not modelled. *)
Record World := mkWorld {
  trace : list Event;
  errors : list string
}.

Definition empty_world : World := mkWorld [] [].

(** The behaviour of the outside world and of the library functions that
    are not modelled in detail.  Each answer may depend on the events so
    far. *)
Record Env := mkEnv {
  (** [requests.get] / [session.get] *)
  requests_get : list Event -> string -> AuthHandler
                 -> list (string * string) -> PyResult Response;
  (** [requests.post] / [session.post] *)
  requests_post : list Event -> string -> AuthHandler -> string
                  -> PyResult Response;
  (** [time.time()] of the module [time] *)
  clock : list Event -> Q;
  (** [datetime.now().strftime("%Y%m%d_%H%M%S")] *)
  timestamp : list Event -> string;
  (** [os.makedirs(path, exist_ok=True)] *)
  os_makedirs : list Event -> string -> PyResult unit;
  (** [open(path, "wb")] followed by [f.write(data)] *)
  write_file : list Event -> string -> list Byte.byte -> PyResult unit;
  (** [subprocess.run(cmd, ...).returncode] *)
  subprocess_run : list Event -> list string -> PyResult Z;
  (** [os.path.exists(path)] *)
  os_path_exists : list Event -> string -> bool;
  (** [ET.fromstring(text)] *)
  fromstring : string -> PyResult ET.Element;
  (** [int(s)] on a string *)
  py_int : string -> PyResult Z;
  (** [urllib.parse.urlparse(url)] *)
  urlparse : string -> PyResult UrlParse.ParseResult
}.

(** ** Computations with effects and exceptions *)

Definition M (A : Type) : Type := World -> PyResult A * World.

Definition ret {A} (a : A) : M A := fun w => (Ok a, w).

Definition bind {A B} (m : M A) (f : A -> M B) : M B :=
  fun w =>
    match m w with
    | (Ok a, w') => f a w'
    | (Raise e, w') => (Raise e, w')
    end.

Definition raise {A} (e : PyExn) : M A := fun w => (Raise e, w).

(** A pure expression that may raise. *)
Definition lift {A} (r : PyResult A) : M A := fun w => (r, w).

(** [try: m  except <classes accepted by catches> as e: handler e]. *)
Definition try_except {A} (m : M A) (catches : PyExn -> bool)
           (handler : PyExn -> M A) : M A :=
  fun w =>
    match m w with
    | (Raise e, w') => if catches e then handler e w' else (Raise e, w')
    | r => r
    end.

(** [try: m  finally: fin]. *)
Definition try_finally {A} (m : M A) (fin : M unit) : M A :=
  fun w =>
    match m w with
    | (r, w') =>
        match fin w' with
        | (Ok _, w'') => (r, w'')
        | (Raise e, w'') => (Raise e, w'')
        end
    end.

(** [except Exception]: every modelled exception. *)
Definition any_Exception (e : PyExn) : bool := true.

Declare Scope py_scope.
Delimit Scope py_scope with py.
Notation "x <- m ;; k" := (bind m (fun x => k))
  (at level 61, m at next level, right associativity) : py_scope.
Notation "m ;;; k" := (bind m (fun _ => k))
  (at level 61, right associativity) : py_scope.
Open Scope py_scope.

(** An effect: the world answers from the events so far, and the event is
    recorded. *)
Definition perform {A} (ev : Event) (answer : list Event -> PyResult A)
  : M A :=
  fun w => (answer (trace w), mkWorld (trace w ++ [ev])%list (errors w)).

(** [Logger.error(msg)]. *)
Definition Logger_error (msg : string) : M unit :=
  fun w => (Ok tt, mkWorld (trace w) (errors w ++ [msg])%list).

(** A pure computation that may raise, sequenced. *)
Definition pbind {A B} (r : PyResult A) (f : A -> PyResult B) : PyResult B :=
  match r with
  | Ok a => f a
  | Raise e => Raise e
  end.

(** [l[0]]. *)
Definition list_first {A} (l : list A) : PyResult A :=
  match l with
  | x :: _ => Ok x
  | [] => Raise (mkExn IndexError "list index out of range")
  end.

(** [d[key]] raising [KeyError]. *)
Definition dict_item (d : list (string * string)) (key : string)
  : PyResult string :=
  match dict_getitem d key with
  | Some v => Ok v
  | None => Raise (mkExn KeyError key)
  end.

(** [f"{x}"] for an optional string and for an optional integer: [None]
    is formatted as the text None. *)
Definition fmt_opt_str (x : option string) : string :=
  match x with Some s => s | None => "None" end.

Definition fmt_opt_Z (x : option Z) : string :=
  match x with Some n => PyStr.of_Z n | None => "None" end.

(** [p != device_port] between a catalog port and the device's port,
    which is [None] when the device URL has no port. *)
Definition port_eqb (p q : option Z) : bool :=
  match p, q with
  | Some a, Some b => (a =? b)%Z
  | None, None => true
  | _, _ => false
  end.

(** The double quote character and the newline, for the literal texts of
    the program. *)
Definition dq : string := String "034"%char EmptyString.
Definition nl : string := String "010"%char EmptyString.

(** [s.replace(old, new)] for a non-empty [old]: the occurrences of [old]
    are replaced from left to right, without overlap.  [skip] counts the
    characters of an occurrence still to be dropped. *)
Fixpoint replace_from (skip : nat) (old new s : string) : string :=
  match s with
  | EmptyString => EmptyString
  | String c s' =>
      match skip with
      | S k => replace_from k old new s'
      | O =>
          if PyStr.startswith old s
          then new ++ replace_from (String.length old - 1) old new s'
          else String c (replace_from O old new s')
      end
  end.

Definition str_replace (s old new : string) : string :=
  replace_from O old new s.

(** [os.path.join(a, b)] (POSIX). *)
Fixpoint ends_with_slash (s : string) : bool :=
  match s with
  | EmptyString => false
  | String c EmptyString => Ascii.eqb c "/"
  | String _ s' => ends_with_slash s'
  end.

Definition os_path_join (a b : string) : string :=
  if PyStr.startswith "/" b then b
  else if negb (PyStr.truthy a) || ends_with_slash a then a ++ b
  else a ++ "/" ++ b.

(** Modelled from the spec: the class [ONVIFDevice] of [models.py], which
    is not part of the sources at hand.  The fields are those the snapshot
    code reads: the spec's Device has an address, a declared name
    (possibly absent), an ordered list of candidate URLs and an ordered
    list of credentials. *)
Record ONVIFDevice := mkDevice {
  address : string;
  dev_name : option string;
  urls : list string;
  valid_credentials : list Credential
}.

(** A media profile, the dict with the keys "token" and "name". *)
Definition ProfileInfo : Type := list (string * string).

(** The namespace map [_namespaces] of both snapshot classes. *)
Definition snapshot_namespaces : list (string * string) := [
  ("s", "http://www.w3.org/2003/05/soap-envelope");
  ("trt", "http://www.onvif.org/ver10/media/wsdl");
  ("tt", "http://www.onvif.org/ver10/schema");
  ("tr2", "http://www.onvif.org/ver20/media/wsdl") ].

(** The lookup of profile elements, written in both classes as
    [findall(".//trt:Profiles", ns) or findall(".//tt:Profiles", ns) or
     findall(".//*[local-name()='Profiles']") or
     findall(".//*[local-name()='Profile']")]:
    each alternative is evaluated only when the ones before it gave an
    empty list. *)
Definition or_else (a : list ET.Element)
           (b : PyResult (list ET.Element)) : PyResult (list ET.Element) :=
  match a with [] => b | _ => Ok a end.

Definition find_profile_elements (root : ET.Element)
           (namespaces : list (string * string))
  : PyResult (list ET.Element) :=
  pbind (ET.findall_prefixed root "trt" "Profiles" namespaces) (fun a =>
  or_else a (
  pbind (ET.findall_prefixed root "tt" "Profiles" namespaces) (fun b =>
  or_else b (
  pbind (ET.findall_local_name root "Profiles") (fun c =>
  or_else c (
  ET.findall_local_name root "Profile")))))).

(** The loop over the profile elements: an element is kept when its
    token is a non-empty string. *)
Definition collect_profiles (profile_elements : list ET.Element)
  : list ProfileInfo :=
  fold_left
    (fun profiles profile =>
       let profile_info :=
         [("token", ET.get profile "token" "");
          ("name", ET.get profile "name" "")] in
       if PyStr.truthy (ET.get profile "token" "")
       then (profiles ++ [profile_info])%list
       else profiles)
    profile_elements [].

(** The SOAP messages. *)
Definition soap_header : string :=
  "<?xml version=" ++ dq ++ "1.0" ++ dq ++ " encoding=" ++ dq ++ "UTF-8"
  ++ dq ++ "?>" ++ nl
  ++ "<s:Envelope xmlns:s=" ++ dq
  ++ "http://www.w3.org/2003/05/soap-envelope" ++ dq ++ ">" ++ nl
  ++ "    <s:Body>" ++ nl.

Definition soap_footer : string :=
  "    </s:Body>" ++ nl ++ "</s:Envelope>".

Definition _create_get_profiles_message : string :=
  soap_header
  ++ "        <GetProfiles xmlns=" ++ dq
  ++ "http://www.onvif.org/ver10/media/wsdl" ++ dq ++ "/>" ++ nl
  ++ soap_footer.

Definition _create_get_stream_uri_message (profile_token : string) : string :=
  soap_header
  ++ "        <GetStreamUri xmlns=" ++ dq
  ++ "http://www.onvif.org/ver10/media/wsdl" ++ dq ++ ">" ++ nl
  ++ "            <StreamSetup>" ++ nl
  ++ "                <Stream xmlns=" ++ dq
  ++ "http://www.onvif.org/ver10/schema" ++ dq
  ++ ">RTP-Unicast</Stream>" ++ nl
  ++ "                <Transport xmlns=" ++ dq
  ++ "http://www.onvif.org/ver10/schema" ++ dq ++ ">" ++ nl
  ++ "                    <Protocol>RTSP</Protocol>" ++ nl
  ++ "                </Transport>" ++ nl
  ++ "            </StreamSetup>" ++ nl
  ++ "            <ProfileToken>" ++ profile_token ++ "</ProfileToken>" ++ nl
  ++ "        </GetStreamUri>" ++ nl
  ++ soap_footer.

(** ** snapshot.py: class ONVIFSnapshot *)

Module ONVIFSnapshot.
Section Methods.

Variable env : Env.
(** [self.timeout] *)
Variable timeout : Z.

Definition _namespaces := snapshot_namespaces.

(** [requests.get(url, auth=..., timeout=self.timeout, verify=False,
    headers=..., stream=True)] *)
Definition get (url : string) (auth : AuthHandler)
           (hdrs : list (string * string)) : M Response :=
  perform (EvGet url auth hdrs timeout)
          (fun t => requests_get env t url auth hdrs).

(** [requests.post(media_url, auth=..., data=..., headers={"Content-Type":
    "application/soap+xml"}, timeout=self.timeout, verify=False)] *)
Definition post (url : string) (auth : AuthHandler) (data : string)
  : M Response :=
  let hdrs := [("Content-Type", "application/soap+xml")] in
  perform (EvPost url auth data hdrs timeout)
          (fun t => requests_post env t url auth data).

Definition close : M unit := perform EvClose (fun _ => Ok tt).

(** [f"{parsed.scheme}://{parsed.hostname}:{parsed.port}{service_path}"];
    reading [parsed.port] may raise. *)
Definition media_url_of (parsed : UrlParse.ParseResult)
           (service_path : string) : PyResult string :=
  pbind (UrlParse.port parsed) (fun port =>
  Ok (UrlParse.scheme parsed ++ "://"
      ++ fmt_opt_str (UrlParse.hostname parsed) ++ ":"
      ++ fmt_opt_Z port ++ service_path)).

(** One endpoint of [_get_media_profiles]: the body of the inner [try],
    with its handler.  [Some profiles] stands for [return profiles],
    [None] for going on with the next endpoint. *)
Definition media_profiles_at (media_url : string) (auth : Credential)
  : M (option (list ProfileInfo)) :=
  try_except
    (let auth_handler := auth_handler_of auth in
     response <- post media_url auth_handler _create_get_profiles_message ;;
     if (status_code response =? 200)%Z then
       root <- lift (fromstring env (text response)) ;;
       profile_elements <- lift (find_profile_elements root _namespaces) ;;
       let profiles := collect_profiles profile_elements in
       match profiles with
       | [] => ret None
       | _ => ret (Some profiles)
       end
     else ret None)
    any_Exception
    (fun _ => ret None).

(** The loop [for service_path in context.media_services]. *)
Fixpoint media_profiles_loop (parsed : UrlParse.ParseResult)
         (auth : Credential) (service_paths : list string)
  : M (list ProfileInfo) :=
  match service_paths with
  | [] => ret []
  | service_path :: rest =>
      media_url <- lift (media_url_of parsed service_path) ;;
      found <- media_profiles_at media_url auth ;;
      match found with
      | Some profiles => ret profiles
      | None => media_profiles_loop parsed auth rest
      end
  end.

Definition _get_media_profiles (device : ONVIFDevice) (auth : Credential)
  : M (list ProfileInfo) :=
  try_except
    (let context := get_context (dev_name device) in
     url0 <- lift (list_first (urls device)) ;;
     parsed <- lift (urlparse env url0) ;;
     media_profiles_loop parsed auth (media_services context))
    any_Exception
    (fun e =>
       Logger_error ("Error getting media profiles: " ++ exn_str e) ;;;
       ret []).

(** One endpoint of [_get_rtsp_stream_url]. *)
Definition rtsp_stream_url_at (parsed : UrlParse.ParseResult)
           (media_url : string) (auth : Credential) (profile_token : string)
  : M (option string) :=
  try_except
    (let auth_handler := auth_handler_of auth in
     response <- post media_url auth_handler
                      (_create_get_stream_uri_message profile_token) ;;
     if (status_code response =? 200)%Z then
       root <- lift (fromstring env (text response)) ;;
       uri_element <- lift (ET.find_local_name root "Uri") ;;
       match uri_element with
       | Some el =>
           match ET.text el with
           | Some rtsp_url =>
               if PyStr.truthy rtsp_url then
                 if negb (PyStr.startswith "rtsp://" rtsp_url)
                 then ret (Some ("rtsp://"
                                 ++ fmt_opt_str (UrlParse.hostname parsed)
                                 ++ ":" ++ PyStr.of_Z 554 ++ rtsp_url))
                 else ret (Some rtsp_url)
               else ret None
           | None => ret None
           end
       | None => ret None
       end
     else ret None)
    any_Exception
    (fun _ => ret None).

Fixpoint rtsp_stream_url_loop (parsed : UrlParse.ParseResult)
         (auth : Credential) (profile_token : string)
         (service_paths : list string) : M (option string) :=
  match service_paths with
  | [] => ret None
  | service_path :: rest =>
      media_url <- lift (media_url_of parsed service_path) ;;
      found <- rtsp_stream_url_at parsed media_url auth profile_token ;;
      match found with
      | Some rtsp_url => ret (Some rtsp_url)
      | None => rtsp_stream_url_loop parsed auth profile_token rest
      end
  end.

Definition _get_rtsp_stream_url (device : ONVIFDevice) (auth : Credential)
           (profile_token : string) : M (option string) :=
  try_except
    (let context := get_context (dev_name device) in
     url0 <- lift (list_first (urls device)) ;;
     parsed <- lift (urlparse env url0) ;;
     rtsp_stream_url_loop parsed auth profile_token (media_services context))
    any_Exception
    (fun _ => ret None).

(** [_try_snapshot_url]: one GET; a hit needs status 200, a content type
    that starts with "image/" and a declared length above 1000. *)
Definition _try_snapshot_url (url : string) (auth : Credential)
           (hdrs : list (string * string)) : M bool :=
  try_except
    (let auth_handler := auth_handler_of auth in
     response <- get url auth_handler hdrs ;;
     hit <-
       (if (status_code response =? 200)%Z then
          let content_type :=
            headers_get (headers response) "content-type" "" in
          content_length <-
            lift (py_int env
                    (headers_get (headers response) "content-length" "0")) ;;
          ret (PyStr.startswith "image/" content_type
               && (1000 <? content_length)%Z)
        else ret false) ;;
     close ;;;
     ret hit)
    any_Exception
    (fun _ => ret false).

(** The header set of [_try_device_urls]. *)
Definition probe_headers : list (string * string) := [
  ("Accept", "image/jpeg,image/*");
  ("User-Agent", "ONVIF Client/1.0");
  ("Connection", "keep-alive") ].

(** [[device_port] + [p for p in context.ports if p != device_port]] *)
Definition probe_ports (device_port : option Z) (context : DeviceContext)
  : list (option Z) :=
  device_port
    :: filter (fun p => negb (port_eqb p device_port))
              (map Some (ports context)).

(** [f"{parsed.scheme}://{device_host}:{port}{path}"] *)
Definition probe_url (parsed : UrlParse.ParseResult) (port : option Z)
           (path : string) : string :=
  UrlParse.scheme parsed ++ "://" ++ fmt_opt_str (UrlParse.hostname parsed)
  ++ ":" ++ fmt_opt_Z port ++ path.

(** The inner loop [for path in paths] for one port; [Some url] stands
    for [return url]. *)
Fixpoint try_paths (parsed : UrlParse.ParseResult) (auth : Credential)
         (port : option Z) (paths : list string) : M (option string) :=
  match paths with
  | [] => ret None
  | path :: rest =>
      let url := probe_url parsed port path in
      hit <- _try_snapshot_url url auth probe_headers ;;
      if hit then ret (Some url) else try_paths parsed auth port rest
  end.

(** The outer loop [for port in ports]. *)
Fixpoint try_ports (parsed : UrlParse.ParseResult) (auth : Credential)
         (ports : list (option Z)) (paths : list string)
  : M (option string) :=
  match ports with
  | [] => ret None
  | port :: rest =>
      found <- try_paths parsed auth port paths ;;
      match found with
      | Some url => ret (Some url)
      | None => try_ports parsed auth rest paths
      end
  end.

Definition _try_device_urls (device : ONVIFDevice) (context : DeviceContext)
           (auth : Credential) : M (option string) :=
  url0 <- lift (list_first (urls device)) ;;
  parsed <- lift (urlparse env url0) ;;
  device_port <- lift (UrlParse.port parsed) ;;
  let ports := probe_ports device_port context in
  let paths := get_all_paths context in
  try_ports parsed auth ports paths.

(** [_capture_rtsp_frame]: one frame of the stream, by ffmpeg. *)
Definition _capture_rtsp_frame (rtsp_url : string) (auth : Credential)
           (output_path : string) : M (option string) :=
  try_except
    (parsed <- lift (urlparse env rtsp_url) ;;
     let '(user, password, _) := auth in
     let host := fmt_opt_str (UrlParse.hostname parsed) in
     let rtsp_url_with_auth :=
       str_replace rtsp_url
         (UrlParse.scheme parsed ++ "://" ++ host)
         (UrlParse.scheme parsed ++ "://" ++ user ++ ":" ++ password
          ++ "@" ++ host) in
     let cmd := [ "ffmpeg"; "-y"; "-rtsp_transport"; "tcp"; "-i";
                  rtsp_url_with_auth; "-frames:v"; "1"; "-q:v"; "2";
                  "-f"; "image2"; output_path ] in
     returncode <- perform (EvRun cmd) (fun t => subprocess_run env t cmd) ;;
     exists_ <- (fun w => (Ok (os_path_exists env (trace w) output_path), w)) ;;
     if (returncode =? 0)%Z && exists_ then ret (Some output_path)
     else ret None)
    any_Exception
    (fun _ => ret None).

(** The loop [for profile in profiles] of [capture_snapshot]; [Some r]
    stands for [return result]. *)
Fixpoint capture_profiles (device : ONVIFDevice) (cred : Credential)
         (output_path : string) (profiles : list ProfileInfo)
  : M (option string) :=
  match profiles with
  | [] => ret None
  | profile :: rest =>
      token <- lift (dict_item profile "token") ;;
      rtsp_url <- _get_rtsp_stream_url device cred token ;;
      result <-
        match rtsp_url with
        | Some u =>
            if PyStr.truthy u then _capture_rtsp_frame u cred output_path
            else ret None
        | None => ret None
        end ;;
      match result with
      | Some r =>
          if PyStr.truthy r then ret (Some r)
          else capture_profiles device cred output_path rest
      | None => capture_profiles device cred output_path rest
      end
  end.

(** The first method of [capture_snapshot]: the image behind a URL found
    by probing is fetched again and written to [output_path]. *)
Definition save_from_url (snapshot_url : string) (cred : Credential)
           (output_path : string) : M (option string) :=
  let auth_handler := auth_handler_of cred in
  response <- get snapshot_url auth_handler
                  [("Accept", "image/jpeg,image/*")] ;;
  if (status_code response =? 200)%Z
     && PyStr.startswith "image/"
          (headers_get (headers response) "content-type" "")
  then
    data <- lift (content response) ;;
    perform (EvWriteFile output_path data)
            (fun t => write_file env t output_path data) ;;;
    ret (Some output_path)
  else ret None.

Definition capture_snapshot (device : ONVIFDevice) (output_dir : string)
  : M (option string) :=
  match valid_credentials device with
  | [] =>
      Logger_error "No valid credentials available" ;;;
      ret None
  | cred :: _ =>
      perform (EvMakedirs output_dir) (fun t => os_makedirs env t output_dir) ;;;
      timestamp <- (fun w => (Ok (timestamp env (trace w)), w)) ;;
      let output_path :=
        os_path_join output_dir
          ("snapshot_" ++ address device ++ "_" ++ timestamp ++ ".jpg") in
      try_except
        (let context := get_context (dev_name device) in
         snapshot_url <- _try_device_urls device context cred ;;
         saved <-
           match snapshot_url with
           | Some u =>
               if PyStr.truthy u then save_from_url u cred output_path
               else ret None
           | None => ret None
           end ;;
         match saved with
         | Some p => ret (Some p)
         | None =>
             profiles <- _get_media_profiles device cred ;;
             result <- capture_profiles device cred output_path profiles ;;
             match result with
             | Some r => ret (Some r)
             | None =>
                 Logger_error "Failed to capture snapshot through any method" ;;;
                 ret None
             end
         end)
        any_Exception
        (fun e =>
           Logger_error ("Error capturing snapshot: " ++ exn_str e) ;;;
           ret None)
  end.

End Methods.
End ONVIFSnapshot.

(** ** snapshot/base.py: class ONVIFSnapshotBase *)

Module ONVIFSnapshotBase.

(** What the module-level name [time] can be bound to: the module [time]
    of the standard library (after [import time]), or the class
    [datetime.time] (after [from datetime import time]). *)
Inductive TimeName :=
| TimeModule
| DatetimeTimeClass.

(** Line 2 of base.py: [from datetime import time]. *)
Definition time : TimeName := DatetimeTimeClass.

(** How an iteration of a loop ends: it goes on with the next one, leaves
    the loop, or returns from the function. *)
Inductive Flow (A : Type) :=
| Continue
| Break
| Return (a : A).
Arguments Continue {A}.
Arguments Break {A}.
Arguments Return {A} a.

(** [data.startswith(prefix)] on bytes. *)
Fixpoint bytes_startswith (pre data : list Byte.byte) : bool :=
  match pre with
  | [] => true
  | a :: pre' =>
      match data with
      | [] => false
      | b :: data' => Byte.eqb a b && bytes_startswith pre' data'
      end
  end.

Definition jpeg_header : list Byte.byte := [Byte.xff; Byte.xd8; Byte.xff].
Definition png_header : list Byte.byte :=
  [Byte.x89; Byte.x50; Byte.x4e; Byte.x47;
   Byte.x0d; Byte.x0a; Byte.x1a; Byte.x0a].

(** [_is_valid_image] *)
Definition _is_valid_image (data : list Byte.byte) : bool :=
  if bytes_startswith jpeg_header data then true
  else if bytes_startswith png_header data then true
  else false.

(** [int(x)] on a float: truncation towards zero. *)
Definition int_of_Q (x : Q) : Z := Z.quot (Qnum x) (Z.pos (Qden x)).

(** [range(n)] *)
Definition range (n : Z) : list Z := map Z.of_nat (seq 0 (Z.to_nat n)).

Section Methods.

Variable env : Env.
(** [self.timeout] and [self.max_retries] *)
Variable timeout : Z.
Variable max_retries : Z.

(** [time.time()], for a binding [tm] of the name [time]: the class
    [datetime.time] has no attribute [time]. *)
Definition time_time (tm : TimeName) : M Q :=
  match tm with
  | TimeModule => fun w => (Ok (clock env (trace w)), w)
  | DatetimeTimeClass =>
      raise (mkExn AttributeError
               "type object 'datetime.time' has no attribute 'time'")
  end.

(** [time.sleep(seconds)]; the class [datetime.time] has no attribute
    [sleep] either. *)
Definition time_sleep (tm : TimeName) (seconds : Q) : M unit :=
  match tm with
  | TimeModule => perform (EvSleep seconds) (fun _ => Ok tt)
  | DatetimeTimeClass =>
      raise (mkExn AttributeError
               "type object 'datetime.time' has no attribute 'sleep'")
  end.

(** [self.session.get(url, auth=..., timeout=min(3, self.timeout),
    headers=..., stream=True, allow_redirects=True)] *)
Definition session_get (url : string) (auth : AuthHandler)
           (hdrs : list (string * string)) : M Response :=
  perform (EvGet url auth hdrs (Z.min 3 timeout))
          (fun t => requests_get env t url auth hdrs).

Definition close : M unit := perform EvClose (fun _ => Ok tt).

(** The first statements of the [try] block, up to the assignment of
    [response]. *)
Definition fetch (tm : TimeName) (url : string) (auth : AuthHandler)
           (hdrs : list (string * string)) : M Response :=
  now <- time_time tm ;;
  let cache_buster := "nocache=" ++ PyStr.of_Z (int_of_Q now) in
  let url_with_cache_buster :=
    url ++ (if PyStr.char_in "?" url then "&" else "?") ++ cache_buster in
  session_get url_with_cache_buster auth hdrs.

(** The rest of the [try] block, once [response] is assigned. *)
Definition after_get (tm : TimeName) (response : Response) (attempt : Z)
  : M (Flow (list Byte.byte)) :=
  let backoff : M (Flow (list Byte.byte)) :=
    (if (attempt <? max_retries - 1)%Z
     then time_sleep tm ((1 # 2) * inject_Z (attempt + 1))
     else ret tt) ;;;
    ret Continue in
  if (status_code response =? 200)%Z then
    let content_type :=
      PyStr.lower (headers_get (headers response) "content-type" "") in
    if PyStr.str_in "image/" content_type then
      data <- lift (content response) ;;
      if _is_valid_image data then ret (Return data) else backoff
    else backoff
  else if (status_code response =? 401)%Z then ret Break
  else backoff.

(** The [except] clauses ([Timeout], then [RequestException]) and the
    [finally] clause around a part [m] of the [try] block; [response] is
    the value of the variable when the part ends. *)
Definition guarded (response : option Response)
           (m : M (Flow (list Byte.byte))) : M (Flow (list Byte.byte)) :=
  try_finally
    (try_except m
       (fun e => is_Timeout e || is_RequestException e)
       (fun _ => ret Continue))
    (match response with
     | Some r => if response_ok r then close else ret tt
     | None => ret tt
     end).

(** One iteration of the loop; [response] is the value of the variable
    from the iterations before.  The result carries its new value. *)
Definition attempt_once (tm : TimeName) (url : string) (auth : AuthHandler)
           (hdrs : list (string * string)) (attempt : Z)
           (response : option Response)
  : M (option Response * Flow (list Byte.byte)) :=
  fun w =>
    match fetch tm url auth hdrs w with
    | (Ok r, w1) =>
        bind (guarded (Some r) (after_get tm r attempt))
             (fun flow => ret (Some r, flow)) w1
    | (Raise e, w1) =>
        bind (guarded response (raise e))
             (fun flow => ret (response, flow)) w1
    end.

(** The loop [for attempt in range(self.max_retries)], followed by
    [return None]. *)
Fixpoint attempts_loop (tm : TimeName) (url : string) (auth : AuthHandler)
         (hdrs : list (string * string)) (attempts : list Z)
         (response : option Response) : M (option (list Byte.byte)) :=
  match attempts with
  | [] => ret None
  | attempt :: rest =>
      step <- attempt_once tm url auth hdrs attempt response ;;
      match snd step with
      | Return data => ret (Some data)
      | Break => ret None
      | Continue => attempts_loop tm url auth hdrs rest (fst step)
      end
  end.

(** [_try_snapshot_url], for a binding [tm] of the name [time]. *)
Definition try_snapshot_url_with (tm : TimeName) (url : string)
           (auth : Credential) (hdrs : list (string * string))
  : M (option (list Byte.byte)) :=
  let auth_handler := auth_handler_of auth in
  attempts_loop tm url auth_handler hdrs (range max_retries) None.

(** [_try_snapshot_url] as base.py has it. *)
Definition _try_snapshot_url (url : string) (auth : Credential)
           (hdrs : list (string * string)) : M (option (list Byte.byte)) :=
  try_snapshot_url_with time url auth hdrs.

(** [_create_get_snapshot_uri_message] *)
Definition _create_get_snapshot_uri_message (profile_token : string)
  : string :=
  soap_header
  ++ "        <GetSnapshotUri xmlns=" ++ dq
  ++ "http://www.onvif.org/ver10/media/wsdl" ++ dq ++ ">" ++ nl
  ++ "            <ProfileToken>" ++ profile_token ++ "</ProfileToken>" ++ nl
  ++ "        </GetSnapshotUri>" ++ nl
  ++ soap_footer.

(** [self.session.post(url, auth=..., data=soap_message,
    headers={"Content-Type": "application/soap+xml"},
    timeout=self.timeout)] *)
Definition session_post (url : string) (auth : AuthHandler) (data : string)
  : M Response :=
  let hdrs := [("Content-Type", "application/soap+xml")] in
  perform (EvPost url auth data hdrs timeout)
          (fun t => requests_post env t url auth data).

(** [_create_soap_request]: the parsed answer on status 200, [None] in
    every other case. *)
Definition _create_soap_request (url soap_message : string)
           (auth : Credential) : M (option ET.Element) :=
  found <-
    try_except
      (let auth_handler := auth_handler_of auth in
       response <- session_post url auth_handler soap_message ;;
       if (status_code response =? 200)%Z then
         root <- lift (fromstring env (text response)) ;;
         ret (Some root)
       else ret None)
      any_Exception
      (fun _ => ret None) ;;
  match found with
  | Some root => ret (Some root)
  | None => ret None
  end.

End Methods.
End ONVIFSnapshotBase.

(** ** snapshot/profile.py: class MediaProfileHandler *)

Module MediaProfileHandler.
Section Methods.

(** [self._namespaces], given to the constructor *)
Variable _namespaces : list (string * string).
(** [urllib.parse.urlparse] *)
Variable urlparse : string -> PyResult UrlParse.ParseResult.

(** [get_media_profiles]: an exception of the lookup is swallowed, the
    profiles collected so far (none) are returned. *)
Definition get_media_profiles (soap_response : ET.Element)
  : list ProfileInfo :=
  match find_profile_elements soap_response _namespaces with
  | Ok profile_elements => collect_profiles profile_elements
  | Raise _ => []
  end.

(** [if not parsed.port]: no port, or port 0. *)
Definition port_missing (port : option Z) : bool :=
  match port with
  | None => true
  | Some p => (p =? 0)%Z
  end.

(** [normalize_rtsp_url] *)
Definition normalize_rtsp_url (url device_host : string) : PyResult string :=
  if negb (PyStr.startswith "rtsp://" url) then
    Ok ("rtsp://" ++ device_host ++ ":" ++ PyStr.of_Z 554
        ++ (if PyStr.startswith "/" url then url else "/" ++ url))
  else
    pbind (urlparse url) (fun parsed =>
    pbind (UrlParse.port parsed) (fun port =>
    if port_missing port then
      let parts1 := fmt_opt_str (UrlParse.hostname parsed) ++ ":554" in
      Ok (UrlParse.scheme parsed ++ "://" ++ parts1 ++ UrlParse.path parsed)
    else Ok url)).

(** [extract_uri_from_response] *)
Definition extract_uri_from_response (soap_response : ET.Element)
  : option string :=
  match ET.find_local_name soap_response "Uri" with
  | Ok (Some uri_element) =>
      match ET.text uri_element with
      | Some uri => if PyStr.truthy uri then Some uri else None
      | None => None
      end
  | Ok None => None
  | Raise _ => None
  end.

End Methods.
End MediaProfileHandler.

(** ** snapshot/capability.py: class CapabilityDetector *)

(** [d[k] = v] on an insertion-ordered dict: the value of an existing key
    is replaced, a new key is added at the end. *)
Fixpoint dict_set {V : Type} (d : list (string * V)) (k : string) (v : V)
  : list (string * V) :=
  match d with
  | [] => [(k, v)]
  | (k', v') :: d' =>
      if String.eqb k' k then (k', v) :: d' else (k', v') :: dict_set d' k v
  end.

(** [s.add(x)] on a set of strings, kept as a list without repetition. *)
Definition set_add (x : string) (s : list string) : list string :=
  if mem_str x s then s else (s ++ [x])%list.

(** [x is not None] *)
Definition is_not_None {A : Type} (x : option A) : bool :=
  match x with Some _ => true | None => false end.

Module CapabilityDetector.
Section Methods.

(** [self._namespaces], given to the constructor *)
Variable _namespaces : list (string * string).
(** [urllib.parse.urlparse] *)
Variable urlparse : string -> PyResult UrlParse.ParseResult.

(** [_create_get_capabilities_message] *)
Definition _create_get_capabilities_message : string :=
  soap_header
  ++ "        <tds:GetCapabilities xmlns:tds=" ++ dq
  ++ "http://www.onvif.org/ver10/device/wsdl" ++ dq ++ ">" ++ nl
  ++ "            <tds:Category>Media</tds:Category>" ++ nl
  ++ "            <tds:Category>Imaging</tds:Category>" ++ nl
  ++ "        </tds:GetCapabilities>" ++ nl
  ++ soap_footer.

(** [e.find(".//prefix:local", self._namespaces) or
     e.find(".//*[local-name()='local']")]: the second lookup is
    evaluated when the first gives [None] or an element that is false,
    that is, one without children. *)
Definition find_or_local (e : ET.Element) (prefix local : string)
  : PyResult (option ET.Element) :=
  pbind (ET.find_prefixed e prefix local _namespaces) (fun a =>
  match a with
  | Some x => if ET.truthy x then Ok (Some x) else ET.find_local_name e local
  | None => ET.find_local_name e local
  end).

(** The statements under [if media is not None]; the dict is returned as
    it is when an exception is raised. *)
Definition media_capabilities (media : ET.Element)
           (capabilities : list (string * bool))
  : PyResult unit * list (string * bool) :=
  match find_or_local media "tt" "SnapshotUri" with
  | Raise e => (Raise e, capabilities)
  | Ok snapshot =>
      let capabilities :=
        dict_set capabilities "SupportsSnapshot" (is_not_None snapshot) in
      match find_or_local media "tt" "JPEG" with
      | Raise e => (Raise e, capabilities)
      | Ok jpeg =>
          let capabilities :=
            dict_set capabilities "SupportsJPEG" (is_not_None jpeg) in
          match find_or_local media "tt" "H264" with
          | Raise e => (Raise e, capabilities)
          | Ok h264 =>
              (Ok tt,
               dict_set capabilities "SupportsH264" (is_not_None h264))
          end
      end
  end.

(** [_extract_snapshot_capabilities]: an exception ends the [try] block,
    and the dict filled so far is returned. *)
Definition _extract_snapshot_capabilities (soap_response : ET.Element)
  : list (string * bool) :=
  let capabilities : list (string * bool) := [] in
  match find_or_local soap_response "trt" "Media" with
  | Raise _ => capabilities
  | Ok media =>
      let '(done, capabilities) :=
        match media with
        | Some m => media_capabilities m capabilities
        | None => (Ok tt, capabilities)
        end in
      match done with
      | Raise _ => capabilities
      | Ok _ =>
          match find_or_local soap_response "timg" "Imaging" with
          | Raise _ => capabilities
          | Ok (Some _) => dict_set capabilities "SupportsImaging" true
          | Ok None => capabilities
          end
      end
  end.

Definition common_snapshot_paths : list string :=
  ["/onvif/snapshot"; "/onvif/media/snapshot"; "/onvif-http/snapshot";
   "/media/snapshot"; "/snapshot"].

Definition common_stream_paths : list string :=
  ["/onvif/media/video1"; "/onvif/video"; "/live/main"; "/live/ch1";
   "/stream1"; "/h264"].

(** The loop [for elem in ...] of both endpoint methods: the text of the
    [Uri] under each element is added, as it is when it starts with
    [absolute], behind [base] otherwise.  The set is returned as it is
    when an exception is raised. *)
Fixpoint add_uris (absolute base : string) (elems : list ET.Element)
         (endpoints : list string) : PyResult unit * list string :=
  match elems with
  | [] => (Ok tt, endpoints)
  | elem :: rest =>
      match ET.find_local_name elem "Uri" with
      | Raise e => (Raise e, endpoints)
      | Ok uri =>
          let endpoints :=
            match uri with
            | Some u =>
                match ET.text u with
                | Some uri_text =>
                    if PyStr.truthy uri_text then
                      if PyStr.startswith absolute uri_text
                      then set_add uri_text endpoints
                      else set_add (base ++ uri_text) endpoints
                    else endpoints
                | None => endpoints
                end
            | None => endpoints
            end in
          add_uris absolute base rest endpoints
      end
  end.

(** [endpoints.update(f"{base}{path}" for path in common_paths)] *)
Definition add_common (base : string) (common_paths endpoints : list string)
  : list string :=
  fold_left (fun s path => set_add (base ++ path) s) common_paths endpoints.

(** [get_snapshot_endpoints] *)
Definition get_snapshot_endpoints (device_url : string)
           (soap_response : ET.Element) : list string :=
  let endpoints : list string := [] in
  match urlparse device_url with
  | Raise _ => endpoints
  | Ok parsed =>
      match UrlParse.port parsed with
      | Raise _ => endpoints
      | Ok port =>
          let base_url :=
            UrlParse.scheme parsed ++ "://"
            ++ fmt_opt_str (UrlParse.hostname parsed) ++ ":"
            ++ fmt_opt_Z port in
          match ET.findall_local_name soap_response "SnapshotUri" with
          | Raise _ => endpoints
          | Ok snapshot_elements =>
              match add_uris "http" base_url snapshot_elements endpoints with
              | (Raise _, endpoints) => endpoints
              | (Ok _, endpoints) =>
                  add_common base_url common_snapshot_paths endpoints
              end
          end
      end
  end.

(** [get_stream_endpoints] *)
Definition get_stream_endpoints (device_url : string)
           (soap_response : ET.Element) : list string :=
  let endpoints : list string := [] in
  match urlparse device_url with
  | Raise _ => endpoints
  | Ok parsed =>
      let base := "rtsp://" ++ fmt_opt_str (UrlParse.hostname parsed)
                  ++ ":554" in
      match
        pbind (ET.findall_local_name soap_response "StreamingUri") (fun a =>
        or_else a (ET.findall_local_name soap_response "StreamUri"))
      with
      | Raise _ => endpoints
      | Ok stream_elements =>
          match add_uris "rtsp" base stream_elements endpoints with
          | (Raise _, endpoints) => endpoints
          | (Ok _, endpoints) => add_common base common_stream_paths endpoints
          end
      end
  end.

End Methods.
End CapabilityDetector.

(** ** scripts/release.py *)

Module Release.

(** [os.getenv]: the value of a variable, or [None]. *)
Definition Getenv : Type := string -> option string.

Definition required_vars : list string := ["GH_TOKEN"; "PYPI_TOKEN"].

(** [not os.getenv(var)]: the variable is not set, or set to the empty
    string. *)
Definition unset (getenv : Getenv) (var : string) : bool :=
  match getenv var with
  | Some value => negb (PyStr.truthy value)
  | None => true
  end.

(** [verify_environment] *)
Definition verify_environment (getenv : Getenv) : list string :=
  filter (unset getenv) required_vars.

(** An absolute path, as the list of its components with the last
    component first; the root directory is the empty list, and it is its
    own parent. *)
Definition Path : Type := list string.

Definition parent (p : Path) : Path := tl p.

(** [p / name] *)
Definition joinpath (p : Path) (name : string) : Path := name :: p.

(** [str(p)] *)
Definition path_str (p : Path) : string :=
  match p with
  | [] => "/"
  | _ => String.concat "" (map (fun c => "/" ++ c) (rev p))
  end.

(** The loop of [find_dotenv], from the directory [current]: it ends at
    the root, where [current == current.parent], without looking
    there. *)
Fixpoint find_dotenv_from (path_exists : Path -> bool) (current : Path)
  : option Path :=
  match current with
  | [] => None
  | _ :: parent =>
      let env_file := joinpath current ".env" in
      if path_exists env_file then Some env_file
      else find_dotenv_from path_exists parent
  end.

(** [find_dotenv], with [cwd] for [Path.cwd()]. *)
Definition find_dotenv (path_exists : Path -> bool) (cwd : Path)
  : option Path :=
  find_dotenv_from path_exists cwd.

(** How [subprocess.run(cmd, check=True, text=True, capture_output=True)]
    ends. *)
Inductive RunOutcome :=
| Completed (stdout stderr : string)
| CalledProcessError (returncode : Z) (stdout stderr : string)
| KeyboardInterrupt
| OtherException (message : string).

(** What [main] does, in order. *)
Inductive Action :=
| Stdout (text : string)
| Stderr (text : string)
| LoadDotenv (env_file : Path)
| RunProcess (cmd : list string).

(** Where [main] runs: the arguments, the working directory, the files
    that exist, the environment as it is after [load_dotenv(env_file)],
    and the behaviour of the process. *)
Record Host := mkHost {
  argv : list string;
  cwd : Path;
  path_exists : Path -> bool;
  getenv_after_load : Path -> Getenv;
  run : list string -> RunOutcome
}.

Definition help_text : string :=
  nl ++ "📦 ONVIF Scout Release Tool" ++ nl
  ++ nl
  ++ "Commands:" ++ nl
  ++ "  changelog   Generate changelog only" ++ nl
  ++ "  version    Update version and changelog" ++ nl
  ++ "  publish    Full release (version + changelog + build + publish)" ++ nl
  ++ nl
  ++ "Example usage:" ++ nl
  ++ "  python scripts/release.py changelog" ++ nl
  ++ "  python scripts/release.py publish" ++ nl
  ++ nl
  ++ "Environment:" ++ nl
  ++ "  Required variables in .env file:" ++ nl
  ++ "  - GH_TOKEN: GitHub personal access token" ++ nl
  ++ "  - PYPI_TOKEN: PyPI API token" ++ nl.

Definition valid_commands : list string := ["changelog"; "version"; "publish"].

(** The [try] block of [main] with its handlers. *)
Definition run_semantic_release (h : Host) (args : list string)
  : list Action * option Z :=
  let cmd := ("semantic-release" :: args)%list in
  let start :=
    [Stdout ("🚀 Running: semantic-release " ++ String.concat " " args);
     RunProcess cmd] in
  match run h cmd with
  | Completed stdout stderr =>
      ((start
        ++ [Stdout stdout]
        ++ (if PyStr.truthy stderr
            then [Stderr "Warnings/Errors:"; Stderr stderr] else [])
        ++ [Stdout (nl ++ "✨ Release process completed successfully!")])%list,
       None)
  | CalledProcessError returncode stdout stderr =>
      ((start
        ++ [Stdout (nl ++ "❌ Release process failed!")]
        ++ (if PyStr.truthy stdout
            then [Stdout (nl ++ "Output:"); Stdout stdout] else [])
        ++ (if PyStr.truthy stderr
            then [Stdout (nl ++ "Errors:"); Stdout stderr] else []))%list,
       Some returncode)
  | KeyboardInterrupt =>
      ((start ++ [Stdout (nl ++ "🛑 Operation cancelled by user")])%list,
       Some 1%Z)
  | OtherException message =>
      ((start ++ [Stdout (nl ++ "❌ Unexpected error: " ++ message)])%list,
       Some 1%Z)
  end.

(** [main]: what it does, and the argument of [sys.exit] ([None] when
    [main] returns). *)
Definition main (h : Host) : list Action * option Z :=
  match argv h with
  | [] | [_] => ([Stdout help_text], Some 0%Z)
  | _ :: command :: rest =>
      if mem_str command ["-h"; "--help"; "help"]
      then ([Stdout help_text], Some 0%Z)
      else
        match find_dotenv (path_exists h) (cwd h) with
        | None =>
            ([Stdout
                "❌ Error: No .env file found in current or parent directories";
              Stdout "Please create a .env file with GH_TOKEN and PYPI_TOKEN"],
             Some 1%Z)
        | Some env_file =>
            let missing_vars :=
              verify_environment (getenv_after_load h env_file) in
            match missing_vars with
            | _ :: _ =>
                ((LoadDotenv env_file
                  :: Stdout "❌ Error: Missing required environment variables:"
                  :: map (fun var => Stdout ("  - " ++ var)) missing_vars
                  ++ [Stdout (nl ++ "Please add them to your .env file at: "
                              ++ path_str env_file)])%list,
                 Some 1%Z)
            | [] =>
                if negb (mem_str command valid_commands) then
                  ([LoadDotenv env_file;
                    Stdout ("❌ Error: Unknown command '" ++ command ++ "'");
                    Stdout ("Valid commands are: "
                            ++ String.concat ", " valid_commands)],
                   Some 1%Z)
                else
                  let '(actions, exit) :=
                    run_semantic_release h (command :: rest) in
                  ((LoadDotenv env_file :: actions)%list, exit)
            end
        end
  end.

End Release.

(** ** device_manager/manager.py: class DeviceManager *)

(** A value as [json.load] returns it.  A number is kept as its literal;
    the code below never computes with one. *)
#[warnings="-register-all"]
Inductive JSON :=
| JNull
| JBool (b : bool)
| JNumber (literal : string)
| JString (s : string)
| JArray (items : list JSON)
| JObject (members : list (string * JSON)).

(** [del d[k]] on a dict that has the key. *)
Definition dict_del {V : Type} (d : list (string * V)) (k : string)
  : list (string * V) :=
  filter (fun kv => negb (String.eqb (fst kv) k)) d.

Module DeviceManager.

(** The result of an operation that may raise; of an exception only
    [str(e)] is used by the handlers. *)
Inductive Outcome (A : Type) :=
| Done (a : A)
| Raised (message : string).
Arguments Done {A} a.
Arguments Raised {A} message.

(** [type(v).__name__]: a number literal with a fraction or an exponent,
    and [NaN], [Infinity] and [-Infinity], are read as [float]. *)
Definition type_name (v : JSON) : string :=
  match v with
  | JNull => "NoneType"
  | JBool _ => "bool"
  | JNumber literal =>
      if PyStr.char_in "." literal || PyStr.char_in "e" literal
         || PyStr.char_in "E" literal || PyStr.char_in "N" literal
         || PyStr.char_in "I" literal
      then "float" else "int"
  | JString _ => "str"
  | JArray _ => "list"
  | JObject _ => "dict"
  end.

(** [key in v] for a string [key]; the messages of the [TypeError]s are
    those of CPython 3.11. *)
Definition contains (key : string) (v : JSON) : Outcome bool :=
  match v with
  | JObject members => Done (is_not_None (dict_getitem members key))
  | JArray items =>
      Done (existsb (fun item => match item with
                                 | JString s => String.eqb s key
                                 | _ => false
                                 end) items)
  | JString s => Done (PyStr.str_in key s)
  | _ => Raised ("argument of type '" ++ type_name v ++ "' is not iterable")
  end.

(** [del v[key]], after [key in v] held. *)
Definition delitem (v : JSON) (key : string) : Outcome JSON :=
  match v with
  | JObject members => Done (JObject (dict_del members key))
  | JArray _ => Raised "list indices must be integers or slices, not str"
  | _ => Raised ("'" ++ type_name v ++ "' object does not support item deletion")
  end.

(** [v[key]], after [key in v] held. *)
Definition getitem (v : JSON) (key : string) : Outcome JSON :=
  match v with
  | JObject members =>
      match dict_getitem members key with
      | Some item => Done item
      | None => Raised ("'" ++ key ++ "'")
      end
  | JArray _ => Raised "list indices must be integers or slices, not str"
  | JString _ => Raised "string indices must be integers, not 'str'"
  | _ => Raised ("'" ++ type_name v ++ "' object is not subscriptable")
  end.

(** [v[key] = item] *)
Definition setitem (v : JSON) (key : string) (item : JSON) : Outcome JSON :=
  match v with
  | JObject members => Done (JObject (dict_set members key item))
  | JArray _ => Raised "list indices must be integers or slices, not str"
  | _ => Raised ("'" ++ type_name v
                 ++ "' object does not support item assignment")
  end.

(** The content of a file: text that [json.load] reads as a value, or
    text that it rejects with a [JSONDecodeError]. *)
Inductive FileData :=
| Parsable (value : JSON)
| Unparsable (message : string).

Inductive Level := DEBUG | WARNING | ERROR.

(** The two files of the manager, [devices.json] and [devices.tmp]
    ([None]: the file does not exist), and what [Logger] was given.
    [Logger] is of [utils], which is not part of the sources at hand; its
    calls are recorded. *)
Record Store := mkStore {
  devices_file : option FileData;
  temp_file : option FileData;
  log : list (Level * string)
}.

(** Where the file system fails during one call: [str(e)] of the
    exception of [devices_file.exists()], of opening and reading the
    devices file, of [open(temp_file, "w")], of writing in [json.dump]
    (which leaves [torn] in the temporary file), of [temp_file.replace]
    and of [devices_file.unlink()]. *)
Record Faults := mkFaults {
  exists_fault : option string;
  read_fault : option string;
  open_fault : option string;
  dump_fault : option string;
  torn : FileData;
  replace_fault : option string;
  unlink_fault : option string
}.

Definition Logger (level : Level) (message : string) (st : Store) : Store :=
  mkStore (devices_file st) (temp_file st)
          (log st ++ [(level, message)])%list.

Section Methods.

Variable faults : Faults.

(** [load_devices] *)
Definition load_devices (st : Store) : JSON * Store :=
  match exists_fault faults with
  | Some message =>
      (JObject [], Logger ERROR ("Failed to load devices: " ++ message) st)
  | None =>
      match devices_file st with
      | None => (JObject [], st)
      | Some data =>
          match read_fault faults with
          | Some message =>
              (JObject [],
               Logger ERROR ("Failed to load devices: " ++ message) st)
          | None =>
              match data with
              | Parsable value => (value, st)
              | Unparsable message =>
                  (JObject [],
                   Logger ERROR ("Failed to parse devices file: " ++ message)
                          st)
              end
          end
      end
  end.

(** The atomic write shared by the methods: [json.dump] into the
    temporary file, then [temp_file.replace(self.devices_file)]. *)
Definition write_devices (devices : JSON) (st : Store)
  : Outcome unit * Store :=
  match open_fault faults with
  | Some message => (Raised message, st)
  | None =>
      match dump_fault faults with
      | Some message =>
          (Raised message,
           mkStore (devices_file st) (Some (torn faults)) (log st))
      | None =>
          match replace_fault faults with
          | Some message =>
              (Raised message,
               mkStore (devices_file st) (Some (Parsable devices)) (log st))
          | None =>
              (Done tt, mkStore (Some (Parsable devices)) None (log st))
          end
      end
  end.

(** [delete_device] *)
Definition delete_device (address : string) (st : Store) : bool * Store :=
  let failed message st' :=
    (false, Logger ERROR ("Failed to delete device: " ++ message) st') in
  let '(devices, st1) := load_devices st in
  match contains address devices with
  | Raised message => failed message st1
  | Done false =>
      (false, Logger WARNING ("Device " ++ address ++ " not found") st1)
  | Done true =>
      match delitem devices address with
      | Raised message => failed message st1
      | Done devices' =>
          match write_devices devices' st1 with
          | (Raised message, st2) => failed message st2
          | (Done _, st2) =>
              (true,
               Logger DEBUG ("Device " ++ address ++ " deleted successfully")
                      st2)
          end
      end
  end.

(** [if value is not None: device_data[key] = value] *)
Definition set_if_given (key : string) (value : option JSON)
           (device_data : Outcome JSON) : Outcome JSON :=
  match device_data with
  | Raised message => Raised message
  | Done data =>
      match value with
      | Some item => setitem data key item
      | None => Done data
      end
  end.

(** [devices] after the object it holds under [key] has become
    [device_data]: the assignments of [update_device_metadata] are made
    on the object that [devices] holds, not on a copy. *)
Definition held (devices : JSON) (key : string) (device_data : JSON) : JSON :=
  match devices with
  | JObject members => JObject (dict_set members key device_data)
  | _ => devices
  end.

(** [update_device_metadata] *)
Definition update_device_metadata (address : string) (group : option string)
           (tags : option (list string)) (description : option string)
           (st : Store) : bool * Store :=
  let failed message st' :=
    (false,
     Logger ERROR ("Failed to update device metadata: " ++ message) st') in
  let '(devices, st1) := load_devices st in
  match contains address devices with
  | Raised message => failed message st1
  | Done false =>
      (false, Logger ERROR ("Device " ++ address ++ " not found") st1)
  | Done true =>
      match getitem devices address with
      | Raised message => failed message st1
      | Done device_data =>
          match
            set_if_given "description" (option_map JString description)
              (set_if_given "tags"
                 (option_map (fun l => JArray (map JString l)) tags)
                 (set_if_given "group" (option_map JString group)
                    (Done device_data)))
          with
          | Raised message => failed message st1
          | Done device_data' =>
              match write_devices (held devices address device_data') st1 with
              | (Raised message, st2) => failed message st2
              | (Done _, st2) =>
                  (true,
                   Logger DEBUG
                     ("Device " ++ address
                      ++ " metadata updated successfully") st2)
              end
          end
      end
  end.

(** [clear_all] *)
Definition clear_all (st : Store) : bool * Store :=
  let failed message :=
    (false, Logger ERROR ("Failed to clear devices: " ++ message) st) in
  match exists_fault faults with
  | Some message => failed message
  | None =>
      match devices_file st with
      | None => (true, st)
      | Some _ =>
          match unlink_fault faults with
          | Some message => failed message
          | None => (true, mkStore None (temp_file st) (log st))
          end
      end
  end.

End Methods.
End DeviceManager.

(** ** A concrete world for examples

    An environment whose answers do not depend on the past: [get] and
    [post] answer by URL, the clock stands still, the file system and
    ffmpeg succeed, XML texts are parsed by [parse], and [int] reads
    ASCII digits. *)
Definition simple_int (s : string) : PyResult Z :=
  if PyStr.truthy s && UrlParse.all_chars UrlParse.is_digit s
  then Ok (UrlParse.digits_value 0 s)
  else Raise (mkExn ValueError "invalid literal for int() with base 10").

Definition simple_env (get : string -> PyResult Response)
           (post : string -> PyResult Response)
           (parse : string -> PyResult ET.Element) : Env := {|
  requests_get := fun _ url _ _ => get url;
  requests_post := fun _ url _ _ => post url;
  clock := fun _ => 1700000000 # 1;
  timestamp := fun _ => "20240101_120000";
  os_makedirs := fun _ _ => Ok tt;
  write_file := fun _ _ _ => Ok tt;
  subprocess_run := fun _ _ => Ok 0%Z;
  os_path_exists := fun _ _ => true;
  fromstring := parse;
  py_int := simple_int;
  urlparse := UrlParse.urlparse
|}.

(** Responses for the examples. *)
Definition jpeg_bytes : list Byte.byte :=
  [Byte.xff; Byte.xd8; Byte.xff; Byte.xe0; Byte.x00; Byte.x10].

Definition jpeg_response : Response := {|
  status_code := 200;
  headers := [("Content-Type", "image/jpeg"); ("Content-Length", "5000")];
  content := Ok jpeg_bytes;
  text := ""
|}.

Definition html_response : Response := {|
  status_code := 200;
  headers := [("Content-Type", "text/html"); ("Content-Length", "5000")];
  content := Ok [];
  text := "<html></html>"
|}.

Definition octet_jpeg_response : Response := {|
  status_code := 200;
  headers := [("Content-Type", "application/octet-stream");
              ("Content-Length", "5000")];
  content := Ok jpeg_bytes;
  text := ""
|}.

Definition status_response (status : Z) : Response := {|
  status_code := status;
  headers := [];
  content := Ok [];
  text := ""
|}.

(** A camera that names itself Hikvision-X, with one credential. *)
Definition demo_cred : Credential := ("admin", "pw", "Digest").

Definition demo_device : ONVIFDevice := {|
  address := "192.168.1.64";
  dev_name := Some "Hikvision-X";
  urls := ["http://192.168.1.64:80/onvif/device_service"];
  valid_credentials := [demo_cred]
|}.

(** The same camera when no credential is known. *)
Definition demo_device_no_cred : ONVIFDevice := {|
  address := "192.168.1.64";
  dev_name := Some "Hikvision-X";
  urls := ["http://192.168.1.64:80/onvif/device_service"];
  valid_credentials := []
|}.

(** The camera serves a JPEG image at one path on port 80 and answers
    404 elsewhere. *)
Definition demo_get (url : string) : PyResult Response :=
  if String.eqb url "http://192.168.1.64:80/ISAPI/Streaming/channels/1/picture"
  then Ok jpeg_response
  else Ok (status_response 404).

(** The answer to GetProfiles, as an element tree: three profile
    elements, of which one has no token and one an empty token. *)
Definition trt (local : string) : string :=
  "{http://www.onvif.org/ver10/media/wsdl}" ++ local.

Definition demo_profiles_root : ET.Element :=
  ET.mkElement "{http://www.w3.org/2003/05/soap-envelope}Envelope" [] None
    [ET.mkElement "{http://www.w3.org/2003/05/soap-envelope}Body" [] None
       [ET.mkElement (trt "GetProfilesResponse") [] None
          [ET.mkElement (trt "Profiles")
                        [("token", "Profile_1"); ("name", "main")] None [];
           ET.mkElement (trt "Profiles") [("name", "nameless")] None [];
           ET.mkElement (trt "Profiles") [("token", ""); ("name", "empty")]
                        None []]]].

(** The media service of the camera times out at its first endpoint and
    answers at the second. *)
Definition demo_post (url : string) : PyResult Response :=
  if String.eqb url "http://192.168.1.64:80/ISAPI/Streaming"
  then Raise (mkExn Timeout "Read timed out.")
  else if String.eqb url "http://192.168.1.64:80/onvif/media_service"
  then Ok {| status_code := 200; headers := []; content := Ok [];
             text := "profiles" |}
  else Ok (status_response 404).

Definition demo_parse (text : string) : PyResult ET.Element :=
  if String.eqb text "profiles" then Ok demo_profiles_root
  else Raise (mkExn ParseError "syntax error: line 1, column 0").

Definition demo_env : Env := simple_env demo_get demo_post demo_parse.

(** The same camera announced without a port in its address, as a
    discovery answer usually gives it, over http and over https. *)
Definition portless_device : ONVIFDevice := {|
  address := "192.168.1.64";
  dev_name := Some "Hikvision-X";
  urls := ["http://192.168.1.64/onvif/device_service"];
  valid_credentials := [demo_cred]
|}.

Definition secure_portless_device : ONVIFDevice := {|
  address := "192.168.1.64";
  dev_name := Some "Hikvision-X";
  urls := ["https://192.168.1.64/onvif/device_service"];
  valid_credentials := [demo_cred]
|}.

(** [requests] refuses a URL whose port is not a number (an
    [InvalidURL], which is a [RequestException]); the camera serves a
    JPEG image at every path of the port it listens on, 80 for http and
    443 for https, and nothing answers elsewhere. *)
Definition portless_get (url : string) : PyResult Response :=
  if PyStr.str_in ":None/" url
  then Raise (mkExn RequestException ("Failed to parse: " ++ url))
  else if PyStr.startswith "http://192.168.1.64:80/" url
          || PyStr.startswith "https://192.168.1.64:443/" url
       then Ok jpeg_response
       else Raise (mkExn RequestException "Connection refused").

Definition portless_env : Env := simple_env portless_get demo_post demo_parse.

(** ** The vocabulary of the specification *)

(** The spec's words: [keyword] occurs in [device_name] as a substring,
    without regard to case. *)
Definition contains_ci (keyword device_name : string) : Prop :=
  exists pre post,
    PyStr.lower device_name = pre ++ PyStr.lower keyword ++ post.

(** The name contains a keyword of the profile. *)
Definition has_keyword_of (c : DeviceContext) (device_name : string) : Prop :=
  exists keyword, In keyword (keywords c) /\ contains_ci keyword device_name.

(** The spec's words: duplicates are removed, the first occurrence of each
    path is kept, the order is otherwise unchanged. *)
Fixpoint dedup_keep_first (l : list string) : list string :=
  match l with
  | [] => []
  | x :: rest =>
      x :: filter (fun y => negb (String.eqb y x)) (dedup_keep_first rest)
  end.

(** A list is a subsequence of another: it is obtained by removing
    elements. *)
Inductive subsequence {A} : list A -> list A -> Prop :=
| sub_nil : subsequence [] []
| sub_skip x l1 l2 : subsequence l1 l2 -> subsequence l1 (x :: l2)
| sub_keep x l1 l2 : subsequence l1 l2 -> subsequence (x :: l1) (x :: l2).

(** The world after further events. *)
Definition add_events (w : World) (es : list Event) : World :=
  mkWorld (trace w ++ es)%list (errors w).

(** The world after a further message to [Logger.error]. *)
Definition add_error (w : World) (msg : string) : World :=
  mkWorld (trace w) (errors w ++ [msg])%list.

(** The profile dict made from an element. *)
Definition profile_info_of (e : ET.Element) : ProfileInfo :=
  [("token", ET.get e "token" ""); ("name", ET.get e "name" "")].

(** The element has a token attribute that is not empty. *)
Definition token_present (e : ET.Element) : bool :=
  PyStr.truthy (ET.get e "token" "").

(** The profile has a non-empty token, so that [profile["token"]] can be
    given to a stream-URI call. *)
Definition has_token (p : ProfileInfo) : Prop :=
  exists t, dict_item p "token" = Ok t /\ t <> "".

(** The POST that [_get_media_profiles] sends to an endpoint. *)
Definition profiles_post (timeout : Z) (media_url : string)
           (auth : Credential) : Event :=
  EvPost media_url (auth_handler_of auth) _create_get_profiles_message
         [("Content-Type", "application/soap+xml")] timeout.

(** What an endpoint yields, from the answer to the POST: the profiles
    with a token, when the answer has status 200, its text is parsed and
    the lookup finds at least one such profile; nothing in every other
    case. *)
Definition endpoint_profiles (env : Env) (answer : PyResult Response)
  : option (list ProfileInfo) :=
  match answer with
  | Raise _ => None
  | Ok response =>
      if (status_code response =? 200)%Z then
        match fromstring env (text response) with
        | Raise _ => None
        | Ok root =>
            match find_profile_elements root snapshot_namespaces with
            | Raise _ => None
            | Ok profile_elements =>
                match collect_profiles profile_elements with
                | [] => None
                | profiles => Some profiles
                end
            end
        end
      else None
  end.

(** The spec's words for the walk over the media service paths: the
    endpoints are tried in order; the first one that yields profiles ends
    the walk with them, the ones after it are not tried; when all have
    been tried without success the result is the empty list. *)
Inductive endpoints_run (env : Env) (timeout : Z)
          (parsed : UrlParse.ParseResult) (auth : Credential)
  : list string -> World -> list ProfileInfo -> World -> Prop :=
| endpoints_exhausted w :
    endpoints_run env timeout parsed auth [] w [] w
| endpoint_success service_path rest w media_url profiles :
    ONVIFSnapshot.media_url_of parsed service_path = Ok media_url ->
    endpoint_profiles env
      (requests_post env (trace w) media_url (auth_handler_of auth)
                     _create_get_profiles_message) = Some profiles ->
    endpoints_run env timeout parsed auth (service_path :: rest) w profiles
                  (add_events w [profiles_post timeout media_url auth])
| endpoint_failure service_path rest w media_url r w' :
    ONVIFSnapshot.media_url_of parsed service_path = Ok media_url ->
    endpoint_profiles env
      (requests_post env (trace w) media_url (auth_handler_of auth)
                     _create_get_profiles_message) = None ->
    endpoints_run env timeout parsed auth rest
                  (add_events w [profiles_post timeout media_url auth]) r w' ->
    endpoints_run env timeout parsed auth (service_path :: rest) w r w'.

(** The spec's words for probing a list of URLs: the URLs are probed in
    order; the first one whose probe is a hit is returned, and nothing is
    returned only when every URL has been probed without a hit. *)
Inductive search_run (probe : string -> M bool)
  : list string -> World -> option string -> World -> Prop :=
| search_exhausted w : search_run probe [] w None w
| search_hit url rest w w' :
    probe url w = (Ok true, w') ->
    search_run probe (url :: rest) w (Some url) w'
| search_miss url rest w w' r w'' :
    probe url w = (Ok false, w') ->
    search_run probe rest w' r w'' ->
    search_run probe (url :: rest) w r w''.

(** The port a URL is served on when it names none: the default of its
    scheme. *)
Definition default_port (scheme : string) : option Z :=
  if String.eqb scheme "http" then Some 80%Z
  else if String.eqb scheme "https" then Some 443%Z
  else None.

(** The device's own port: the one its URL names, or the default of the
    scheme. *)
Definition own_port (parsed : UrlParse.ParseResult) : option Z :=
  match UrlParse.port parsed with
  | Ok (Some p) => Some p
  | _ => default_port (UrlParse.scheme parsed)
  end.

(** The number of occurrences of a port in a list of ports. *)
Definition count_port (p : option Z) (l : list (option Z)) : nat :=
  List.length (filter (port_eqb p) l).

(** The URLs of the GET requests among some events, in order. *)
Fixpoint get_urls (es : list Event) : list string :=
  match es with
  | [] => []
  | EvGet url _ _ _ :: rest => url :: get_urls rest
  | _ :: rest => get_urls rest
  end.

(** The verdict of [ONVIFSnapshot._try_snapshot_url] on the answer to its
    GET: a hit needs an answer with status 200, a content type that
    starts with "image/" and a declared length that is a number above
    1000. *)
Definition legacy_hit (env : Env) (answer : PyResult Response) : bool :=
  match answer with
  | Raise _ => false
  | Ok response =>
      (status_code response =? 200)%Z
      && match py_int env
                 (headers_get (headers response) "content-length" "0") with
         | Raise _ => false
         | Ok content_length =>
             PyStr.startswith "image/"
               (headers_get (headers response) "content-type" "")
             && (1000 <? content_length)%Z
         end
  end.

(** Whether [ONVIFSnapshot._try_snapshot_url] closes the response: it
    does unless the request or the reading of the length raised. *)
Definition legacy_closes (env : Env) (answer : PyResult Response) : bool :=
  match answer with
  | Raise _ => false
  | Ok response =>
      if (status_code response =? 200)%Z
      then is_Ok (py_int env
                    (headers_get (headers response) "content-length" "0"))
      else true
  end.

(** The exception of [time.time()] in base.py. *)
Definition no_attribute_time : PyExn :=
  mkExn AttributeError "type object 'datetime.time' has no attribute 'time'".

(** Kinds of events. *)
Definition is_post (e : Event) : bool :=
  match e with EvPost _ _ _ _ _ => true | _ => false end.

Definition is_run (e : Event) : bool :=
  match e with EvRun _ => true | _ => false end.

(** A computation adds events of the kind [P] only, and its outcome
    satisfies [Q]. *)
Definition run_sat {A : Type} (P : Event -> bool)
           (Q : PyResult A -> Prop) (m : M A) : Prop :=
  forall w, exists es,
    trace (snd (m w)) = (trace w ++ es)%list
    /\ forallb P es = true
    /\ Q (fst (m w)).

(** An outcome that is not an exception. *)
Definition returns {A : Type} (r : PyResult A) : Prop :=
  exists a, r = Ok a.

(** A parsed answer to GetStreamUri with the URI of a stream, and a
    camera whose media service gives this answer. *)
Definition demo_stream_uri_root : ET.Element :=
  ET.mkElement "{http://www.w3.org/2003/05/soap-envelope}Envelope" [] None
    [ET.mkElement "{http://www.w3.org/2003/05/soap-envelope}Body" [] None
       [ET.mkElement (trt "GetStreamUriResponse") [] None
          [ET.mkElement (trt "MediaUri") [] None
             [ET.mkElement "{http://www.onvif.org/ver10/schema}Uri" []
                           (Some "rtsp://192.168.1.64:554/Streaming/Channels/101")
                           []]]]].

Definition demo_stream_env : Env :=
  simple_env
    (fun _ => Ok (status_response 404))
    (fun _ => Ok {| status_code := 200; headers := []; content := Ok [];
                    text := "stream" |})
    (fun text =>
       if String.eqb text "stream" then Ok demo_stream_uri_root
       else Ok demo_profiles_root).

(** Every event but a run of ffmpeg. *)
Definition not_run (e : Event) : bool := negb (is_run e).

(** No condition on the outcome. *)
Definition any_outcome {A : Type} (r : PyResult A) : Prop := True.

(** A parsed answer to GetCapabilities: the media part names the
    snapshot URI (with the address under it) and has empty elements for
    JPEG and H264. *)
Definition tt_tag (local : string) : string :=
  "{http://www.onvif.org/ver10/schema}" ++ local.

Definition demo_capabilities_root : ET.Element :=
  ET.mkElement "{http://www.w3.org/2003/05/soap-envelope}Envelope" [] None
    [ET.mkElement "{http://www.w3.org/2003/05/soap-envelope}Body" [] None
       [ET.mkElement (trt "Media") [] None
          [ET.mkElement (tt_tag "SnapshotUri") [] None
             [ET.mkElement (tt_tag "Uri") []
                           (Some "http://192.168.1.64/onvif/snapshot") []];
           ET.mkElement (tt_tag "JPEG") [] None [];
           ET.mkElement (tt_tag "H264") [] None []]]].

(** ** The vocabulary of the release script *)

(** The variable is set, to a value that is not empty. *)
Definition env_set (getenv : Release.Getenv) (var : string) : Prop :=
  exists value, getenv var = Some value /\ value <> "".

(** [f] is the [.env] of the nearest directory that has one, among the
    working directory and its ancestors below the root. *)
Definition nearest_dotenv (path_exists : Release.Path -> bool)
           (cwd f : Release.Path) : Prop :=
  exists inner d,
    cwd = (inner ++ d)%list
    /\ d <> []
    /\ f = Release.joinpath d ".env"
    /\ path_exists f = true
    /\ forall i1 i2,
         inner = (i1 ++ i2)%list -> i2 <> [] ->
         path_exists (Release.joinpath (i2 ++ d)%list ".env") = false.

(** The action is a line of output. *)
Definition is_output (a : Release.Action) : Prop :=
  match a with
  | Release.Stdout _ | Release.Stderr _ => True
  | _ => False
  end.

(** [len(sys.argv) < 2 or sys.argv[1] in ["-h", "--help", "help"]] *)
Definition help_requested (h : Release.Host) : bool :=
  match Release.argv h with
  | _ :: command :: _ => mem_str command ["-h"; "--help"; "help"]
  | _ => true
  end.

Fixpoint path_eqb (p q : Release.Path) : bool :=
  match p, q with
  | [], [] => true
  | a :: p', b :: q' => String.eqb a b && path_eqb p' q'
  | _, _ => false
  end.

(** A file system whose only [.env] is the one of the root directory. *)
Definition only_root_dotenv (p : Release.Path) : bool :=
  path_eqb p [".env"].

Definition no_file (p : Release.Path) : bool := false.

(** A checkout in [/home/src/onvifscout] with a [.env] in [/home/src]
    that sets both tokens. *)
Definition demo_release_host : Release.Host :=
  Release.mkHost
    ["scripts/release.py"; "publish"]
    ["onvifscout"; "src"; "home"]
    (fun p => path_eqb p [".env"; "src"; "home"])
    (fun _ var => if mem_str var Release.required_vars
                  then Some "token" else None)
    (fun _ => Release.Completed "done" "").

(** ** The vocabulary of the device store *)

(** What [json.load] gives for the devices file, when the file is there
    and nothing fails. *)
Definition stored (faults : DeviceManager.Faults) (st : DeviceManager.Store)
  : option JSON :=
  match DeviceManager.exists_fault faults, DeviceManager.devices_file st,
        DeviceManager.read_fault faults with
  | None, Some (DeviceManager.Parsable value), None => Some value
  | _, _, _ => None
  end.

(** Nothing fails while the devices are written. *)
Definition writable (faults : DeviceManager.Faults) : Prop :=
  DeviceManager.open_fault faults = None
  /\ DeviceManager.dump_fault faults = None
  /\ DeviceManager.replace_fault faults = None.

(** The value of a field after [update_device_metadata]: the one given,
    or the old one. *)
Definition field_after (given old : option JSON) : option JSON :=
  match given with Some item => Some item | None => old end.

Definition no_faults : DeviceManager.Faults :=
  DeviceManager.mkFaults None None None None (DeviceManager.Unparsable "")
    None None.

Definition demo_devices : list (string * JSON) :=
  [("192.168.1.10",
    JObject [("address", JString "192.168.1.10");
             ("group", JString "default");
             ("tags", JArray [])]);
   ("192.168.1.11",
    JObject [("address", JString "192.168.1.11");
             ("group", JString "lab")])].

Definition demo_store : DeviceManager.Store :=
  DeviceManager.mkStore (Some (DeviceManager.Parsable (JObject demo_devices)))
    None [].

(** * Properties *)

(** ** Strings *)

Lemma startswith_iff (p s : string) :
  PyStr.startswith p s = true <-> exists post, s = p ++ post.
Proof.
  revert s. induction p as [|a p IH]; intros s; simpl.
  - split; [intros _; now exists s | reflexivity].
  - destruct s as [|b s].
    + split; [discriminate | intros [post H]; discriminate].
    + rewrite andb_true_iff, Ascii.eqb_eq, IH. split.
      * intros [-> [post ->]]. now exists post.
      * intros [post H]. injection H as -> ->. split; [reflexivity|now exists post].
Qed.

Lemma str_in_iff (sub s : string) :
  PyStr.str_in sub s = true <-> exists pre post, s = pre ++ sub ++ post.
Proof.
  induction s as [|c s IH]; simpl.
  - rewrite orb_false_r, startswith_iff. split.
    + intros [post H]. exists EmptyString, post. exact H.
    + intros [pre [post H]]. destruct pre; [now exists post | discriminate].
  - rewrite orb_true_iff, startswith_iff, IH. split.
    + intros [[post H] | [pre [post H]]].
      * exists EmptyString, post. exact H.
      * exists (String c pre), post. simpl. now rewrite H.
    + intros [pre [post H]]. destruct pre as [|c' pre]; simpl in H.
      * left. now exists post.
      * right. injection H as _ H. now exists pre, post.
Qed.

Lemma matches_iff (c : DeviceContext) (device_name : string) :
  matches c device_name = true <-> has_keyword_of c device_name.
Proof.
  unfold matches, has_keyword_of, contains_ci. rewrite existsb_exists.
  split; intros [kw [Hin H]]; exists kw; split; trivial;
    now apply str_in_iff.
Qed.

Lemma matches_false_iff (c : DeviceContext) (device_name : string) :
  matches c device_name = false <-> ~ has_keyword_of c device_name.
Proof.
  rewrite <- matches_iff. destruct (matches c device_name); split; congruence.
Qed.

(** ** The catalog and the matcher *)

Lemma DEVICE_CONTEXTS_generic_present :
  dict_getitem DEVICE_CONTEXTS "generic" = Some generic_context.
Proof. reflexivity. Qed.

Lemma first_match_Some (cs : list DeviceContext) (n : string) (c : DeviceContext) :
  first_match cs n = Some c ->
  exists before after,
    cs = (before ++ c :: after)%list /\ matches c n = true
    /\ Forall (fun c' => matches c' n = false) before.
Proof.
  induction cs as [|c0 cs IH]; simpl; [discriminate|].
  destruct (matches c0 n) eqn:E.
  - intros [= <-]. exists [], cs. auto.
  - intros H. destruct (IH H) as (before & after & -> & Hm & Hall).
    exists (c0 :: before), after. auto.
Qed.

Lemma first_match_None (cs : list DeviceContext) (n : string) :
  first_match cs n = None <-> Forall (fun c => matches c n = false) cs.
Proof.
  induction cs as [|c0 cs IH]; simpl.
  - split; auto.
  - destruct (matches c0 n) eqn:E.
    + split; [discriminate | intros H; inversion H; congruence].
    + rewrite IH. split; [auto | intros H; now inversion H].
Qed.

(** No profile of the catalog matches the empty name: every keyword is
    non-empty. *)
Lemma empty_name_matches_nothing :
  forallb (fun c => negb (matches c "")) (dict_values DEVICE_CONTEXTS) = true.
Proof. reflexivity. Qed.

(** The generic profile matches no name: it has no keyword. *)
Lemma generic_matches_nothing (n : string) : matches generic_context n = false.
Proof. reflexivity. Qed.

(** *** C3 *)

(** C3. [get_context] never fails and returns a profile of the catalog.
    When the device name contains, without regard to case and at any
    position, a keyword of some profile, the result is the first profile
    of the catalog (in iteration order) of which the name contains a
    keyword, and it is not the generic profile.  For an absent or empty
    name, and for a name that contains no keyword of any profile, the
    result is the generic profile. *)
Theorem C3_get_context_first_matching_vendor (device_name : option string) :
  In (get_context device_name) (dict_values DEVICE_CONTEXTS)
  /\ (forall n c,
        device_name = Some n ->
        In c (dict_values DEVICE_CONTEXTS) ->
        has_keyword_of c n ->
        exists before after,
          dict_values DEVICE_CONTEXTS
            = (before ++ get_context device_name :: after)%list
          /\ has_keyword_of (get_context device_name) n
          /\ Forall (fun c' => ~ has_keyword_of c' n) before
          /\ get_context device_name <> generic_context)
  /\ (device_name = None \/ device_name = Some ""
      \/ (exists n, device_name = Some n
                    /\ Forall (fun c => ~ has_keyword_of c n)
                              (dict_values DEVICE_CONTEXTS))
      -> get_context device_name = generic_context).
Proof.
  assert (Hgen : In generic_context (dict_values DEVICE_CONTEXTS))
    by (simpl; tauto).
  split; [|split].
  - unfold get_context. destruct device_name as [n|]; trivial.
    destruct (negb (PyStr.truthy n)); trivial.
    destruct (first_match (dict_values DEVICE_CONTEXTS) n) eqn:E; trivial.
    apply first_match_Some in E. destruct E as (b & a & E & _).
    rewrite E. apply in_or_app. right. now left.
  - intros n c -> Hin Hkw.
    assert (Hn : PyStr.truthy n = true).
    { destruct n; trivial. exfalso.
      apply matches_iff in Hkw.
      pose proof empty_name_matches_nothing as H.
      rewrite forallb_forall in H. specialize (H c Hin).
      rewrite Hkw in H. discriminate. }
    unfold get_context. rewrite Hn. simpl negb. cbv iota.
    destruct (first_match (dict_values DEVICE_CONTEXTS) n) as [c1|] eqn:E.
    + apply first_match_Some in E.
      destruct E as (before & after & E & Hm & Hall).
      exists before, after. repeat split; trivial.
      * now apply matches_iff.
      * eapply Forall_impl; [|exact Hall]. intros a Ha.
        now apply matches_false_iff.
      * intros ->. now rewrite generic_matches_nothing in Hm.
    + exfalso. rewrite first_match_None, Forall_forall in E.
      apply matches_iff in Hkw. rewrite (E c Hin) in Hkw. discriminate.
  - intros [-> | [-> | [n [-> Hall]]]]; try reflexivity.
    assert (E : first_match (dict_values DEVICE_CONTEXTS) n = None).
    { apply first_match_None.
      eapply Forall_impl; [|exact Hall]. intros a Ha.
      now apply matches_false_iff. }
    unfold get_context. rewrite E.
    now destruct (negb (PyStr.truthy n)).
Qed.

Lemma C3_get_context_witness :
  (exists before after,
      dict_values DEVICE_CONTEXTS
        = (before ++ get_context (Some "My HIKvision cam") :: after)%list
      /\ has_keyword_of (get_context (Some "My HIKvision cam"))
                        "My HIKvision cam"
      /\ Forall (fun c' => ~ has_keyword_of c' "My HIKvision cam") before
      /\ get_context (Some "My HIKvision cam") <> generic_context)
  /\ get_context (Some "Acme X1") = generic_context.
Proof.
  split.
  - apply (proj1 (proj2 (C3_get_context_first_matching_vendor
                           (Some "My HIKvision cam")))
             "My HIKvision cam" hikvision_context).
    + reflexivity.
    + simpl; tauto.
    + apply matches_iff. reflexivity.
  - apply (proj2 (proj2 (C3_get_context_first_matching_vendor
                           (Some "Acme X1")))).
    right; right. exists "Acme X1". split; [reflexivity|].
    repeat constructor; apply matches_false_iff; reflexivity.
Defined.

(** ** Path lists *)

Lemma mem_str_iff (x : string) (l : list string) :
  mem_str x l = true <-> In x l.
Proof.
  unfold mem_str. rewrite existsb_exists. split.
  - intros [y [Hin H]]. apply String.eqb_eq in H. now subst.
  - intros H. exists x. split; trivial. apply String.eqb_refl.
Qed.

Lemma mem_str_cons (k x : string) (l : list string) :
  mem_str k (x :: l) = String.eqb k x || mem_str k l.
Proof. reflexivity. Qed.

Lemma mem_str_snoc (k x : string) (l : list string) :
  mem_str k (l ++ [x]) = mem_str k l || String.eqb k x.
Proof.
  unfold mem_str. rewrite existsb_app. simpl. now rewrite orb_false_r.
Qed.

Lemma filter_filter_comm {A} (p q : A -> bool) (l : list A) :
  filter p (filter q l) = filter q (filter p l).
Proof.
  induction l as [|a l IH]; simpl; trivial.
  destruct (q a) eqn:Q, (p a) eqn:P; simpl; rewrite ?Q, ?P, IH; trivial.
Qed.

Lemma dedup_keep_first_filter (p : string -> bool) (l : list string) :
  dedup_keep_first (filter p l) = filter p (dedup_keep_first l).
Proof.
  induction l as [|x l IH]; simpl; trivial.
  destruct (p x) eqn:P; simpl.
  - now rewrite IH, filter_filter_comm.
  - rewrite IH, filter_filter_comm. clear IH.
    remember (filter p (dedup_keep_first l)) as r eqn:Hr.
    assert (H : forall y, In y r -> p y = true).
    { intros y Hy. subst r. now apply filter_In in Hy. }
    clear Hr. induction r as [|y r IHr]; simpl; trivial.
    destruct (String.eqb y x) eqn:E; simpl.
    + apply String.eqb_eq in E. subst y.
      assert (p x = true) by (apply H; now left). congruence.
    + f_equal. apply IHr. intros z Hz. apply H. now right.
Qed.

(** The dictionary built key by key is the list with later duplicates
    removed: the loop, from any keys already inserted. *)
Lemma fromkeys_from (l keys : list string) :
  fold_left (fun keys k => if mem_str k keys then keys else (keys ++ [k])%list)
            l keys
  = (keys ++ dedup_keep_first
               (filter (fun k => negb (mem_str k keys)) l))%list.
Proof.
  revert keys. induction l as [|x l IH]; intros keys; simpl.
  - now rewrite app_nil_r.
  - destruct (mem_str x keys) eqn:E; simpl.
    + apply IH.
    + rewrite IH, <- app_assoc. simpl. do 2 f_equal.
      rewrite <- dedup_keep_first_filter. f_equal. clear IH E.
      induction l as [|k l IHl]; simpl; trivial.
      rewrite mem_str_snoc, negb_orb.
      destruct (mem_str k keys); simpl; trivial.
      now destruct (String.eqb k x); simpl; rewrite IHl.
Qed.

Lemma dict_fromkeys_dedup (l : list string) :
  dict_fromkeys l = dedup_keep_first l.
Proof.
  unfold dict_fromkeys. rewrite fromkeys_from. simpl.
  f_equal. induction l; simpl; congruence.
Qed.

Lemma dedup_keep_first_In (x : string) (l : list string) :
  In x (dedup_keep_first l) <-> In x l.
Proof.
  induction l as [|y l IH]; simpl; [tauto|].
  rewrite filter_In, IH, negb_true_iff, String.eqb_neq.
  destruct (String.eqb_spec y x) as [->|N]; [tauto|].
  split; [tauto|]. intros [H|H]; [tauto|]. right. split; congruence.
Qed.

Lemma dedup_keep_first_NoDup (l : list string) : NoDup (dedup_keep_first l).
Proof.
  induction l as [|y l IH]; simpl; constructor.
  - rewrite filter_In, String.eqb_refl. intros [_ H]. discriminate.
  - now apply NoDup_filter.
Qed.

Lemma filter_all_true {A} (p : A -> bool) (l : list A) :
  (forall x, In x l -> p x = true) -> filter p l = l.
Proof.
  induction l as [|a l IH]; simpl; intros H; trivial.
  assert (Ha : p a = true) by (apply H; now left).
  rewrite Ha. f_equal. apply IH. intros x Hx. apply H. now right.
Qed.

(** The paths of the first list come first, followed by the paths of the
    second list that the first list does not have. *)
Lemma dedup_keep_first_app (a b : list string) :
  dedup_keep_first (a ++ b)
  = (dedup_keep_first a
     ++ filter (fun y => negb (mem_str y a)) (dedup_keep_first b))%list.
Proof.
  induction a as [|x a IH]; simpl.
  - symmetry. now apply filter_all_true.
  - f_equal. rewrite IH, filter_app. f_equal.
    rewrite filter_filter_comm.
    set (r := dedup_keep_first b). clearbody r.
    induction r as [|y r IHr]; simpl; trivial.
    destruct (String.eqb y x) eqn:E; simpl.
    + exact IHr.
    + destruct (mem_str y a); simpl; [exact IHr|].
      now rewrite IHr.
Qed.

Lemma subsequence_filter {A} (p : A -> bool) (l : list A) :
  subsequence (filter p l) l.
Proof.
  induction l as [|a l IH]; simpl; [constructor|].
  destruct (p a); now constructor.
Qed.

Lemma subsequence_trans {A} (l1 l2 l3 : list A) :
  subsequence l1 l2 -> subsequence l2 l3 -> subsequence l1 l3.
Proof.
  intros H12 H23. revert l1 H12.
  induction H23; intros l0 H12.
  - exact H12.
  - constructor. now apply IHsubsequence.
  - inversion H12; subst.
    + constructor. now apply IHsubsequence.
    + apply sub_keep. now apply IHsubsequence.
Qed.

Lemma dedup_keep_first_subsequence (l : list string) :
  subsequence (dedup_keep_first l) l.
Proof.
  induction l as [|x l IH]; simpl; [apply sub_nil | apply sub_keep].
  eapply subsequence_trans; [apply subsequence_filter | exact IH].
Qed.

(** The paths of the generic profile are pairwise different. *)
Lemma generic_paths_dedup :
  dedup_keep_first (paths generic_context) = paths generic_context.
Proof. reflexivity. Qed.

(** *** C4 *)

(** C4. For a profile whose name is not "generic" (in any case),
    [get_all_paths] returns the profile's own paths followed by the paths
    of the generic profile, with duplicates removed and the first
    occurrence kept: the own paths come first, then the generic paths
    that are not among them; no path occurs twice, the paths are those of
    the two lists, and their order is the order of the two lists put end
    to end.  For the generic profile the result is its own path list,
    unchanged. *)
Theorem C4_get_all_paths_dedup_keeps_first (context : DeviceContext) :
  (PyStr.lower (name context) <> "generic" ->
   get_all_paths context
     = dedup_keep_first (paths context ++ paths generic_context)%list
   /\ get_all_paths context
      = (dedup_keep_first (paths context)
         ++ filter (fun y => negb (mem_str y (paths context)))
                   (paths generic_context))%list
   /\ NoDup (get_all_paths context)
   /\ (forall x, In x (get_all_paths context)
                 <-> In x (paths context) \/ In x (paths generic_context))
   /\ subsequence (get_all_paths context)
                  (paths context ++ paths generic_context)%list)
  /\ get_all_paths generic_context = paths generic_context.
Proof.
  split; [|reflexivity].
  intros Hname.
  assert (E : get_all_paths context
              = dedup_keep_first (paths context ++ paths generic_context)%list).
  { unfold get_all_paths.
    destruct (String.eqb_spec (PyStr.lower (name context)) "generic")
      as [Heq|_]; [contradiction|].
    simpl negb. cbv iota. apply dict_fromkeys_dedup. }
  split; [exact E|]. rewrite E. split; [|split; [|split]].
  - now rewrite dedup_keep_first_app, generic_paths_dedup.
  - apply dedup_keep_first_NoDup.
  - intros x. now rewrite dedup_keep_first_In, in_app_iff.
  - apply dedup_keep_first_subsequence.
Qed.

Lemma C4_get_all_paths_witness :
  get_all_paths hikvision_context
  = [ "/ISAPI/Streaming/channels/101/picture";
      "/ISAPI/Streaming/channels/1/picture";
      "/Streaming/channels/1/picture";
      "/onvif/snapshot";
      "/onvif-http/snapshot";
      "/onvif/camera/1/snapshot";
      "/snap.jpg";
      "/snapshot";
      "/image";
      "/image/jpeg.cgi";
      "/cgi-bin/snapshot.cgi";
      "/snapshot.jpg";
      "/jpeg";
      "/video.mjpg";
      "/cgi-bin/api.cgi?cmd=Snap&channel=1" ].
Proof.
  assert (H : PyStr.lower (name hikvision_context) <> "generic")
    by (vm_compute; discriminate).
  rewrite (proj1 (proj2 (proj1 (C4_get_all_paths_dedup_keeps_first
                                  hikvision_context) H))).
  reflexivity.
Defined.

(** The four vendor profiles of the catalog are not named generic, so the
    first part of C4 applies to each of them. *)
Lemma vendor_names_not_generic :
  Forall (fun c => PyStr.lower (name c) <> "generic")
         [tp_link_context; cp_plus_context; hikvision_context; dahua_context].
Proof. repeat constructor; vm_compute; discriminate. Qed.

(** ** Stream URLs *)

Lemma normalize_relative (urlparse : string -> PyResult UrlParse.ParseResult)
      (url device_host : string) :
  PyStr.startswith "rtsp://" url = false ->
  MediaProfileHandler.normalize_rtsp_url urlparse url device_host
  = Ok ("rtsp://" ++ device_host ++ ":554"
        ++ (if PyStr.startswith "/" url then url else "/" ++ url)).
Proof.
  intros H. unfold MediaProfileHandler.normalize_rtsp_url. now rewrite H.
Qed.

(** *** C7 *)

(** C7. [normalize_rtsp_url] maps "/stream1" with the device host cam1 to
    "rtsp://cam1:554/stream1"; it maps "rtsp://cam1/stream1", which has
    the scheme and no port, to "rtsp://cam1:554/stream1"; it returns
    "rtsp://cam1:8554/stream1", which has a port, unchanged; and an input
    that does not start with "rtsp://" nor with "/" gets a "/" in front
    before it is put behind the device host and the port 554. *)
Theorem C7_normalize_rtsp_url (device_host : string) :
  MediaProfileHandler.normalize_rtsp_url UrlParse.urlparse "/stream1" "cam1"
  = Ok "rtsp://cam1:554/stream1"
  /\ MediaProfileHandler.normalize_rtsp_url UrlParse.urlparse
       "rtsp://cam1/stream1" device_host
     = Ok "rtsp://cam1:554/stream1"
  /\ MediaProfileHandler.normalize_rtsp_url UrlParse.urlparse
       "rtsp://cam1:8554/stream1" device_host
     = Ok "rtsp://cam1:8554/stream1"
  /\ (forall urlparse url,
        PyStr.startswith "rtsp://" url = false ->
        PyStr.startswith "/" url = false ->
        MediaProfileHandler.normalize_rtsp_url urlparse url device_host
        = Ok ("rtsp://" ++ device_host ++ ":554" ++ "/" ++ url)).
Proof.
  repeat split; try reflexivity.
  intros urlparse url H1 H2. rewrite normalize_relative by exact H1.
  now rewrite H2.
Qed.

Lemma C7_normalize_rtsp_url_witness :
  MediaProfileHandler.normalize_rtsp_url UrlParse.urlparse
    "live/ch1" "192.168.1.64"
  = Ok "rtsp://192.168.1.64:554/live/ch1".
Proof.
  apply (proj2 (proj2 (proj2 (C7_normalize_rtsp_url "192.168.1.64")))
           UrlParse.urlparse "live/ch1"); reflexivity.
Defined.

(** ** Media profiles *)

Lemma collect_profiles_from (els : list ET.Element) (acc : list ProfileInfo) :
  fold_left
    (fun profiles profile =>
       let profile_info :=
         [("token", ET.get profile "token" "");
          ("name", ET.get profile "name" "")] in
       if PyStr.truthy (ET.get profile "token" "")
       then (profiles ++ [profile_info])%list
       else profiles)
    els acc
  = (acc ++ map profile_info_of (filter token_present els))%list.
Proof.
  revert acc. induction els as [|e els IH]; intros acc; simpl.
  - now rewrite app_nil_r.
  - rewrite IH. unfold token_present at 2.
    destruct (PyStr.truthy (ET.get e "token" "")); simpl; trivial.
    now rewrite <- app_assoc.
Qed.

(** The profiles collected are those of the elements with a token, in the
    order of the elements. *)
Lemma collect_profiles_filter (els : list ET.Element) :
  collect_profiles els = map profile_info_of (filter token_present els).
Proof. unfold collect_profiles. now rewrite collect_profiles_from. Qed.

Lemma collect_profiles_has_token (els : list ET.Element) :
  Forall has_token (collect_profiles els).
Proof.
  rewrite collect_profiles_filter, Forall_map, Forall_forall.
  intros e He. apply filter_In in He. destruct He as [_ He].
  exists (ET.get e "token" ""). split; [reflexivity|].
  unfold token_present in He. intros E. rewrite E in He. discriminate.
Qed.

(** An element without a token attribute, or with an empty one, has no
    token. *)
Lemma token_present_false (e : ET.Element) :
  token_present e = false
  <-> dict_getitem (ET.attrib e) "token" = None
      \/ dict_getitem (ET.attrib e) "token" = Some "".
Proof.
  unfold token_present, ET.get.
  destruct (dict_getitem (ET.attrib e) "token") as [t|].
  - destruct t; simpl; split; try tauto; try discriminate.
    + intros [H|H]; discriminate.
  - simpl. tauto.
Qed.

Lemma endpoint_profiles_has_token (env : Env) (answer : PyResult Response)
      (profiles : list ProfileInfo) :
  endpoint_profiles env answer = Some profiles ->
  profiles <> [] /\ Forall has_token profiles.
Proof.
  unfold endpoint_profiles.
  destruct answer as [response|]; [|discriminate].
  destruct (status_code response =? 200)%Z; [|discriminate].
  destruct (fromstring env (text response)) as [root|]; [|discriminate].
  destruct (find_profile_elements root snapshot_namespaces) as [els|];
    [|discriminate].
  pose proof (collect_profiles_has_token els) as H.
  destruct (collect_profiles els); [discriminate|].
  intros [= <-]. split; [discriminate | exact H].
Qed.

(** One endpoint: exactly one POST is sent, no exception leaves the
    [try], and the result is what the answer yields. *)
Lemma media_profiles_at_spec (env : Env) (timeout : Z) (media_url : string)
      (auth : Credential) (w : World) :
  ONVIFSnapshot.media_profiles_at env timeout media_url auth w
  = (Ok (endpoint_profiles env
           (requests_post env (trace w) media_url (auth_handler_of auth)
                          _create_get_profiles_message)),
     add_events w [profiles_post timeout media_url auth]).
Proof.
  unfold ONVIFSnapshot.media_profiles_at, try_except, bind,
    ONVIFSnapshot.post, perform, endpoint_profiles, add_events, profiles_post,
    ONVIFSnapshot._namespaces, lift, ret.
  simpl trace. simpl errors.
  destruct (requests_post env (trace w) media_url (auth_handler_of auth)
              _create_get_profiles_message) as [response|e]; trivial.
  destruct (status_code response =? 200)%Z; trivial.
  destruct (fromstring env (text response)) as [root|e]; trivial.
  destruct (find_profile_elements root snapshot_namespaces) as [els|e]; trivial.
  destruct (collect_profiles els); trivial.
Qed.

Lemma media_url_of_ok (parsed : UrlParse.ParseResult) (port : option Z)
      (service_path : string) :
  UrlParse.port parsed = Ok port ->
  ONVIFSnapshot.media_url_of parsed service_path
  = Ok (UrlParse.scheme parsed ++ "://"
        ++ fmt_opt_str (UrlParse.hostname parsed) ++ ":"
        ++ fmt_opt_Z port ++ service_path).
Proof. intros H. unfold ONVIFSnapshot.media_url_of. now rewrite H. Qed.

(** The loop over the endpoints follows [endpoints_run] and ends without
    an exception, when the port of the device URL can be read. *)
Lemma media_profiles_loop_run (env : Env) (timeout : Z)
      (parsed : UrlParse.ParseResult) (auth : Credential) (port : option Z)
      (service_paths : list string) :
  UrlParse.port parsed = Ok port ->
  forall w, exists r w',
    ONVIFSnapshot.media_profiles_loop env timeout parsed auth service_paths w
    = (Ok r, w')
    /\ endpoints_run env timeout parsed auth service_paths w r w'.
Proof.
  intros Hport.
  induction service_paths as [|sp rest IH]; intros w.
  - exists [], w. split; [reflexivity | constructor].
  - pose proof (media_url_of_ok parsed port sp Hport) as Hurl.
    set (media_url := UrlParse.scheme parsed ++ "://"
                      ++ fmt_opt_str (UrlParse.hostname parsed) ++ ":"
                      ++ fmt_opt_Z port ++ sp) in *.
    simpl. unfold bind at 1. unfold lift at 1. rewrite Hurl.
    unfold bind at 1. rewrite media_profiles_at_spec.
    destruct (endpoint_profiles env
                (requests_post env (trace w) media_url (auth_handler_of auth)
                               _create_get_profiles_message))
      as [profiles|] eqn:E.
    + exists profiles, (add_events w [profiles_post timeout media_url auth]).
      split; [reflexivity|]. now apply endpoint_success.
    + destruct (IH (add_events w [profiles_post timeout media_url auth]))
        as (r & w' & Hrun & Hrel).
      exists r, w'. split; [exact Hrun|].
      eapply endpoint_failure; eauto.
Qed.

(** A run of the endpoints returns profiles with tokens only. *)
Lemma endpoints_run_has_token (env : Env) (timeout : Z)
      (parsed : UrlParse.ParseResult) (auth : Credential)
      (service_paths : list string) (w w' : World) (r : list ProfileInfo) :
  endpoints_run env timeout parsed auth service_paths w r w' ->
  Forall has_token r.
Proof.
  induction 1 as [w | sp rest w url ps Hurl Hy | sp rest w url r w' Hurl Hy Hr IH].
  - constructor.
  - eapply endpoint_profiles_has_token; eauto.
  - exact IH.
Qed.

(** A run of the endpoints sends POSTs only, one per endpoint tried, in
    the order of the endpoints. *)
Lemma endpoints_run_trace (env : Env) (timeout : Z)
      (parsed : UrlParse.ParseResult) (auth : Credential)
      (service_paths : list string) (w w' : World) (r : list ProfileInfo) :
  endpoints_run env timeout parsed auth service_paths w r w' ->
  exists tried untried media_urls,
    service_paths = (tried ++ untried)%list
    /\ Forall2 (fun sp url => ONVIFSnapshot.media_url_of parsed sp = Ok url)
               tried media_urls
    /\ w' = add_events w
              (map (fun url => profiles_post timeout url auth) media_urls)
    /\ (r = [] -> untried = []).
Proof.
  induction 1
    as [w | sp rest w url ps Hurl Hy | sp rest w url r w' Hurl Hy Hr IH].
  - exists [], [], []. repeat split; trivial.
    unfold add_events. simpl. rewrite app_nil_r. now destruct w.
  - exists [sp], rest, [url]. repeat split; trivial.
    + repeat constructor. assumption.
    + intros ->. apply endpoint_profiles_has_token in Hy. now destruct Hy.
  - destruct IH as (tried & untried & urls' & -> & HF & -> & Hnil).
    exists (sp :: tried), untried, (url :: urls').
    repeat split; trivial.
    + constructor; assumption.
    + unfold add_events. simpl. now rewrite <- app_assoc.
Qed.

(** When the port of the device URL cannot be read, the first endpoint
    raises before its request. *)
Lemma media_profiles_loop_port_raises (env : Env) (timeout : Z)
      (parsed : UrlParse.ParseResult) (auth : Credential) (e : PyExn)
      (service_paths : list string) (w : World) :
  UrlParse.port parsed = Raise e ->
  ONVIFSnapshot.media_profiles_loop env timeout parsed auth service_paths w
  = match service_paths with
    | [] => (Ok [], w)
    | _ :: _ => (Raise e, w)
    end.
Proof.
  intros Hport. destruct service_paths as [|sp rest]; [reflexivity|].
  simpl. unfold bind at 1. unfold lift at 1, ONVIFSnapshot.media_url_of.
  now rewrite Hport.
Qed.

(** The handler of the outer [try] of [_get_media_profiles]. *)
Lemma get_media_profiles_unfold (env : Env) (timeout : Z)
      (device : ONVIFDevice) (auth : Credential) (w : World) :
  ONVIFSnapshot._get_media_profiles env timeout device auth w
  = match
      match urls device with
      | [] => (Raise (mkExn IndexError "list index out of range"), w)
      | url0 :: _ =>
          match urlparse env url0 with
          | Raise e => (Raise e, w)
          | Ok parsed =>
              ONVIFSnapshot.media_profiles_loop env timeout parsed auth
                (media_services (get_context (dev_name device))) w
          end
      end
    with
    | (Ok r, w') => (Ok r, w')
    | (Raise e, w') =>
        (Ok [], add_error w' ("Error getting media profiles: " ++ exn_str e))
    end.
Proof.
  unfold ONVIFSnapshot._get_media_profiles, try_except, any_Exception.
  unfold bind at 1. unfold lift at 1, list_first.
  destruct (urls device) as [|url0 rest]; [reflexivity|].
  unfold bind at 1. unfold lift at 1.
  destruct (urlparse env url0) as [parsed|e]; [|reflexivity].
  destruct (ONVIFSnapshot.media_profiles_loop env timeout parsed auth
              (media_services (get_context (dev_name device))) w)
    as [[r|e] w']; reflexivity.
Qed.

(** *** C8 *)

(** C8. [_get_media_profiles] never raises: it always returns a list.
    When the first URL of the device is parsed and its port can be read,
    the media service paths of the matched profile are tried in order,
    one POST each; the result is the list of profiles of the first
    endpoint that yields at least one, and the endpoints after it are not
    tried; the result is the empty list when every endpoint has been
    tried without success.  An endpoint whose request raises, whose
    status is not 200 or whose text is not parsed yields nothing, and the
    next endpoint is tried.  When the device has no URL, its first URL
    is not parsed or the port of this URL cannot be read, the result is
    the empty list and no request is sent. *)
Theorem C8_get_media_profiles_first_endpoint_wins
        (env : Env) (timeout : Z) (device : ONVIFDevice) (auth : Credential)
        (w : World) :
  exists r w',
    ONVIFSnapshot._get_media_profiles env timeout device auth w = (Ok r, w')
    /\ (forall url0 parsed port,
          hd_error (urls device) = Some url0 ->
          urlparse env url0 = Ok parsed ->
          UrlParse.port parsed = Ok port ->
          endpoints_run env timeout parsed auth
            (media_services (get_context (dev_name device))) w r w')
    /\ (urls device = []
        \/ (exists url0 e, hd_error (urls device) = Some url0
                           /\ urlparse env url0 = Raise e)
        \/ (exists url0 parsed e,
              hd_error (urls device) = Some url0
              /\ urlparse env url0 = Ok parsed
              /\ UrlParse.port parsed = Raise e)
        -> r = [] /\ trace w' = trace w)
    /\ (forall e, endpoint_profiles env (Raise e) = None)
    /\ (forall response,
          status_code response <> 200%Z ->
          endpoint_profiles env (Ok response) = None)
    /\ (forall response e,
          fromstring env (text response) = Raise e ->
          endpoint_profiles env (Ok response) = None)
    /\ (forall answer profiles,
          endpoint_profiles env answer = Some profiles -> profiles <> []).
Proof.
  rewrite get_media_profiles_unfold.
  assert (Hsw : (forall e, endpoint_profiles env (Raise e) = None)
    /\ (forall response,
          status_code response <> 200%Z ->
          endpoint_profiles env (Ok response) = None)
    /\ (forall response e,
          fromstring env (text response) = Raise e ->
          endpoint_profiles env (Ok response) = None)
    /\ (forall answer profiles,
          endpoint_profiles env answer = Some profiles -> profiles <> [])).
  { repeat split.
    - intros response Hs. simpl.
      destruct (Z.eqb_spec (status_code response) 200); [contradiction|trivial].
    - intros response e He. simpl. rewrite He.
      now destruct (status_code response =? 200)%Z.
    - intros answer profiles H.
      now apply endpoint_profiles_has_token in H. }
  destruct (urls device) as [|url0 rest] eqn:Hurls.
  - eexists _, _. split; [reflexivity|]. split; [|split; [|exact Hsw]].
    + intros u p q Hu. discriminate.
    + intros _. split; reflexivity.
  - destruct (urlparse env url0) as [parsed|e] eqn:Hparse.
    + destruct (UrlParse.port parsed) as [port|e] eqn:Hport.
      * destruct (media_profiles_loop_run env timeout parsed auth port
                    (media_services (get_context (dev_name device))) Hport w)
          as (r & w' & Hrun & Hrel).
        rewrite Hrun. exists r, w'. split; [reflexivity|].
        split; [|split; [|exact Hsw]].
        -- intros u p q [= <-] Hp Hq. rewrite Hparse in Hp.
           injection Hp as <-. exact Hrel.
        -- intros [H | [(u & e & [= <-] & He)
                       | (u & p & e & [= <-] & Hp & He)]];
             [discriminate | rewrite Hparse in He; discriminate |].
           rewrite Hparse in Hp. injection Hp as <-.
           rewrite Hport in He. discriminate.
      * rewrite (media_profiles_loop_port_raises env timeout parsed auth e
                   _ w Hport).
        destruct (media_services (get_context (dev_name device)));
          (eexists _, _; split; [reflexivity|];
           split; [|split; [|exact Hsw]];
           [ intros u p q [= <-] Hp Hq; rewrite Hparse in Hp;
             injection Hp as <-; rewrite Hport in Hq; discriminate
           | intros _; split; reflexivity ]).
    + eexists _, _. split; [reflexivity|]. split; [|split; [|exact Hsw]].
      * intros u p q [= <-] Hp. rewrite Hparse in Hp. discriminate.
      * intros _. split; reflexivity.
Qed.

Lemma C8_get_media_profiles_witness :
  exists w',
    ONVIFSnapshot._get_media_profiles demo_env 5 demo_device demo_cred
      empty_world
    = (Ok [[("token", "Profile_1"); ("name", "main")]], w')
    /\ endpoints_run demo_env 5
         {| UrlParse.scheme := "http";
            UrlParse.netloc := "192.168.1.64:80";
            UrlParse.path := "/onvif/device_service";
            UrlParse.params := "";
            UrlParse.query := "";
            UrlParse.fragment := "";
            UrlParse.hostname := Some "192.168.1.64";
            UrlParse.port := Ok (Some 80%Z) |}
         demo_cred ["/ISAPI/Streaming"; "/onvif/media_service"]
         empty_world [[("token", "Profile_1"); ("name", "main")]] w'.
Proof.
  destruct (C8_get_media_profiles_first_endpoint_wins
              demo_env 5 demo_device demo_cred empty_world)
    as (r & w' & Hrun & Hrel & _).
  exists w'.
  assert (Hr : r = [[("token", "Profile_1"); ("name", "main")]]).
  { vm_compute in Hrun. now injection Hrun as <- _. }
  subst r. split; [exact Hrun|].
  apply (Hrel "http://192.168.1.64:80/onvif/device_service" _ (Some 80%Z));
    reflexivity.
Defined.

(** Whatever the loop over the endpoints returns has tokens. *)
Lemma media_profiles_loop_has_token (env : Env) (timeout : Z)
      (parsed : UrlParse.ParseResult) (auth : Credential)
      (service_paths : list string) :
  forall w r w',
    ONVIFSnapshot.media_profiles_loop env timeout parsed auth service_paths w
    = (Ok r, w') ->
    Forall has_token r.
Proof.
  induction service_paths as [|sp rest IH]; intros w r w'.
  - intros [= <- _]. constructor.
  - simpl. unfold bind at 1. unfold lift at 1.
    destruct (ONVIFSnapshot.media_url_of parsed sp) as [media_url|e];
      [|discriminate].
    unfold bind at 1. rewrite media_profiles_at_spec.
    destruct (endpoint_profiles env _) as [profiles|] eqn:E.
    + intros [= <- _]. eapply endpoint_profiles_has_token; eauto.
    + apply IH.
Qed.

Lemma get_media_profiles_has_token (env : Env) (timeout : Z)
      (device : ONVIFDevice) (auth : Credential) (w : World) :
  exists r w',
    ONVIFSnapshot._get_media_profiles env timeout device auth w = (Ok r, w')
    /\ Forall has_token r.
Proof.
  rewrite get_media_profiles_unfold.
  destruct (urls device) as [|url0 rest].
  - eexists _, _. split; [reflexivity | constructor].
  - destruct (urlparse env url0) as [parsed|e].
    + destruct (ONVIFSnapshot.media_profiles_loop env timeout parsed auth
                  (media_services (get_context (dev_name device))) w)
        as [[r|e] w'] eqn:Hrun.
      * exists r, w'. split; [reflexivity|].
        eapply media_profiles_loop_has_token; eauto.
      * eexists _, _. split; [reflexivity | constructor].
    + eexists _, _. split; [reflexivity | constructor].
Qed.

(** *** C10 *)

(** C10. Every profile returned by [MediaProfileHandler.get_media_profiles]
    has a non-empty token: the result is made of the profile elements
    found, without those whose token attribute is missing or empty, so
    that [profile["token"]] of every element of the result is a non-empty
    string.  The same holds for every profile returned by
    [ONVIFSnapshot._get_media_profiles], which always returns a list. *)
Theorem C10_media_profiles_have_tokens
        (namespaces : list (string * string)) (soap_response : ET.Element) :
  Forall has_token
         (MediaProfileHandler.get_media_profiles namespaces soap_response)
  /\ (forall profile_elements,
        find_profile_elements soap_response namespaces = Ok profile_elements ->
        MediaProfileHandler.get_media_profiles namespaces soap_response
        = map profile_info_of (filter token_present profile_elements))
  /\ (forall e,
        token_present e = false
        <-> dict_getitem (ET.attrib e) "token" = None
            \/ dict_getitem (ET.attrib e) "token" = Some "")
  /\ (forall env timeout device auth w,
        exists r w',
          ONVIFSnapshot._get_media_profiles env timeout device auth w
          = (Ok r, w')
          /\ Forall has_token r).
Proof.
  unfold MediaProfileHandler.get_media_profiles.
  split; [|split; [|split]].
  - destruct (find_profile_elements soap_response namespaces).
    + apply collect_profiles_has_token.
    + constructor.
  - intros els ->. apply collect_profiles_filter.
  - apply token_present_false.
  - apply get_media_profiles_has_token.
Qed.

Lemma C10_media_profiles_witness :
  MediaProfileHandler.get_media_profiles snapshot_namespaces
    demo_profiles_root
  = [[("token", "Profile_1"); ("name", "main")]].
Proof.
  rewrite (proj1 (proj2 (C10_media_profiles_have_tokens
                           snapshot_namespaces demo_profiles_root))
             (filter (fun d => String.eqb (ET.tag d) (trt "Profiles"))
                     (ET.descendants demo_profiles_root))).
  - reflexivity.
  - reflexivity.
Defined.

(** ** The entry point *)

(** *** C9 *)

(** C9. For a device whose list of credentials is empty,
    [capture_snapshot] returns [None] at once, with the error message
    that no valid credentials are available: nothing is done to the
    outside world, no GET (probe), no POST (SOAP call), no run of ffmpeg
    (frame extraction), no directory made and no file written. *)
Theorem C9_capture_snapshot_no_credentials
        (env : Env) (timeout : Z) (device : ONVIFDevice)
        (output_dir : string) (w : World) :
  valid_credentials device = [] ->
  ONVIFSnapshot.capture_snapshot env timeout device output_dir w
  = (Ok None, add_error w "No valid credentials available")
  /\ trace (snd (ONVIFSnapshot.capture_snapshot env timeout device
                   output_dir w))
     = trace w.
Proof.
  intros H. unfold ONVIFSnapshot.capture_snapshot. rewrite H.
  split; reflexivity.
Qed.

Lemma C9_capture_snapshot_witness :
  ONVIFSnapshot.capture_snapshot demo_env 5 demo_device_no_cred "snapshots"
    empty_world
  = (Ok None, add_error empty_world "No valid credentials available").
Proof.
  apply (C9_capture_snapshot_no_credentials demo_env 5 demo_device_no_cred
           "snapshots" empty_world).
  reflexivity.
Defined.

(** With its credential the same camera is probed: the directory is made,
    the URLs are tried in order up to the one that serves an image, the
    image is fetched again and written. *)
Example capture_snapshot_demo :
  ONVIFSnapshot.capture_snapshot demo_env 5 demo_device "snapshots"
    empty_world
  = (Ok (Some "snapshots/snapshot_192.168.1.64_20240101_120000.jpg"),
     {| trace :=
          let url1 :=
            "http://192.168.1.64:80/ISAPI/Streaming/channels/101/picture" in
          let url2 :=
            "http://192.168.1.64:80/ISAPI/Streaming/channels/1/picture" in
          let auth := HTTPDigestAuth "admin" "pw" in
          [ EvMakedirs "snapshots";
            EvGet url1 auth ONVIFSnapshot.probe_headers 5;
            EvClose;
            EvGet url2 auth ONVIFSnapshot.probe_headers 5;
            EvClose;
            EvGet url2 auth [("Accept", "image/jpeg,image/*")] 5;
            EvWriteFile
              "snapshots/snapshot_192.168.1.64_20240101_120000.jpg"
              jpeg_bytes ];
        errors := [] |}).
Proof. vm_compute. reflexivity. Qed.

(** ** Probing by URL (snapshot.py) *)

(** One probe: one GET, the verdict of [legacy_hit], and never an
    exception. *)
Lemma legacy_try_snapshot_url_spec (env : Env) (timeout : Z) (url : string)
      (auth : Credential) (hdrs : list (string * string)) (w : World) :
  let answer := requests_get env (trace w) url (auth_handler_of auth) hdrs in
  ONVIFSnapshot._try_snapshot_url env timeout url auth hdrs w
  = (Ok (legacy_hit env answer),
     add_events w
       (EvGet url (auth_handler_of auth) hdrs timeout
        :: (if legacy_closes env answer then [EvClose] else []))).
Proof.
  unfold ONVIFSnapshot._try_snapshot_url, try_except, bind,
    ONVIFSnapshot.get, ONVIFSnapshot.close, perform, lift, ret,
    legacy_hit, legacy_closes, add_events, any_Exception.
  simpl trace. simpl errors.
  destruct (requests_get env (trace w) url (auth_handler_of auth) hdrs)
    as [response|e]; trivial.
  destruct (status_code response =? 200)%Z; simpl.
  - destruct (py_int env
                (headers_get (headers response) "content-length" "0"));
      simpl; trivial.
    now rewrite <- app_assoc.
  - now rewrite <- app_assoc.
Qed.

Lemma get_urls_app (a b : list Event) :
  get_urls (a ++ b) = (get_urls a ++ get_urls b)%list.
Proof.
  induction a as [|e a IH]; simpl; trivial.
  destruct e; simpl; now rewrite ?IH.
Qed.

(** A probe asks for its URL and for nothing else. *)
Lemma legacy_probe_get_urls (env : Env) (timeout : Z) (url : string)
      (auth : Credential) (hdrs : list (string * string)) (w w' : World)
      (b : bool) :
  ONVIFSnapshot._try_snapshot_url env timeout url auth hdrs w = (Ok b, w') ->
  get_urls (trace w') = (get_urls (trace w) ++ [url])%list.
Proof.
  rewrite legacy_try_snapshot_url_spec. intros [= _ <-].
  unfold add_events. simpl trace. rewrite get_urls_app. simpl.
  now destruct (legacy_closes env _).
Qed.

Lemma search_run_app_none (probe : string -> M bool) (l1 l2 : list string)
      (w w' w'' : World) (r : option string) :
  search_run probe l1 w None w' ->
  search_run probe l2 w' r w'' ->
  search_run probe (l1 ++ l2) w r w''.
Proof.
  intros H1 H2. remember None as r1 eqn:Hr1.
  induction H1 as [w0 | url rest w0 w1 Hp | url rest w0 w1 r0 w2 Hp Hs IH];
    simpl.
  - exact H2.
  - discriminate.
  - eapply search_miss; eauto.
Qed.

Lemma search_run_app_some (probe : string -> M bool) (l1 l2 : list string)
      (w w' : World) (url : string) :
  search_run probe l1 w (Some url) w' ->
  search_run probe (l1 ++ l2) w (Some url) w'.
Proof.
  intros H1. remember (Some url) as r1 eqn:Hr1.
  induction H1 as [w0 | u rest w0 w1 Hp | u rest w0 w1 r0 w2 Hp Hs IH];
    simpl.
  - discriminate.
  - injection Hr1 as ->. now apply search_hit.
  - eapply search_miss; eauto.
Qed.

(** What a search has asked for: the URLs up to the one returned, or all
    of them when nothing is returned. *)
Lemma search_run_get_urls (env : Env) (timeout : Z) (auth : Credential)
      (hdrs : list (string * string)) (urls : list string) (w w' : World)
      (r : option string) :
  search_run (fun url => ONVIFSnapshot._try_snapshot_url env timeout url
                           auth hdrs) urls w r w' ->
  exists tried untried,
    urls = (tried ++ untried)%list
    /\ get_urls (trace w') = (get_urls (trace w) ++ tried)%list
    /\ match r with
       | None => untried = []
       | Some url => exists before, tried = (before ++ [url])%list
       end.
Proof.
  induction 1 as [w0 | url rest w0 w1 Hp | url rest w0 w1 r0 w2 Hp Hs IH].
  - exists [], []. repeat split. now rewrite app_nil_r.
  - exists [url], rest. repeat split.
    + eapply legacy_probe_get_urls; eauto.
    + now exists [].
  - destruct IH as (tried & untried & -> & Hg & Hr).
    exists (url :: tried), untried. repeat split.
    + rewrite Hg. erewrite legacy_probe_get_urls by eauto.
      now rewrite <- app_assoc.
    + destruct r0 as [u|]; trivial.
      destruct Hr as [before ->]. now exists (url :: before).
Qed.

(** The inner loop probes the paths of one port in order. *)
Lemma try_paths_run (env : Env) (timeout : Z) (parsed : UrlParse.ParseResult)
      (auth : Credential) (port : option Z) (paths : list string) :
  forall w, exists r w',
    ONVIFSnapshot.try_paths env timeout parsed auth port paths w = (Ok r, w')
    /\ search_run
         (fun url => ONVIFSnapshot._try_snapshot_url env timeout url auth
                       ONVIFSnapshot.probe_headers)
         (map (ONVIFSnapshot.probe_url parsed port) paths) w r w'.
Proof.
  induction paths as [|path rest IH]; intros w.
  - exists None, w. split; [reflexivity | constructor].
  - simpl. unfold bind at 1.
    destruct (ONVIFSnapshot._try_snapshot_url env timeout
                (ONVIFSnapshot.probe_url parsed port path) auth
                ONVIFSnapshot.probe_headers w) as [res w1] eqn:Hp.
    pose proof Hp as Hp'. rewrite legacy_try_snapshot_url_spec in Hp'.
    destruct res as [[|]|e]; [| |discriminate].
    + exists (Some (ONVIFSnapshot.probe_url parsed port path)), w1.
      split; [reflexivity | now apply search_hit].
    + destruct (IH w1) as (r & w' & Hrun & Hrel).
      exists r, w'. split; [exact Hrun|].
      eapply search_miss; eauto.
Qed.

(** The outer loop probes the ports in order, each with all the paths. *)
Lemma try_ports_run (env : Env) (timeout : Z) (parsed : UrlParse.ParseResult)
      (auth : Credential) (ports : list (option Z)) (paths : list string) :
  forall w, exists r w',
    ONVIFSnapshot.try_ports env timeout parsed auth ports paths w = (Ok r, w')
    /\ search_run
         (fun url => ONVIFSnapshot._try_snapshot_url env timeout url auth
                       ONVIFSnapshot.probe_headers)
         (flat_map (fun port => map (ONVIFSnapshot.probe_url parsed port) paths)
                   ports)
         w r w'.
Proof.
  induction ports as [|port rest IH]; intros w.
  - exists None, w. split; [reflexivity | constructor].
  - simpl. unfold bind at 1.
    destruct (try_paths_run env timeout parsed auth port paths w)
      as (r1 & w1 & Hrun1 & Hrel1).
    rewrite Hrun1. destruct r1 as [url|].
    + exists (Some url), w1. split; [reflexivity|].
      now apply search_run_app_some.
    + destruct (IH w1) as (r & w' & Hrun & Hrel).
      exists r, w'. split; [exact Hrun|].
      eapply search_run_app_none; eauto.
Qed.

Lemma port_eqb_refl (p : option Z) : port_eqb p p = true.
Proof. destruct p; simpl; trivial. apply Z.eqb_refl. Qed.

Lemma port_eqb_sym (p q : option Z) : port_eqb p q = port_eqb q p.
Proof. destruct p, q; simpl; trivial. apply Z.eqb_sym. Qed.

(** The device's own port occurs once in the list of ports to probe. *)
Lemma probe_ports_count (device_port : option Z) (context : DeviceContext) :
  count_port device_port (ONVIFSnapshot.probe_ports device_port context) = 1%nat.
Proof.
  unfold count_port, ONVIFSnapshot.probe_ports. simpl.
  rewrite port_eqb_refl. simpl. f_equal.
  induction (map Some (ports context)) as [|q l IH]; simpl; trivial.
  destruct (port_eqb q device_port) eqn:E; simpl; trivial.
  now rewrite port_eqb_sym, E.
Qed.

(** *** C2 *)

(** The search of [_try_device_urls] as it is written.  When the first
    URL of the device is parsed and [parsed.port] is read, the list of
    ports is the value of [parsed.port] followed by the ports of the
    profile that differ from it, so that this value comes first and
    occurs exactly once.  The URLs are probed with the ports in the outer
    loop and the paths of [get_all_paths] in the inner loop; the result
    is the first URL whose probe is a hit, and [None] only when every
    combination has been probed without a hit.  The GET requests made
    are those for the URLs probed, in this order.  The value of
    [parsed.port] is the device's own port only when the URL names a
    port. *)
Theorem try_device_urls_order
        (env : Env) (timeout : Z) (device : ONVIFDevice)
        (context : DeviceContext) (auth : Credential) (w : World)
        (url0 : string) (parsed : UrlParse.ParseResult)
        (device_port : option Z) :
  hd_error (urls device) = Some url0 ->
  urlparse env url0 = Ok parsed ->
  UrlParse.port parsed = Ok device_port ->
  let port_list := ONVIFSnapshot.probe_ports device_port context in
  let candidates :=
    flat_map (fun port => map (ONVIFSnapshot.probe_url parsed port)
                              (get_all_paths context))
             port_list in
  port_list
  = device_port
      :: filter (fun p => negb (port_eqb p device_port))
                (map Some (ports context))
  /\ count_port device_port port_list = 1%nat
  /\ exists r w',
       ONVIFSnapshot._try_device_urls env timeout device context auth w
       = (Ok r, w')
       /\ search_run
            (fun url => ONVIFSnapshot._try_snapshot_url env timeout url auth
                          ONVIFSnapshot.probe_headers)
            candidates w r w'
       /\ exists tried untried,
            candidates = (tried ++ untried)%list
            /\ get_urls (trace w') = (get_urls (trace w) ++ tried)%list
            /\ match r with
               | None => untried = []
               | Some url => exists before, tried = (before ++ [url])%list
               end.
Proof.
  intros Hurl Hparse Hport port_list candidates.
  split; [reflexivity|]. split; [apply probe_ports_count|].
  destruct (try_ports_run env timeout parsed auth port_list
              (get_all_paths context) w) as (r & w' & Hrun & Hrel).
  exists r, w'. split; [|split; [exact Hrel|]].
  - unfold ONVIFSnapshot._try_device_urls.
    destruct (urls device) as [|u rest]; [discriminate|].
    injection Hurl as ->.
    unfold bind at 1. unfold lift at 1. simpl list_first. cbv iota.
    unfold bind at 1. unfold lift at 1. rewrite Hparse.
    unfold bind at 1. unfold lift at 1. rewrite Hport.
    exact Hrun.
  - eapply search_run_get_urls; eauto.
Qed.

Lemma try_device_urls_order_witness :
  exists w',
    ONVIFSnapshot._try_device_urls demo_env 5 demo_device hikvision_context
      demo_cred empty_world
    = (Ok (Some "http://192.168.1.64:80/ISAPI/Streaming/channels/1/picture"),
       w')
    /\ get_urls (trace w')
       = [ "http://192.168.1.64:80/ISAPI/Streaming/channels/101/picture";
           "http://192.168.1.64:80/ISAPI/Streaming/channels/1/picture" ]
    /\ ONVIFSnapshot.probe_ports (Some 80%Z) hikvision_context
       = [Some 80%Z; Some 8000%Z; Some 554%Z].
Proof.
  destruct (try_device_urls_order demo_env 5 demo_device hikvision_context
              demo_cred empty_world
              "http://192.168.1.64:80/onvif/device_service"
              {| UrlParse.scheme := "http";
                 UrlParse.netloc := "192.168.1.64:80";
                 UrlParse.path := "/onvif/device_service";
                 UrlParse.params := "";
                 UrlParse.query := "";
                 UrlParse.fragment := "";
                 UrlParse.hostname := Some "192.168.1.64";
                 UrlParse.port := Ok (Some 80%Z) |}
              (Some 80%Z) eq_refl eq_refl eq_refl)
    as (Hports & _ & r & w' & Hrun & _ & _).
  exists w'.
  assert (E : (Ok r, w')
              = ONVIFSnapshot._try_device_urls demo_env 5 demo_device
                  hikvision_context demo_cred empty_world)
    by (symmetry; exact Hrun).
  vm_compute in E. injection E as -> ->.
  split; [exact Hrun|]. split; reflexivity.
Defined.

Lemma probe_ports_None (context : DeviceContext) :
  ONVIFSnapshot.probe_ports None context = None :: map Some (ports context).
Proof.
  unfold ONVIFSnapshot.probe_ports. f_equal.
  induction (ports context) as [|p l IH]; simpl; [reflexivity|].
  now rewrite IH.
Qed.

(** C2. For a device whose address names no port, [parsed.port] is
    [None], and the list of ports is [None] followed by every port of
    the profile: the device's own port, the default of the scheme, is
    not first, and nothing is removed from the profile's ports.  For the
    Hikvision camera at [http://192.168.1.64/onvif/device_service],
    which serves a snapshot on its port 80, the prober first asks for
    the fifteen paths at [http://192.168.1.64:None], which is no URL,
    and reaches port 80 only with its sixteenth request.  For the same
    camera over https, which serves a snapshot at every path of its port
    443, the prober makes sixty requests, none of them to port 443, and
    returns [None]. *)
Theorem C2_portless_device_probes_port_None_first :
  (forall context,
     ONVIFSnapshot.probe_ports None context
     = None :: map Some (ports context))
  /\ (exists parsed w',
        UrlParse.urlparse "http://192.168.1.64/onvif/device_service"
        = Ok parsed
        /\ UrlParse.port parsed = Ok None
        /\ own_port parsed = Some 80%Z
        /\ ONVIFSnapshot.probe_ports None hikvision_context
           = [None; Some 80%Z; Some 8000%Z; Some 554%Z]
        /\ ONVIFSnapshot._try_device_urls portless_env 5 portless_device
             hikvision_context demo_cred empty_world
           = (Ok (Some
                    "http://192.168.1.64:80/ISAPI/Streaming/channels/101/picture"),
              w')
        /\ get_urls (trace w')
           = (map (ONVIFSnapshot.probe_url parsed None)
                  (get_all_paths hikvision_context)
              ++ ["http://192.168.1.64:80/ISAPI/Streaming/channels/101/picture"])%list
        /\ hd_error (get_urls (trace w'))
           = Some
               "http://192.168.1.64:None/ISAPI/Streaming/channels/101/picture"
        /\ List.length (get_urls (trace w')) = 16%nat)
  /\ (exists parsed w',
        UrlParse.urlparse "https://192.168.1.64/onvif/device_service"
        = Ok parsed
        /\ UrlParse.port parsed = Ok None
        /\ own_port parsed = Some 443%Z
        /\ count_port (Some 443%Z)
             (ONVIFSnapshot.probe_ports None hikvision_context) = 0%nat
        /\ portless_get
             "https://192.168.1.64:443/ISAPI/Streaming/channels/101/picture"
           = Ok jpeg_response
        /\ ONVIFSnapshot._try_device_urls portless_env 5
             secure_portless_device hikvision_context demo_cred empty_world
           = (Ok None, w')
        /\ List.length (get_urls (trace w')) = 60%nat
        /\ Forall (fun url =>
                     PyStr.startswith "https://192.168.1.64:443/" url = false)
                  (get_urls (trace w'))).
Proof.
  split; [exact probe_ports_None|]. split.
  - eexists. eexists.
    split; [vm_compute; reflexivity|].
    split; [reflexivity|]. split; [reflexivity|]. split; [reflexivity|].
    split; [vm_compute; reflexivity|].
    split; [vm_compute; reflexivity|].
    split; [vm_compute; reflexivity|].
    vm_compute; reflexivity.
  - eexists. eexists.
    split; [vm_compute; reflexivity|].
    split; [reflexivity|]. split; [reflexivity|]. split; [reflexivity|].
    split; [reflexivity|].
    split; [vm_compute; reflexivity|].
    split; [vm_compute; reflexivity|].
    vm_compute. repeat constructor.
Qed.

(** When no URL is a hit, every port is probed with every path: three
    ports and fifteen paths for a Hikvision camera. *)
Example try_device_urls_exhausted :
  let env := simple_env (fun _ => Ok (status_response 404))
                        demo_post demo_parse in
  let run := ONVIFSnapshot._try_device_urls env 5 demo_device
               hikvision_context demo_cred empty_world in
  fst run = Ok None
  /\ List.length (get_urls (trace (snd run))) = 45%nat
  /\ firstn 2 (get_urls (trace (snd run)))
     = [ "http://192.168.1.64:80/ISAPI/Streaming/channels/101/picture";
         "http://192.168.1.64:80/ISAPI/Streaming/channels/1/picture" ]
  /\ nth_error (get_urls (trace (snd run))) 15
     = Some "http://192.168.1.64:8000/ISAPI/Streaming/channels/101/picture".
Proof. vm_compute. repeat split. Qed.

(** ** Probing with retries (snapshot/base.py) *)

Import ONVIFSnapshotBase.

(** The end of an attempt that is not a hit goes on with the loop (or
    raises): it never returns an image. *)
Lemma backoff_not_return (m : M unit) (w : World) (data : list Byte.byte) :
  fst (bind m (fun _ => ret (@Continue (list Byte.byte))) w)
  <> Ok (Return data).
Proof.
  unfold bind, ret. destruct (m w) as [[u|e] w1]; simpl; discriminate.
Qed.

(** An attempt returns an image only for an answer with status 200, a
    content type that contains "image/" and a body that starts with an
    image signature; the body is read only once the content type has
    passed. *)
Lemma after_get_return (max_retries : Z) (tm : TimeName)
      (response : Response) (attempt : Z) (w : World)
      (data : list Byte.byte) :
  fst (after_get max_retries tm response attempt w) = Ok (Return data) ->
  status_code response = 200%Z
  /\ PyStr.str_in "image/"
       (PyStr.lower (headers_get (headers response) "content-type" ""))
     = true
  /\ content response = Ok data
  /\ _is_valid_image data = true.
Proof.
  unfold after_get.
  destruct (Z.eqb_spec (status_code response) 200) as [Hs|Hs].
  - destruct (PyStr.str_in "image/" _) eqn:Hct.
    + unfold bind at 1. unfold lift at 1.
      destruct (content response) as [d|e] eqn:Hc; [|discriminate].
      destruct (_is_valid_image d) eqn:Hv.
      * simpl. intros [= <-]. auto.
      * intros H. now apply backoff_not_return in H.
    + intros H. now apply backoff_not_return in H.
  - destruct (status_code response =? 401)%Z.
    + discriminate.
    + intros H. now apply backoff_not_return in H.
Qed.

(** The [except] and [finally] clauses do not make a hit. *)
Lemma guarded_return (response : option Response)
      (m : M (Flow (list Byte.byte))) (w : World) (data : list Byte.byte) :
  fst (guarded response m w) = Ok (Return data) ->
  fst (m w) = Ok (Return data).
Proof.
  unfold guarded, try_finally, try_except.
  destruct (m w) as [[flow|e] w1]; simpl.
  - destruct response as [r|]; [destruct (response_ok r)|]; simpl; trivial.
  - destruct (is_Timeout e || is_RequestException e); simpl;
      destruct response as [r|]; [destruct (response_ok r)| |
                                  destruct (response_ok r)|];
      simpl; discriminate.
Qed.

(** One iteration returns an image only when its GET was answered by an
    image. *)
Lemma attempt_once_return (env : Env) (timeout max_retries : Z)
      (tm : TimeName) (url : string) (auth : AuthHandler)
      (hdrs : list (string * string)) (attempt : Z)
      (response : option Response) (w w' : World)
      (response' : option Response) (data : list Byte.byte) :
  attempt_once env timeout max_retries tm url auth hdrs attempt response w
  = (Ok (response', Return data), w') ->
  exists t url' r,
    requests_get env t url' auth hdrs = Ok r
    /\ status_code r = 200%Z
    /\ PyStr.str_in "image/"
         (PyStr.lower (headers_get (headers r) "content-type" "")) = true
    /\ content r = Ok data
    /\ _is_valid_image data = true.
Proof.
  unfold attempt_once.
  destruct (fetch env timeout tm url auth hdrs w) as [[r|e] w1] eqn:Hf.
  - unfold bind, ret.
    destruct (guarded (Some r) (after_get max_retries tm r attempt) w1)
      as [[flow|e] w2] eqn:Hg; [|discriminate].
    intros [= _ -> _].
    assert (Hr : fst (after_get max_retries tm r attempt w1)
                 = Ok (Return data)).
    { apply guarded_return with (response := Some r). now rewrite Hg. }
    apply after_get_return in Hr.
    unfold fetch, bind, time_time, session_get, perform in Hf.
    destruct tm; simpl in Hf; [|discriminate].
    injection Hf as Hget _.
    eexists _, _, r. split; [exact Hget | exact Hr].
  - unfold bind, ret.
    destruct (guarded response (raise e) w1) as [[flow|e'] w2] eqn:Hg;
      [|discriminate].
    intros [= _ -> _].
    assert (Hr : fst (@raise (Flow (list Byte.byte)) e w1)
                 = Ok (Return data)).
    { apply guarded_return with (response := response). now rewrite Hg. }
    discriminate.
Qed.

(** The loop returns an image only when one of its GETs was answered by
    an image. *)
Lemma attempts_loop_hit (env : Env) (timeout max_retries : Z)
      (tm : TimeName) (url : string) (auth : AuthHandler)
      (hdrs : list (string * string)) (attempts : list Z) :
  forall (response : option Response) (w : World) (data : list Byte.byte),
    fst (attempts_loop env timeout max_retries tm url auth hdrs attempts
           response w) = Ok (Some data) ->
    exists t url' r,
      requests_get env t url' auth hdrs = Ok r
      /\ status_code r = 200%Z
      /\ PyStr.str_in "image/"
           (PyStr.lower (headers_get (headers r) "content-type" "")) = true
      /\ content r = Ok data
      /\ _is_valid_image data = true.
Proof.
  induction attempts as [|attempt rest IH]; intros response w data.
  - discriminate.
  - simpl. unfold bind at 1.
    destruct (attempt_once env timeout max_retries tm url auth hdrs attempt
                response w) as [[[response' flow]|e] w1] eqn:Ha;
      [|discriminate].
    simpl snd. simpl fst. destruct flow as [| |d].
    + apply IH.
    + discriminate.
    + simpl. intros [= ->].
      eapply attempt_once_return; eauto.
Qed.

(** A probe of snapshot.py is a hit only for an answer with status 200
    and a content type that starts with "image/". *)
Lemma legacy_hit_only_if_image (env : Env) (answer : PyResult Response) :
  legacy_hit env answer = true ->
  exists response,
    answer = Ok response
    /\ status_code response = 200%Z
    /\ PyStr.startswith "image/"
         (headers_get (headers response) "content-type" "") = true.
Proof.
  unfold legacy_hit. destruct answer as [response|e]; [|discriminate].
  intros H. apply andb_true_iff in H. destruct H as [Hs H].
  exists response. split; [reflexivity|]. split; [now apply Z.eqb_eq|].
  destruct (py_int env _); [|discriminate].
  now apply andb_true_iff in H.
Qed.

(** A content type that does not start with "image/" is never a hit in
    snapshot.py, whatever the length and the body. *)
Lemma legacy_not_image_miss (env : Env) (timeout : Z) (url : string)
      (auth : Credential) (hdrs : list (string * string)) (w : World)
      (response : Response) :
  requests_get env (trace w) url (auth_handler_of auth) hdrs = Ok response ->
  PyStr.startswith "image/"
    (headers_get (headers response) "content-type" "") = false ->
  fst (ONVIFSnapshot._try_snapshot_url env timeout url auth hdrs w)
  = Ok false.
Proof.
  intros Hget Hct. rewrite legacy_try_snapshot_url_spec. simpl fst.
  rewrite Hget. unfold legacy_hit. rewrite Hct.
  destruct (status_code response =? 200)%Z; simpl; trivial.
  now destruct (py_int env _).
Qed.

(** A content type that does not contain "image/" is never a hit in
    snapshot/base.py, whatever the body: the body is not looked at. *)
Lemma after_get_not_image (max_retries : Z) (tm : TimeName)
      (response : Response) (attempt : Z) (w : World)
      (data : list Byte.byte) :
  PyStr.str_in "image/"
    (PyStr.lower (headers_get (headers response) "content-type" "")) = false ->
  fst (after_get max_retries tm response attempt w) <> Ok (Return data).
Proof.
  intros Hct H. apply after_get_return in H.
  destruct H as (_ & H & _). congruence.
Qed.

(** *** C1 *)

(** C1. In both classes a probe is a hit only for an answer whose content
    type says image: in snapshot.py the content type must start with
    "image/", in snapshot/base.py it must contain "image/" (and the body
    must then start with an image signature).  So an answer with status
    200 and the content type text/html is not a hit, whatever its length
    and body; and an answer with status 200 and the content type
    application/octet-stream is not a hit although its body starts with
    the JPEG signature FF D8 FF: the content type is checked first. *)
Theorem C1_hit_only_for_image_content_type :
  (forall env timeout url auth hdrs w,
      fst (ONVIFSnapshot._try_snapshot_url env timeout url auth hdrs w)
      = Ok true ->
      exists response,
        requests_get env (trace w) url (auth_handler_of auth) hdrs
        = Ok response
        /\ status_code response = 200%Z
        /\ PyStr.startswith "image/"
             (headers_get (headers response) "content-type" "") = true)
  /\ (forall env timeout max_retries url auth hdrs w data,
        fst (ONVIFSnapshotBase._try_snapshot_url env timeout max_retries
               url auth hdrs w) = Ok (Some data) ->
        exists t url' response,
          requests_get env t url' (auth_handler_of auth) hdrs = Ok response
          /\ status_code response = 200%Z
          /\ PyStr.str_in "image/"
               (PyStr.lower
                  (headers_get (headers response) "content-type" ""))
             = true
          /\ content response = Ok data
          /\ _is_valid_image data = true)
  /\ (forall response,
        status_code response = 200%Z ->
        headers_get (headers response) "content-type" "" = "text/html" ->
        (forall env timeout url auth hdrs w,
            requests_get env (trace w) url (auth_handler_of auth) hdrs
            = Ok response ->
            fst (ONVIFSnapshot._try_snapshot_url env timeout url auth hdrs w)
            = Ok false)
        /\ (forall max_retries tm attempt w data,
              fst (after_get max_retries tm response attempt w)
              <> Ok (Return data)))
  /\ (forall response rest,
        status_code response = 200%Z ->
        headers_get (headers response) "content-type" ""
        = "application/octet-stream" ->
        content response = Ok (jpeg_header ++ rest)%list ->
        (forall env timeout url auth hdrs w,
            requests_get env (trace w) url (auth_handler_of auth) hdrs
            = Ok response ->
            fst (ONVIFSnapshot._try_snapshot_url env timeout url auth hdrs w)
            = Ok false)
        /\ (forall max_retries tm attempt w data,
              fst (after_get max_retries tm response attempt w)
              <> Ok (Return data))).
Proof.
  split; [|split; [|split]].
  - intros env timeout url auth hdrs w.
    rewrite legacy_try_snapshot_url_spec. simpl fst. intros [= H].
    apply legacy_hit_only_if_image in H.
    destruct H as (response & Ha & Hs & Hct). now exists response.
  - intros env timeout max_retries url auth hdrs w data.
    unfold ONVIFSnapshotBase._try_snapshot_url, try_snapshot_url_with.
    apply attempts_loop_hit.
  - intros response Hs Hct. split.
    + intros env timeout url auth hdrs w Hget.
      eapply legacy_not_image_miss; eauto. now rewrite Hct.
    + intros max_retries tm attempt w data.
      apply after_get_not_image. now rewrite Hct.
  - intros response rest Hs Hct Hbody. split.
    + intros env timeout url auth hdrs w Hget.
      eapply legacy_not_image_miss; eauto. now rewrite Hct.
    + intros max_retries tm attempt w data.
      apply after_get_not_image. now rewrite Hct.
Qed.

Lemma C1_hit_only_for_image_witness :
  fst (ONVIFSnapshot._try_snapshot_url
         (simple_env (fun _ => Ok html_response) demo_post demo_parse)
         5 "http://192.168.1.64:80/snapshot" demo_cred
         ONVIFSnapshot.probe_headers empty_world) = Ok false
  /\ fst (ONVIFSnapshot._try_snapshot_url
            (simple_env (fun _ => Ok octet_jpeg_response) demo_post demo_parse)
            5 "http://192.168.1.64:80/snapshot" demo_cred
            ONVIFSnapshot.probe_headers empty_world) = Ok false
  /\ fst (after_get 3 TimeModule html_response 0 empty_world)
     <> Ok (Return [])
  /\ fst (after_get 3 TimeModule octet_jpeg_response 0 empty_world)
     <> Ok (Return jpeg_bytes).
Proof.
  pose proof C1_hit_only_for_image_content_type as (_ & _ & Hhtml & Hoct).
  destruct (Hhtml html_response eq_refl eq_refl) as [Hl1 Hh1].
  destruct (Hoct octet_jpeg_response [Byte.xe0; Byte.x00; Byte.x10]
                 eq_refl eq_refl eq_refl) as [Hl2 Hh2].
  split; [|split; [|split]].
  - apply Hl1. reflexivity.
  - apply Hl2. reflexivity.
  - apply Hh1.
  - apply Hh2.
Defined.

(** With base.py's binding of [time], the first iteration of the loop
    raises [AttributeError] at [time.time()], before any request: no
    [except] clause takes it, and it leaves [_try_snapshot_url]. *)
Lemma base_try_snapshot_url_raises (env : Env) (timeout max_retries : Z)
      (url : string) (auth : Credential) (hdrs : list (string * string))
      (w : World) :
  (0 < max_retries)%Z ->
  ONVIFSnapshotBase._try_snapshot_url env timeout max_retries url auth hdrs w
  = (Raise no_attribute_time, w).
Proof.
  intros Hpos.
  unfold ONVIFSnapshotBase._try_snapshot_url, try_snapshot_url_with, range.
  destruct (Z.to_nat max_retries) as [|n] eqn:E; [lia|].
  simpl. unfold bind at 1. unfold attempt_once, fetch, time.
  unfold bind at 1. simpl time_time. unfold raise at 1.
  unfold bind at 1.
  unfold guarded, try_finally, try_except, raise, ret. simpl.
  now destruct w.
Qed.

(** With no attempt to make, the loop is not entered and the result is
    [None]. *)
Lemma base_try_snapshot_url_no_retries (env : Env) (timeout max_retries : Z)
      (url : string) (auth : Credential) (hdrs : list (string * string))
      (w : World) :
  (max_retries <= 0)%Z ->
  ONVIFSnapshotBase._try_snapshot_url env timeout max_retries url auth hdrs w
  = (Ok None, w).
Proof.
  intros H.
  unfold ONVIFSnapshotBase._try_snapshot_url, try_snapshot_url_with, range.
  destruct (Z.to_nat max_retries) as [|n] eqn:E; [reflexivity|lia].
Qed.

(** Had the module [time] been imported, the request would carry the
    cache-busting parameter: the URL, then "&" when the URL has a "?" and
    "?" otherwise, then nocache= and the seconds of the clock. *)
Lemma fetch_with_time_module (env : Env) (timeout : Z) (url : string)
      (auth : AuthHandler) (hdrs : list (string * string)) (w : World) :
  let url' :=
    url ++ (if PyStr.char_in "?" url then "&" else "?")
    ++ "nocache=" ++ PyStr.of_Z (int_of_Q (clock env (trace w))) in
  fetch env timeout TimeModule url auth hdrs w
  = (requests_get env (trace w) url' auth hdrs,
     add_events w [EvGet url' auth hdrs (Z.min 3 timeout)]).
Proof. reflexivity. Qed.

(** Had the module [time] been imported, a 401 at the first attempt would
    end the loop with [None] after this one request, without a pause. *)
Lemma try_snapshot_url_401_with_time_module
      (env : Env) (timeout max_retries : Z) (url : string)
      (auth : Credential) (hdrs : list (string * string)) (w : World)
      (response : Response) :
  (0 < max_retries)%Z ->
  let url' :=
    url ++ (if PyStr.char_in "?" url then "&" else "?")
    ++ "nocache=" ++ PyStr.of_Z (int_of_Q (clock env (trace w))) in
  requests_get env (trace w) url' (auth_handler_of auth) hdrs = Ok response ->
  status_code response = 401%Z ->
  try_snapshot_url_with env timeout max_retries TimeModule url auth hdrs w
  = (Ok None,
     add_events w [EvGet url' (auth_handler_of auth) hdrs (Z.min 3 timeout)]).
Proof.
  intros Hpos url' Hget Hs.
  unfold try_snapshot_url_with, range.
  destruct (Z.to_nat max_retries) as [|n] eqn:E; [lia|].
  simpl. unfold bind at 1. unfold attempt_once.
  rewrite fetch_with_time_module. fold url'. rewrite Hget.
  unfold bind at 1. unfold guarded, try_finally, try_except, after_get.
  rewrite Hs. simpl. unfold response_ok. rewrite Hs. reflexivity.
Qed.

(** *** C6 *)

(** C6. The attempt of base.py does not complete: for a camera that
    serves a JPEG image at the URL, [_try_snapshot_url] raises
    [AttributeError] at [time.time()], where [time] is the class
    [datetime.time], and no request is sent.  With the module [time] the
    same call would send one GET with the parameter nocache= and the
    seconds of the clock, and return the image. *)
Theorem C6_cache_buster_raises_AttributeError :
  let url := "http://192.168.1.64:80/ISAPI/Streaming/channels/1/picture" in
  ONVIFSnapshotBase._try_snapshot_url demo_env 5 3 url demo_cred
    ONVIFSnapshot.probe_headers empty_world
  = (Raise no_attribute_time, empty_world)
  /\ try_snapshot_url_with
       (simple_env (fun _ => Ok jpeg_response) demo_post demo_parse)
       5 3 TimeModule url demo_cred ONVIFSnapshot.probe_headers empty_world
     = (Ok (Some jpeg_bytes),
        {| trace :=
             [ EvGet (url ++ "?nocache=1700000000")
                     (HTTPDigestAuth "admin" "pw")
                     ONVIFSnapshot.probe_headers 3;
               EvClose ];
           errors := [] |}).
Proof. split; vm_compute; reflexivity. Qed.

(** *** C5 *)

(** C5. The retry loop of base.py does not run as intended: for a camera
    that answers 401, [_try_snapshot_url] raises [AttributeError] at the
    first attempt and sends no request, where the 401 should end the loop
    with [None]; for a camera that answers 404, it raises in the same
    way, where three attempts with pauses of 0.5 and 1.0 seconds between
    them should be made.  With the module [time] both runs would be as
    intended. *)
Theorem C5_retry_loop_raises_AttributeError :
  let url := "http://192.168.1.64:80/snapshot" in
  let env401 :=
    simple_env (fun _ => Ok (status_response 401)) demo_post demo_parse in
  let env404 :=
    simple_env (fun _ => Ok (status_response 404)) demo_post demo_parse in
  let auth := HTTPDigestAuth "admin" "pw" in
  let get := EvGet (url ++ "?nocache=1700000000") auth
                   ONVIFSnapshot.probe_headers 3 in
  ONVIFSnapshotBase._try_snapshot_url env401 5 3 url demo_cred
    ONVIFSnapshot.probe_headers empty_world
  = (Raise no_attribute_time, empty_world)
  /\ ONVIFSnapshotBase._try_snapshot_url env404 5 3 url demo_cred
       ONVIFSnapshot.probe_headers empty_world
     = (Raise no_attribute_time, empty_world)
  /\ try_snapshot_url_with env401 5 3 TimeModule url demo_cred
       ONVIFSnapshot.probe_headers empty_world
     = (Ok None, {| trace := [get]; errors := [] |})
  /\ try_snapshot_url_with env404 5 3 TimeModule url demo_cred
       ONVIFSnapshot.probe_headers empty_world
     = (Ok None,
        {| trace := [ get; EvSleep ((1 # 2) * inject_Z 1);
                      get; EvSleep ((1 # 2) * inject_Z 2);
                      get ];
           errors := [] |}).
Proof. repeat split; vm_compute; reflexivity. Qed.

(** Had the module [time] been imported: an attempt that ends in a
    requests exception is followed by the next one without a pause, and
    a response that is not an image is closed after the pause. *)
Example retries_with_time_module :
  let url := "http://192.168.1.64:80/snapshot" in
  let auth := HTTPDigestAuth "admin" "pw" in
  let get := EvGet (url ++ "?nocache=1700000000") auth
                   ONVIFSnapshot.probe_headers 3 in
  try_snapshot_url_with
    (simple_env (fun _ => Raise (mkExn Timeout "Read timed out."))
                demo_post demo_parse)
    5 3 TimeModule url demo_cred ONVIFSnapshot.probe_headers empty_world
  = (Ok None, {| trace := [get; get; get]; errors := [] |})
  /\ try_snapshot_url_with
       (simple_env (fun _ => Ok html_response) demo_post demo_parse)
       5 3 TimeModule url demo_cred ONVIFSnapshot.probe_headers empty_world
     = (Ok None,
        {| trace := [ get; EvSleep ((1 # 2) * inject_Z 1); EvClose;
                      get; EvSleep ((1 # 2) * inject_Z 2); EvClose;
                      get; EvClose ];
           errors := [] |}).
Proof. split; vm_compute; reflexivity. Qed.

(** One iteration sends at most one GET, whatever [time] is bound to. *)
Lemma attempt_once_one_get (env : Env) (timeout max_retries : Z)
      (tm : TimeName) (url : string) (auth : AuthHandler)
      (hdrs : list (string * string)) (attempt : Z)
      (response : option Response) (w : World) :
  exists es,
    trace (snd (attempt_once env timeout max_retries tm url auth hdrs
                  attempt response w))
    = (trace w ++ es)%list
    /\ (List.length (get_urls es) <= 1)%nat.
Proof.
  unfold attempt_once, fetch, time_time, session_get, perform, guarded,
    try_finally, try_except, after_get, time_sleep, close, perform, bind,
    raise, lift, ret.
  destruct tm; simpl.
  - destruct (requests_get env (trace w) _ auth hdrs) as [r|e]; simpl.
    + destruct (status_code r =? 200)%Z;
        [ destruct (PyStr.str_in "image/" _);
          [ destruct (content r) as [d|e];
            [ destruct (_is_valid_image d) |  ] | ]
        | destruct (status_code r =? 401)%Z ];
        repeat (match goal with
                | |- context [if ?b then _ else _] => destruct b
                end; simpl);
        rewrite <- ?app_assoc; eexists; (split; [reflexivity|]);
        rewrite ?get_urls_app; simpl; lia.
    + destruct (is_Timeout e || is_RequestException e);
        destruct response as [r|]; simpl;
        repeat (match goal with
                | |- context [if ?b then _ else _] => destruct b
                end; simpl);
        rewrite <- ?app_assoc; eexists; (split; [reflexivity|]);
        rewrite ?get_urls_app; simpl; lia.
  - destruct response as [r|]; simpl;
      repeat (match goal with
              | |- context [if ?b then _ else _] => destruct b
              end; simpl);
      first [ exists []; split; [now rewrite app_nil_r | simpl; lia]
            | eexists; split; [reflexivity | simpl; lia] ].
Qed.

(** The loop sends at most one GET per attempt: at most [max_retries]
    in all, whatever the answers are. *)
Lemma attempts_loop_bounded (env : Env) (timeout max_retries : Z)
      (tm : TimeName) (url : string) (auth : AuthHandler)
      (hdrs : list (string * string)) (attempts : list Z) :
  forall (response : option Response) (w : World),
  exists es,
    trace (snd (attempts_loop env timeout max_retries tm url auth hdrs
                  attempts response w))
    = (trace w ++ es)%list
    /\ (List.length (get_urls es) <= List.length attempts)%nat.
Proof.
  induction attempts as [|attempt rest IH]; intros response w.
  - exists []. split; [simpl; now rewrite app_nil_r | simpl; lia].
  - destruct (attempt_once_one_get env timeout max_retries tm url auth hdrs
                attempt response w) as (es1 & Ht1 & Hn1).
    simpl attempts_loop. unfold bind at 1.
    destruct (attempt_once env timeout max_retries tm url auth hdrs attempt
                response w) as [[[response' flow]|e] w1].
    + simpl in Ht1. cbn [snd fst].
      destruct flow as [| |d]; cbn [snd].
      * destruct (IH response' w1) as (es2 & Ht2 & Hn2).
        exists (es1 ++ es2)%list. split.
        -- rewrite Ht2, Ht1. now rewrite app_assoc.
        -- rewrite get_urls_app, length_app. simpl. lia.
      * exists es1. split; [exact Ht1 | simpl; lia].
      * exists es1. split; [exact Ht1 | simpl; lia].
    + exists es1. split; [exact Ht1 | simpl; lia].
Qed.

(** * Further properties *)

(** ** Events and outcomes of computations *)

Lemma run_sat_ret {A} (P : Event -> bool) (Q : PyResult A -> Prop) (a : A) :
  Q (Ok a) -> run_sat P Q (ret a).
Proof.
  intros H w. exists []. simpl. now rewrite app_nil_r.
Qed.

Lemma run_sat_lift {A} (P : Event -> bool) (Q : PyResult A -> Prop)
      (r : PyResult A) :
  Q r -> run_sat P Q (lift r).
Proof.
  intros H w. exists []. simpl. now rewrite app_nil_r.
Qed.

Lemma run_sat_read {A} (P : Event -> bool) (Q : PyResult A -> Prop)
      (f : World -> A) :
  (forall a, Q (Ok a)) -> run_sat P Q (fun w => (Ok (f w), w)).
Proof.
  intros H w. exists []. simpl. rewrite app_nil_r. auto.
Qed.

Lemma run_sat_perform {A} (P : Event -> bool) (Q : PyResult A -> Prop)
      (ev : Event) (answer : list Event -> PyResult A) :
  P ev = true -> (forall r, Q r) -> run_sat P Q (perform ev answer).
Proof.
  intros HP HQ w. exists [ev]. simpl. rewrite HP. auto.
Qed.

Lemma run_sat_Logger_error (P : Event -> bool) (Q : PyResult unit -> Prop)
      (msg : string) :
  Q (Ok tt) -> run_sat P Q (Logger_error msg).
Proof.
  intros H w. exists []. simpl. now rewrite app_nil_r.
Qed.

Lemma run_sat_bind {A B} (P : Event -> bool) (Q : PyResult A -> Prop)
      (R : PyResult B -> Prop) (m : M A) (f : A -> M B) :
  run_sat P Q m ->
  (forall a, Q (Ok a) -> run_sat P R (f a)) ->
  (forall e, Q (Raise e) -> R (Raise e)) ->
  run_sat P R (bind m f).
Proof.
  intros Hm Hf He w. unfold bind.
  destruct (Hm w) as (es1 & Ht1 & HP1 & HQ1).
  destruct (m w) as [[a|e] w1]; simpl in *.
  - destruct (Hf a HQ1 w1) as (es2 & Ht2 & HP2 & HR).
    exists (es1 ++ es2)%list. rewrite Ht2, Ht1, app_assoc, forallb_app, HP1, HP2.
    auto.
  - exists es1. auto.
Qed.

Lemma run_sat_try_except {A} (P : Event -> bool) (Q R : PyResult A -> Prop)
      (m : M A) (catches : PyExn -> bool) (handler : PyExn -> M A) :
  run_sat P Q m ->
  (forall a, Q (Ok a) -> R (Ok a)) ->
  (forall e, Q (Raise e) -> catches e = false -> R (Raise e)) ->
  (forall e, Q (Raise e) -> catches e = true -> run_sat P R (handler e)) ->
  run_sat P R (try_except m catches handler).
Proof.
  intros Hm Hok Hno Hyes w. unfold try_except.
  destruct (Hm w) as (es1 & Ht1 & HP1 & HQ1).
  destruct (m w) as [[a|e] w1]; simpl in *.
  - exists es1. auto.
  - destruct (catches e) eqn:Hc.
    + destruct (Hyes e HQ1 Hc w1) as (es2 & Ht2 & HP2 & HR).
      exists (es1 ++ es2)%list.
      rewrite Ht2, Ht1, app_assoc, forallb_app, HP1, HP2. auto.
    + exists es1. simpl. auto.
Qed.

Lemma run_sat_weaken {A} (P P' : Event -> bool) (Q Q' : PyResult A -> Prop)
      (m : M A) :
  run_sat P Q m ->
  (forall e, P e = true -> P' e = true) ->
  (forall r, Q r -> Q' r) ->
  run_sat P' Q' m.
Proof.
  intros Hm HP HQ w. destruct (Hm w) as (es & Ht & HPe & HQr).
  exists es. repeat split; auto.
  rewrite forallb_forall in *. auto.
Qed.

(** ** The stream URL of snapshot.py *)

Lemma add_events_nil (w : World) : add_events w [] = w.
Proof. unfold add_events. rewrite app_nil_r. now destruct w. Qed.

Lemma add_events_app (w : World) (es1 es2 : list Event) :
  add_events (add_events w es1) es2 = add_events w (es1 ++ es2).
Proof. unfold add_events. simpl. now rewrite app_assoc. Qed.

(** One endpoint of [_get_rtsp_stream_url]: one POST, and no URL,
    whatever the answer: the lookup of the [Uri] element raises. *)
Lemma rtsp_stream_url_at_none (env : Env) (timeout : Z)
      (parsed : UrlParse.ParseResult) (media_url : string)
      (auth : Credential) (profile_token : string) (w : World) :
  ONVIFSnapshot.rtsp_stream_url_at env timeout parsed media_url auth
    profile_token w
  = (Ok None,
     add_events w
       [EvPost media_url (auth_handler_of auth)
               (_create_get_stream_uri_message profile_token)
               [("Content-Type", "application/soap+xml")] timeout]).
Proof.
  unfold ONVIFSnapshot.rtsp_stream_url_at, try_except, bind,
    ONVIFSnapshot.post, perform, lift, ret, add_events, any_Exception.
  simpl trace. simpl errors.
  destruct (requests_post env (trace w) media_url (auth_handler_of auth)
              (_create_get_stream_uri_message profile_token))
    as [response|e]; trivial.
  destruct (status_code response =? 200)%Z; trivial.
  destruct (fromstring env (text response)) as [root|e]; trivial.
Qed.

Lemma rtsp_stream_url_loop_cons (env : Env) (timeout : Z)
      (parsed : UrlParse.ParseResult) (auth : Credential)
      (profile_token service_path : string) (rest : list string)
      (w : World) :
  ONVIFSnapshot.rtsp_stream_url_loop env timeout parsed auth profile_token
    (service_path :: rest) w
  = match ONVIFSnapshot.media_url_of parsed service_path with
    | Ok media_url =>
        ONVIFSnapshot.rtsp_stream_url_loop env timeout parsed auth
          profile_token rest
          (add_events w
             [EvPost media_url (auth_handler_of auth)
                     (_create_get_stream_uri_message profile_token)
                     [("Content-Type", "application/soap+xml")] timeout])
    | Raise e => (Raise e, w)
    end.
Proof.
  simpl. unfold bind at 1. unfold lift at 1.
  destruct (ONVIFSnapshot.media_url_of parsed service_path)
    as [media_url|e]; [|reflexivity].
  unfold bind at 1. now rewrite rtsp_stream_url_at_none.
Qed.

Lemma rtsp_stream_url_loop_none (env : Env) (timeout : Z)
      (parsed : UrlParse.ParseResult) (auth : Credential)
      (profile_token : string) (service_paths : list string) :
  forall w, exists es,
    forallb is_post es = true
    /\ (List.length es <= List.length service_paths)%nat
    /\ (ONVIFSnapshot.rtsp_stream_url_loop env timeout parsed auth
          profile_token service_paths w = (Ok None, add_events w es)
        \/ exists e,
             ONVIFSnapshot.rtsp_stream_url_loop env timeout parsed auth
               profile_token service_paths w = (Raise e, add_events w es)).
Proof.
  induction service_paths as [|sp rest IH]; intros w.
  - exists []. rewrite add_events_nil.
    split; [reflexivity|]. split; [simpl; lia | now left].
  - rewrite rtsp_stream_url_loop_cons.
    destruct (ONVIFSnapshot.media_url_of parsed sp) as [media_url|e].
    + match goal with
      | |- context [add_events w [?ev]] =>
          destruct (IH (add_events w [ev])) as (es & Hes & Hlen & Hrun);
          exists (ev :: es)
      end.
      split; [exact Hes|]. split; [simpl; lia|].
      destruct Hrun as [Hrun | [e Hrun]]; rewrite add_events_app in Hrun;
        [left | right; exists e]; exact Hrun.
    + exists []. rewrite add_events_nil. split; [reflexivity|].
      split; [simpl; lia|]. right. now exists e.
Qed.

(** The run of [_get_rtsp_stream_url]: it ends with [None], after POSTs
    only, at most one for each media service path. *)
Lemma get_rtsp_stream_url_run
      (env : Env) (timeout : Z) (device : ONVIFDevice) (auth : Credential)
      (profile_token : string) (w : World) :
  exists es,
    ONVIFSnapshot._get_rtsp_stream_url env timeout device auth profile_token w
    = (Ok None, add_events w es)
    /\ forallb is_post es = true
    /\ (List.length es
        <= List.length (media_services (get_context (dev_name device))))%nat.
Proof.
  unfold ONVIFSnapshot._get_rtsp_stream_url, try_except, any_Exception.
  unfold bind at 1. unfold lift at 1, list_first.
  destruct (urls device) as [|url0 rest].
  - exists []. rewrite add_events_nil. repeat split. simpl. lia.
  - unfold bind at 1. unfold lift at 1.
    destruct (urlparse env url0) as [parsed|e].
    + destruct (rtsp_stream_url_loop_none env timeout parsed auth
                  profile_token
                  (media_services (get_context (dev_name device))) w)
        as (es & Hes & Hlen & [Hrun | [e Hrun]]); rewrite Hrun; exists es;
        repeat split; trivial.
    + exists []. rewrite add_events_nil. repeat split. simpl. lia.
Qed.

(** [_get_rtsp_stream_url] never finds a stream URL: for every device,
    credential and token, and whatever the camera answers, the result is
    [None]; no exception is raised, nothing is logged as an error, only
    POSTs are sent, and at most one for each media service path of the
    matched profile. *)
Theorem get_rtsp_stream_url_always_None
        (env : Env) (timeout : Z) (device : ONVIFDevice) (auth : Credential)
        (profile_token : string) (w : World) :
  let run :=
    ONVIFSnapshot._get_rtsp_stream_url env timeout device auth
      profile_token w in
  fst run = Ok None
  /\ errors (snd run) = errors w
  /\ exists es,
       trace (snd run) = (trace w ++ es)%list
       /\ forallb is_post es = true
       /\ (List.length es
           <= List.length (media_services (get_context (dev_name device))))%nat.
Proof.
  destruct (get_rtsp_stream_url_run env timeout device auth profile_token w)
    as (es & Hrun & Hes & Hlen).
  simpl. rewrite Hrun. simpl. repeat split. exists es. auto.
Qed.

(** A camera that answers GetStreamUri with the URI of its stream: the
    URI is not found. *)
Example get_rtsp_stream_url_demo :
  fst (ONVIFSnapshot._get_rtsp_stream_url demo_stream_env 5 demo_device
         demo_cred "Profile_1" empty_world) = Ok None
  /\ fromstring demo_stream_env "stream" = Ok demo_stream_uri_root
  /\ List.length
       (trace (snd (ONVIFSnapshot._get_rtsp_stream_url demo_stream_env 5
                      demo_device demo_cred "Profile_1" empty_world)))
     = 2%nat.
Proof. vm_compute. repeat split. Qed.

(** ** Frame capture and the entry point of snapshot.py *)

(** [_capture_rtsp_frame] never raises and runs ffmpeg at most once, and
    nothing else; it returns a path only when this path is the output
    path, ffmpeg has ended with code 0 and the file exists afterwards;
    when the URL is not parsed it returns [None] without running
    ffmpeg. *)
Theorem capture_rtsp_frame_outcome
        (env : Env) (rtsp_url : string) (auth : Credential)
        (output_path : string) (w : World) :
  exists r es,
    ONVIFSnapshot._capture_rtsp_frame env rtsp_url auth output_path w
    = (Ok r, add_events w es)
    /\ (es = [] \/ exists cmd, es = [EvRun cmd])
    /\ (forall p, r = Some p ->
          p = output_path
          /\ exists cmd,
               es = [EvRun cmd]
               /\ subprocess_run env (trace w) cmd = Ok 0%Z
               /\ os_path_exists env (trace w ++ [EvRun cmd]) output_path
                  = true)
    /\ (forall e, urlparse env rtsp_url = Raise e -> r = None /\ es = []).
Proof.
  unfold ONVIFSnapshot._capture_rtsp_frame, try_except, any_Exception.
  unfold bind at 1. unfold lift at 1.
  destruct (urlparse env rtsp_url) as [parsed|e0].
  - destruct auth as [[user password] auth_type].
    unfold bind, perform, ret. simpl trace. simpl errors.
    match goal with
    | |- context [subprocess_run env (trace w) ?c] => set (cmd := c)
    end.
    destruct (subprocess_run env (trace w) cmd) as [returncode|e1] eqn:Hrun.
    + destruct (Z.eqb_spec returncode 0) as [->|Hne]; simpl.
      * destruct (os_path_exists env (trace w ++ [EvRun cmd]) output_path)
          eqn:Hex.
        -- exists (Some output_path), [EvRun cmd].
           split; [reflexivity|]. split; [right; now exists cmd|].
           split; [|discriminate].
           intros p [= <-]. split; trivial. exists cmd. auto.
        -- exists None, [EvRun cmd].
           split; [reflexivity|]. split; [right; now exists cmd|].
           split; discriminate.
      * exists None, [EvRun cmd].
        split; [reflexivity|]. split; [right; now exists cmd|].
        split; discriminate.
    + exists None, [EvRun cmd].
      split; [reflexivity|]. split; [right; now exists cmd|].
      split; discriminate.
  - exists None, []. rewrite add_events_nil.
    split; [reflexivity|]. split; [now left|]. split; [discriminate|].
    auto.
Qed.

Lemma capture_rtsp_frame_witness :
  ONVIFSnapshot._capture_rtsp_frame demo_env
    "rtsp://192.168.1.64:554/Streaming/Channels/101" demo_cred
    "snapshots/frame.jpg" empty_world
  = (Ok (Some "snapshots/frame.jpg"),
     add_events empty_world
       [EvRun [ "ffmpeg"; "-y"; "-rtsp_transport"; "tcp"; "-i";
                "rtsp://admin:pw@192.168.1.64:554/Streaming/Channels/101";
                "-frames:v"; "1"; "-q:v"; "2"; "-f"; "image2";
                "snapshots/frame.jpg" ]]).
Proof.
  destruct (capture_rtsp_frame_outcome demo_env
              "rtsp://192.168.1.64:554/Streaming/Channels/101" demo_cred
              "snapshots/frame.jpg" empty_world)
    as (r & es & Hrun & _ & Hsome & _).
  assert (E : (Ok r, add_events empty_world es)
              = ONVIFSnapshot._capture_rtsp_frame demo_env
                  "rtsp://192.168.1.64:554/Streaming/Channels/101" demo_cred
                  "snapshots/frame.jpg" empty_world)
    by (symmetry; exact Hrun).
  vm_compute in E. injection E as -> ->.
  destruct (Hsome _ eq_refl) as (_ & cmd & _ & _ & _).
  exact Hrun.
Defined.

(** The loop over the profiles of [capture_snapshot]: the stream URL of
    no profile is found, so that the loop goes through the profiles with
    POSTs only and ends without a result, unless a profile has no
    token. *)
Lemma capture_profiles_none (env : Env) (timeout : Z) (device : ONVIFDevice)
      (cred : Credential) (output_path : string)
      (profiles : list ProfileInfo) :
  forall w, exists es,
    forallb is_post es = true
    /\ (ONVIFSnapshot.capture_profiles env timeout device cred output_path
          profiles w = (Ok None, add_events w es)
        \/ exists e,
             ONVIFSnapshot.capture_profiles env timeout device cred
               output_path profiles w = (Raise e, add_events w es)).
Proof.
  induction profiles as [|profile rest IH]; intros w.
  - exists []. rewrite add_events_nil. split; [reflexivity | now left].
  - assert (Hcons :
      ONVIFSnapshot.capture_profiles env timeout device cred output_path
        (profile :: rest) w
      = match dict_item profile "token" with
        | Ok token =>
            ONVIFSnapshot.capture_profiles env timeout device cred
              output_path rest
              (snd (ONVIFSnapshot._get_rtsp_stream_url env timeout device
                      cred token w))
        | Raise e => (Raise e, w)
        end).
    { simpl. unfold bind at 1. unfold lift at 1.
      destruct (dict_item profile "token") as [token|e]; [|reflexivity].
      unfold bind at 1.
      destruct (get_rtsp_stream_url_run env timeout device cred
                  token w) as (es & Hrun & _).
      rewrite Hrun. reflexivity. }
    rewrite Hcons. destruct (dict_item profile "token") as [token|e].
    + destruct (get_rtsp_stream_url_run env timeout device cred
                  token w) as (es1 & Hrun & Hes1 & _).
      rewrite Hrun. simpl snd.
      destruct (IH (add_events w es1)) as (es2 & Hes2 & Hrest).
      exists (es1 ++ es2)%list. rewrite forallb_app, Hes1, Hes2.
      split; [reflexivity|].
      destruct Hrest as [H | [e H]]; rewrite add_events_app in H;
        [left | right; exists e]; exact H.
    + exists []. rewrite add_events_nil. split; [reflexivity|].
      right. now exists e.
Qed.

Lemma run_sat_of_run {A} (P : Event -> bool) (Q : PyResult A -> Prop)
      (m : M A) :
  (forall w, exists r es,
      m w = (r, add_events w es) /\ forallb P es = true /\ Q r) ->
  run_sat P Q m.
Proof.
  intros H w. destruct (H w) as (r & es & Hrun & HP & HQ).
  exists es. rewrite Hrun. auto.
Qed.

Lemma legacy_probe_not_run (env : Env) (timeout : Z) (url : string)
      (auth : Credential) (hdrs : list (string * string)) :
  run_sat not_run any_outcome
          (ONVIFSnapshot._try_snapshot_url env timeout url auth hdrs).
Proof.
  apply run_sat_of_run. intros w.
  rewrite legacy_try_snapshot_url_spec. eexists _, _.
  split; [reflexivity|]. split; [|exact I].
  now destruct (legacy_closes env _).
Qed.

Lemma try_paths_not_run (env : Env) (timeout : Z)
      (parsed : UrlParse.ParseResult) (auth : Credential) (port : option Z)
      (paths : list string) :
  run_sat not_run any_outcome
          (ONVIFSnapshot.try_paths env timeout parsed auth port paths).
Proof.
  induction paths as [|path rest IH]; simpl.
  - now apply run_sat_ret.
  - eapply run_sat_bind; [apply legacy_probe_not_run | | intros; exact I].
    intros [|] _; [now apply run_sat_ret | exact IH].
Qed.

Lemma try_ports_not_run (env : Env) (timeout : Z)
      (parsed : UrlParse.ParseResult) (auth : Credential)
      (ports : list (option Z)) (paths : list string) :
  run_sat not_run any_outcome
          (ONVIFSnapshot.try_ports env timeout parsed auth ports paths).
Proof.
  induction ports as [|port rest IH]; simpl.
  - now apply run_sat_ret.
  - eapply run_sat_bind; [apply try_paths_not_run | | intros; exact I].
    intros [url|] _; [now apply run_sat_ret | exact IH].
Qed.

Lemma try_device_urls_not_run (env : Env) (timeout : Z)
      (device : ONVIFDevice) (context : DeviceContext) (auth : Credential) :
  run_sat not_run any_outcome
          (ONVIFSnapshot._try_device_urls env timeout device context auth).
Proof.
  unfold ONVIFSnapshot._try_device_urls.
  eapply run_sat_bind with (Q := any_outcome);
    [now apply run_sat_lift | | intros; exact I].
  intros url0 _.
  eapply run_sat_bind with (Q := any_outcome);
    [now apply run_sat_lift | | intros; exact I].
  intros parsed _.
  eapply run_sat_bind with (Q := any_outcome);
    [now apply run_sat_lift | | intros; exact I].
  intros device_port _. apply try_ports_not_run.
Qed.

Lemma save_from_url_not_run (env : Env) (timeout : Z) (snapshot_url : string)
      (cred : Credential) (output_path : string) :
  run_sat not_run any_outcome
          (ONVIFSnapshot.save_from_url env timeout snapshot_url cred
             output_path).
Proof.
  unfold ONVIFSnapshot.save_from_url, ONVIFSnapshot.get.
  eapply run_sat_bind with (Q := any_outcome);
    [now apply run_sat_perform | | intros; exact I].
  intros response _.
  destruct (_ && _); [|now apply run_sat_ret].
  eapply run_sat_bind with (Q := any_outcome);
    [now apply run_sat_lift | | intros; exact I].
  intros data _.
  eapply run_sat_bind with (Q := any_outcome);
    [now apply run_sat_perform | | intros; exact I].
  intros _ _. now apply run_sat_ret.
Qed.

Lemma get_media_profiles_not_run (env : Env) (timeout : Z)
      (device : ONVIFDevice) (auth : Credential) :
  run_sat not_run any_outcome
          (ONVIFSnapshot._get_media_profiles env timeout device auth).
Proof.
  assert (Hloop : forall parsed sps,
             run_sat not_run any_outcome
               (ONVIFSnapshot.media_profiles_loop env timeout parsed auth
                  sps)).
  { intros parsed sps. induction sps as [|sp rest IH]; simpl.
    - now apply run_sat_ret.
    - eapply run_sat_bind with (Q := any_outcome);
        [now apply run_sat_lift | | intros; exact I].
      intros media_url _.
      eapply run_sat_bind with (Q := any_outcome); [ | | intros; exact I].
      + apply run_sat_of_run. intros w. rewrite media_profiles_at_spec.
        eexists _, _. split; [reflexivity|]. split; [reflexivity | exact I].
      + intros [profiles|] _; [now apply run_sat_ret | exact IH]. }
  unfold ONVIFSnapshot._get_media_profiles.
  eapply run_sat_try_except with (Q := any_outcome);
    [ | intros; exact I | intros; exact I | ].
  - eapply run_sat_bind with (Q := any_outcome);
      [now apply run_sat_lift | | intros; exact I].
    intros url0 _.
    eapply run_sat_bind with (Q := any_outcome);
      [now apply run_sat_lift | | intros; exact I].
    intros parsed _. apply Hloop.
  - intros e _ _.
    eapply run_sat_bind with (Q := any_outcome);
      [now apply run_sat_Logger_error | | intros; exact I].
    intros _ _. now apply run_sat_ret.
Qed.

Lemma capture_profiles_not_run (env : Env) (timeout : Z)
      (device : ONVIFDevice) (cred : Credential) (output_path : string)
      (profiles : list ProfileInfo) :
  run_sat not_run (fun r => forall p, r <> Ok (Some p))
          (ONVIFSnapshot.capture_profiles env timeout device cred output_path
             profiles).
Proof.
  apply run_sat_of_run. intros w.
  destruct (capture_profiles_none env timeout device cred output_path
              profiles w) as (es & Hes & [Hrun | [e Hrun]]);
    rewrite Hrun; eexists _, es; (split; [reflexivity|]);
    (split; [|intros p; discriminate]);
    rewrite forallb_forall in *; intros ev Hev;
    specialize (Hes ev Hev); now destruct ev.
Qed.

(** [capture_snapshot] never runs ffmpeg: whatever the device, the
    credentials and the answers of the camera are, no event of its run
    is a run of a process.  The capture of a frame from the stream is
    never reached, since no stream URL is ever found. *)
Theorem capture_snapshot_never_runs_ffmpeg
        (env : Env) (timeout : Z) (device : ONVIFDevice)
        (output_dir : string) (w : World) :
  exists es,
    trace (snd (ONVIFSnapshot.capture_snapshot env timeout device
                  output_dir w))
    = (trace w ++ es)%list
    /\ forall cmd, ~ In (EvRun cmd) es.
Proof.
  assert (H : run_sat not_run any_outcome
                (ONVIFSnapshot.capture_snapshot env timeout device
                   output_dir)).
  { unfold ONVIFSnapshot.capture_snapshot.
    destruct (valid_credentials device) as [|cred rest].
    - eapply run_sat_bind with (Q := any_outcome);
        [now apply run_sat_Logger_error | | intros; exact I].
      intros _ _. now apply run_sat_ret.
    - eapply run_sat_bind with (Q := any_outcome);
        [now apply run_sat_perform | | intros; exact I].
      intros _ _.
      eapply run_sat_bind with (Q := any_outcome);
        [now apply run_sat_read | | intros; exact I].
      intros timestamp _.
      eapply run_sat_try_except with (Q := any_outcome);
        [ | intros; exact I | intros; exact I | ].
      + eapply run_sat_bind with (Q := any_outcome);
          [apply try_device_urls_not_run | | intros; exact I].
        intros snapshot_url _.
        eapply run_sat_bind with (Q := any_outcome); [ | | intros; exact I].
        * destruct snapshot_url as [u|]; [|now apply run_sat_ret].
          destruct (PyStr.truthy u); [|now apply run_sat_ret].
          apply save_from_url_not_run.
        * intros [p|] _; [now apply run_sat_ret|].
          eapply run_sat_bind with (Q := any_outcome);
            [apply get_media_profiles_not_run | | intros; exact I].
          intros profiles _.
          eapply run_sat_bind with (Q := any_outcome); [ | | intros; exact I].
          -- eapply run_sat_weaken;
               [apply capture_profiles_not_run | auto | intros; exact I].
          -- intros [r|] _; [now apply run_sat_ret|].
             eapply run_sat_bind with (Q := any_outcome);
               [now apply run_sat_Logger_error | | intros; exact I].
             intros _ _. now apply run_sat_ret.
      + intros e _ _.
        eapply run_sat_bind with (Q := any_outcome);
          [now apply run_sat_Logger_error | | intros; exact I].
        intros _ _. now apply run_sat_ret. }
  destruct (H w) as (es & Ht & Hes & _).
  exists es. split; [exact Ht|].
  intros cmd Hin. rewrite forallb_forall in Hes.
  specialize (Hes _ Hin). discriminate.
Qed.

(** The first method returns a path only after the image has been
    written to it. *)
Lemma save_from_url_written (env : Env) (timeout : Z) (snapshot_url : string)
      (cred : Credential) (output_path : string) (w w' : World)
      (p : string) :
  ONVIFSnapshot.save_from_url env timeout snapshot_url cred output_path w
  = (Ok (Some p), w') ->
  p = output_path
  /\ errors w' = errors w
  /\ exists t data,
       trace w' = (t ++ [EvWriteFile output_path data])%list
       /\ write_file env t output_path data = Ok tt.
Proof.
  unfold ONVIFSnapshot.save_from_url, ONVIFSnapshot.get, bind, perform,
    lift, ret.
  simpl trace. simpl errors.
  destruct (requests_get env (trace w) snapshot_url (auth_handler_of cred)
              [("Accept", "image/jpeg,image/*")]) as [response|e];
    [|discriminate].
  destruct (_ && _); [|discriminate].
  destruct (content response) as [data|e]; [|discriminate].
  destruct (write_file env _ output_path data) as [[]|e] eqn:Hw;
    [|discriminate].
  intros [= <- <-]. simpl. repeat split.
  eexists _, data. split; [reflexivity | exact Hw].
Qed.

(** [capture_snapshot] returns a path only right after it has written an
    image to this path, with success: the last event of the run is the
    writing of the file that is returned.  In particular a path is never
    returned for a frame of the stream. *)
Theorem capture_snapshot_success_means_written
        (env : Env) (timeout : Z) (device : ONVIFDevice)
        (output_dir : string) (w w' : World) (p : string) :
  ONVIFSnapshot.capture_snapshot env timeout device output_dir w
  = (Ok (Some p), w') ->
  exists t data,
    trace w' = (t ++ [EvWriteFile p data])%list
    /\ write_file env t p data = Ok tt.
Proof.
  unfold ONVIFSnapshot.capture_snapshot.
  destruct (valid_credentials device) as [|cred rest]; [discriminate|].
  unfold bind at 1. unfold perform at 1.
  destruct (os_makedirs env (trace w) output_dir) as [[]|e]; [|discriminate].
  unfold bind at 1.
  match goal with
  | |- try_except ?body _ _ ?w1 = _ -> _ =>
      unfold try_except; destruct (body w1) as [[r|e] w3] eqn:Hb
  end.
  - intros [= -> ->].
    unfold bind at 1 in Hb.
    destruct (ONVIFSnapshot._try_device_urls env timeout device
                (get_context (dev_name device)) cred _)
      as [[snapshot_url|e] w4]; [|discriminate].
    unfold bind at 1 in Hb.
    match type of Hb with
    | match ?saved w4 with _ => _ end = _ =>
        destruct (saved w4) as [[[q|]|e] w5] eqn:Hs
    end; [| |discriminate].
    + injection Hb as -> ->.
      destruct snapshot_url as [u|]; [|discriminate].
      destruct (PyStr.truthy u); [|discriminate].
      apply save_from_url_written in Hs.
      destruct Hs as (-> & He & t & data & Ht & Hw).
      now exists t, data.
    + exfalso. unfold bind at 1 in Hb.
      destruct (ONVIFSnapshot._get_media_profiles env timeout device cred w5)
        as [[profiles|e] w6]; [|discriminate].
      unfold bind at 1 in Hb.
      destruct (capture_profiles_none env timeout device cred
                  (os_path_join output_dir
                     ("snapshot_" ++ address device ++ "_"
                      ++ timestamp env (trace (mkWorld
                           (trace w ++ [EvMakedirs output_dir])
                           (errors w))) ++ ".jpg"))
                  profiles w6) as (es & _ & [Hc | [e Hc]]);
        rewrite Hc in Hb; discriminate.
  - unfold any_Exception, bind, Logger_error, ret. discriminate.
Qed.

Lemma capture_snapshot_success_witness :
  exists w' t data,
    ONVIFSnapshot.capture_snapshot demo_env 5 demo_device "snapshots"
      empty_world
    = (Ok (Some "snapshots/snapshot_192.168.1.64_20240101_120000.jpg"), w')
    /\ trace w'
       = (t ++ [EvWriteFile
                  "snapshots/snapshot_192.168.1.64_20240101_120000.jpg"
                  data])%list
    /\ write_file demo_env t
         "snapshots/snapshot_192.168.1.64_20240101_120000.jpg" data
       = Ok tt.
Proof.
  destruct (ONVIFSnapshot.capture_snapshot demo_env 5 demo_device "snapshots"
              empty_world) as [r w'] eqn:E.
  assert (Hr : r = Ok (Some
                 "snapshots/snapshot_192.168.1.64_20240101_120000.jpg")).
  { apply (f_equal fst) in E. vm_compute in E. now symmetry. }
  subst r.
  destruct (capture_snapshot_success_means_written demo_env 5 demo_device
              "snapshots" empty_world w' _ E) as (t & data & Ht & Hw).
  exists w', t, data. auto.
Defined.

(** With a credential, [capture_snapshot] raises exactly when the making
    of the output directory raises, and then with the same exception:
    this call is before the [try] block.  Every exception after it is
    turned into [None]. *)
Theorem capture_snapshot_raises_only_from_makedirs
        (env : Env) (timeout : Z) (device : ONVIFDevice)
        (output_dir : string) (w : World) :
  valid_credentials device <> [] ->
  (forall e,
      os_makedirs env (trace w) output_dir = Raise e ->
      ONVIFSnapshot.capture_snapshot env timeout device output_dir w
      = (Raise e, add_events w [EvMakedirs output_dir]))
  /\ (os_makedirs env (trace w) output_dir = Ok tt ->
      returns (fst (ONVIFSnapshot.capture_snapshot env timeout device
                      output_dir w))).
Proof.
  intros Hcred. unfold ONVIFSnapshot.capture_snapshot.
  destruct (valid_credentials device) as [|cred rest]; [contradiction|].
  split.
  - intros e He. unfold bind at 1. unfold perform at 1. now rewrite He.
  - intros Hok. unfold bind at 1. unfold perform at 1. rewrite Hok.
    unfold bind at 1.
    match goal with
    | |- returns (fst (try_except ?body _ _ ?w1)) =>
        unfold try_except; destruct (body w1) as [[r|e] w3]
    end.
    + now exists r.
    + exists None. reflexivity.
Qed.

Lemma capture_snapshot_raises_witness :
  let env :=
    {| requests_get := requests_get demo_env;
       requests_post := requests_post demo_env;
       clock := clock demo_env;
       timestamp := timestamp demo_env;
       os_makedirs := fun _ _ => Raise (mkExn OSError "Permission denied");
       write_file := write_file demo_env;
       subprocess_run := subprocess_run demo_env;
       os_path_exists := os_path_exists demo_env;
       fromstring := fromstring demo_env;
       py_int := py_int demo_env;
       urlparse := urlparse demo_env |} in
  ONVIFSnapshot.capture_snapshot env 5 demo_device "/snapshots" empty_world
  = (Raise (mkExn OSError "Permission denied"),
     add_events empty_world [EvMakedirs "/snapshots"])
  /\ returns (fst (ONVIFSnapshot.capture_snapshot demo_env 5 demo_device
                     "snapshots" empty_world)).
Proof.
  intros env. split.
  - apply (proj1 (capture_snapshot_raises_only_from_makedirs env 5
                    demo_device "/snapshots" empty_world
                    ltac:(discriminate))).
    reflexivity.
  - apply (proj2 (capture_snapshot_raises_only_from_makedirs demo_env 5
                    demo_device "snapshots" empty_world
                    ltac:(discriminate))).
    reflexivity.
Defined.

(** A device with a credential and no URL: the directory is made, the
    probing raises [IndexError] at [device.urls[0]], the handler of
    [capture_snapshot] logs it and returns [None]; the second method is
    not tried, and no request is sent. *)
Theorem capture_snapshot_without_url
        (env : Env) (timeout : Z) (device : ONVIFDevice)
        (output_dir : string) (w : World) :
  valid_credentials device <> [] ->
  urls device = [] ->
  os_makedirs env (trace w) output_dir = Ok tt ->
  ONVIFSnapshot.capture_snapshot env timeout device output_dir w
  = (Ok None,
     {| trace := (trace w ++ [EvMakedirs output_dir])%list;
        errors := (errors w
                   ++ ["Error capturing snapshot: list index out of range"])
                  %list |}).
Proof.
  intros Hcred Hurls Hok. unfold ONVIFSnapshot.capture_snapshot.
  destruct (valid_credentials device) as [|cred rest]; [contradiction|].
  unfold bind at 1. unfold perform at 1. rewrite Hok.
  unfold bind at 1. unfold try_except.
  unfold bind at 1. unfold ONVIFSnapshot._try_device_urls.
  unfold bind at 1. rewrite Hurls. reflexivity.
Qed.

Lemma capture_snapshot_without_url_witness :
  ONVIFSnapshot.capture_snapshot demo_env 5
    {| address := "192.168.1.64"; dev_name := Some "Hikvision-X";
       urls := []; valid_credentials := [demo_cred] |}
    "snapshots" empty_world
  = (Ok None,
     {| trace := [EvMakedirs "snapshots"];
        errors := ["Error capturing snapshot: list index out of range"] |}).
Proof.
  apply (capture_snapshot_without_url demo_env 5
           {| address := "192.168.1.64"; dev_name := Some "Hikvision-X";
              urls := []; valid_credentials := [demo_cred] |}
           "snapshots" empty_world);
    [discriminate | reflexivity | reflexivity].
Defined.

(** ** Probing by URL: verdict, errors and cost *)

(** A probe of snapshot.py returns without an exception, and it is a hit
    exactly when the GET is answered with status 200, a content type that
    starts with "image/" and a Content-Length that [int] reads as a
    number above 1000; 1000 itself is not enough. *)
Theorem legacy_probe_hit_iff
        (env : Env) (timeout : Z) (url : string) (auth : Credential)
        (hdrs : list (string * string)) (w : World) :
  returns (fst (ONVIFSnapshot._try_snapshot_url env timeout url auth hdrs w))
  /\ (fst (ONVIFSnapshot._try_snapshot_url env timeout url auth hdrs w)
      = Ok true
      <-> exists response n,
            requests_get env (trace w) url (auth_handler_of auth) hdrs
            = Ok response
            /\ status_code response = 200%Z
            /\ PyStr.startswith "image/"
                 (headers_get (headers response) "content-type" "") = true
            /\ py_int env
                 (headers_get (headers response) "content-length" "0")
               = Ok n
            /\ (1000 < n)%Z).
Proof.
  rewrite legacy_try_snapshot_url_spec. simpl fst.
  split; [now eexists|].
  unfold legacy_hit.
  destruct (requests_get env (trace w) url (auth_handler_of auth) hdrs)
    as [response|e].
  - destruct (Z.eqb_spec (status_code response) 200) as [Hs|Hs]; simpl.
    + destruct (py_int env
                  (headers_get (headers response) "content-length" "0"))
        as [n|e] eqn:Hn.
      * split.
        -- intros [= H]. apply andb_true_iff in H. destruct H as [Hct Hlt].
           exists response, n. repeat split; trivial. now apply Z.ltb_lt.
        -- intros (r & m & [= <-] & _ & Hct & Hm & Hlt).
           rewrite Hn in Hm. injection Hm as <-.
           apply Z.ltb_lt in Hlt. now rewrite Hct, Hlt.
      * split; [discriminate|].
        intros (r & m & [= <-] & _ & _ & Hm & _).
        rewrite Hn in Hm. discriminate.
    + split; [discriminate|].
      intros (r & m & [= <-] & Hs' & _). contradiction.
  - split; [discriminate|]. intros (r & m & H & _). discriminate.
Qed.

Lemma headers_get_absent (h : list (string * string)) (key default : string) :
  (forall k v, In (k, v) h -> PyStr.lower k <> PyStr.lower key) ->
  headers_get h key default = default.
Proof.
  induction h as [|[k v] h IH]; simpl; intros H; trivial.
  destruct (String.eqb_spec (PyStr.lower k) (PyStr.lower key)) as [E|_].
  - exfalso. apply (H k v); auto.
  - apply IH. intros k' v' Hin. apply (H k' v'). auto.
Qed.

(** An answer without a Content-Length header is never a hit in
    snapshot.py, even with status 200 and an image content type: the
    missing length counts as 0 (where [int("0")] is 0). *)
Theorem legacy_probe_without_length_misses
        (env : Env) (timeout : Z) (url : string) (auth : Credential)
        (hdrs : list (string * string)) (w : World) (response : Response) :
  py_int env "0" = Ok 0%Z ->
  requests_get env (trace w) url (auth_handler_of auth) hdrs = Ok response ->
  (forall k v, In (k, v) (headers response)
               -> PyStr.lower k <> "content-length") ->
  fst (ONVIFSnapshot._try_snapshot_url env timeout url auth hdrs w)
  = Ok false.
Proof.
  intros Hint Hget Habs. rewrite legacy_try_snapshot_url_spec. simpl fst.
  rewrite Hget. unfold legacy_hit.
  rewrite (headers_get_absent (headers response) "content-length" "0")
    by exact Habs.
  rewrite Hint. simpl. now rewrite andb_false_r, andb_false_r.
Qed.

Lemma legacy_probe_without_length_witness :
  fst (ONVIFSnapshot._try_snapshot_url
         (simple_env
            (fun _ => Ok {| status_code := 200;
                            headers := [("Content-Type", "image/jpeg");
                                        ("Transfer-Encoding", "chunked")];
                            content := Ok jpeg_bytes;
                            text := "" |})
            demo_post demo_parse)
         5 "http://192.168.1.64:80/snapshot" demo_cred
         ONVIFSnapshot.probe_headers empty_world)
  = Ok false.
Proof.
  eapply legacy_probe_without_length_misses.
  - reflexivity.
  - reflexivity.
  - intros k v [[= <- <-] | [[= <- <-] | []]]; vm_compute; discriminate.
Defined.

Lemma try_device_urls_unfold
      (env : Env) (timeout : Z) (device : ONVIFDevice)
      (context : DeviceContext) (auth : Credential) (w : World) :
  ONVIFSnapshot._try_device_urls env timeout device context auth w
  = match urls device with
    | [] => (Raise (mkExn IndexError "list index out of range"), w)
    | url0 :: _ =>
        match urlparse env url0 with
        | Raise e => (Raise e, w)
        | Ok parsed =>
            match UrlParse.port parsed with
            | Raise e => (Raise e, w)
            | Ok device_port =>
                ONVIFSnapshot.try_ports env timeout parsed auth
                  (ONVIFSnapshot.probe_ports device_port context)
                  (get_all_paths context) w
            end
        end
    end.
Proof.
  unfold ONVIFSnapshot._try_device_urls.
  unfold bind at 1. unfold lift at 1, list_first.
  destruct (urls device) as [|url0 rest]; [reflexivity|].
  unfold bind at 1. unfold lift at 1.
  destruct (urlparse env url0) as [parsed|e0]; [|reflexivity].
  unfold bind at 1. unfold lift at 1.
  now destruct (UrlParse.port parsed).
Qed.

(** [_try_device_urls] raises exactly when the first URL of the device
    cannot be used: the device has no URL, the URL is not parsed or its
    port is not read.  It then has sent no request.  The loops over
    ports and paths never raise. *)
Theorem try_device_urls_raises_iff
        (env : Env) (timeout : Z) (device : ONVIFDevice)
        (context : DeviceContext) (auth : Credential) (w : World) :
  let run :=
    ONVIFSnapshot._try_device_urls env timeout device context auth w in
  (returns (fst run)
   <-> exists url0 parsed device_port,
         hd_error (urls device) = Some url0
         /\ urlparse env url0 = Ok parsed
         /\ UrlParse.port parsed = Ok device_port)
  /\ (forall e, fst run = Raise e -> snd run = w).
Proof.
  intros run. subst run. rewrite try_device_urls_unfold.
  destruct (urls device) as [|url0 rest]; simpl hd_error.
  - split; [|intros; reflexivity]. split.
    + intros [a H]. discriminate.
    + intros (u & p & q & H & _). discriminate.
  - destruct (urlparse env url0) as [parsed|e0] eqn:Hp.
    + destruct (UrlParse.port parsed) as [device_port|e1] eqn:Hq.
      * destruct (try_ports_run env timeout parsed auth
                    (ONVIFSnapshot.probe_ports device_port context)
                    (get_all_paths context) w) as (r & w' & Hrun & _).
        rewrite Hrun. simpl. split; [|intros e H; discriminate].
        split; [|now exists r]. intros _. now exists url0, parsed, device_port.
      * simpl. split; [|intros; reflexivity]. split.
        -- intros [a H]. discriminate.
        -- intros (u & p & q & [= <-] & Hp' & Hq').
           rewrite Hp in Hp'. injection Hp' as <-.
           rewrite Hq in Hq'. discriminate.
    + simpl. split; [|intros; reflexivity]. split.
      * intros [a H]. discriminate.
      * intros (u & p & q & [= <-] & Hp' & _).
        rewrite Hp in Hp'. discriminate.
Qed.

Lemma filter_length_le {A} (p : A -> bool) (l : list A) :
  (List.length (filter p l) <= List.length l)%nat.
Proof.
  induction l as [|a l IH]; simpl; [lia|].
  destruct (p a); simpl; lia.
Qed.

Lemma dedup_keep_first_length (l : list string) :
  (List.length (dedup_keep_first l) <= List.length l)%nat.
Proof.
  induction l as [|x l IH]; simpl; [lia|].
  pose proof (filter_length_le (fun y => negb (String.eqb y x))
                (dedup_keep_first l)).
  lia.
Qed.

Lemma get_all_paths_length (context : DeviceContext) :
  (List.length (get_all_paths context)
   <= List.length (paths context) + List.length (paths generic_context))%nat.
Proof.
  unfold get_all_paths. rewrite dict_fromkeys_dedup.
  match goal with
  | |- (List.length (dedup_keep_first ?l) <= _)%nat =>
      pose proof (dedup_keep_first_length l) as H
  end.
  destruct (negb _); [rewrite length_app in H|]; simpl in *; lia.
Qed.

Lemma candidates_length {A B C} (f : A -> B -> C) (ports : list A)
      (paths : list B) :
  List.length (flat_map (fun port => map (f port) paths) ports)
  = (List.length ports * List.length paths)%nat.
Proof.
  induction ports as [|port rest IH]; simpl; trivial.
  now rewrite length_app, length_map, IH.
Qed.

(** The cost of probing: [_try_device_urls] sends at most one GET for
    each pair of a port and a path, that is, at most (1 + the number of
    ports of the profile) times (the number of paths of the profile +
    the number of generic paths) requests. *)
Theorem try_device_urls_get_bound
        (env : Env) (timeout : Z) (device : ONVIFDevice)
        (context : DeviceContext) (auth : Credential) (w : World) :
  (List.length
     (get_urls (trace (snd (ONVIFSnapshot._try_device_urls env timeout device
                              context auth w))))
   <= List.length (get_urls (trace w))
      + (1 + List.length (ports context))
        * (List.length (paths context)
           + List.length (paths generic_context)))%nat.
Proof.
  rewrite try_device_urls_unfold.
  destruct (urls device) as [|url0 rest]; [simpl; lia|].
  destruct (urlparse env url0) as [parsed|e0]; [|simpl; lia].
  destruct (UrlParse.port parsed) as [device_port|e1]; [|simpl; lia].
  destruct (try_ports_run env timeout parsed auth
              (ONVIFSnapshot.probe_ports device_port context)
              (get_all_paths context) w) as (r & w' & Hrun & Hrel).
  rewrite Hrun. simpl snd.
  apply search_run_get_urls in Hrel.
  destruct Hrel as (tried & untried & Hc & Hg & _).
  rewrite Hg, length_app.
  apply (f_equal (@List.length string)) in Hc.
  rewrite candidates_length, length_app in Hc.
  unfold ONVIFSnapshot.probe_ports in Hc. simpl List.length in Hc.
  pose proof (filter_length_le
                (fun p => negb (port_eqb p device_port))
                (map Some (ports context))) as Hf.
  rewrite length_map in Hf.
  pose proof (get_all_paths_length context) as Hp.
  apply Nat.add_le_mono_l.
  transitivity (S (List.length
                     (filter (fun p => negb (port_eqb p device_port))
                             (map Some (ports context))))
                * List.length (get_all_paths context))%nat; [lia|].
  apply Nat.mul_le_mono; lia.
Qed.

(** ** Image signatures *)

Lemma bytes_startswith_iff (pre data : list Byte.byte) :
  bytes_startswith pre data = true <-> exists rest, data = (pre ++ rest)%list.
Proof.
  revert data. induction pre as [|a pre IH]; intros data; simpl.
  - split; [intros _; now exists data | reflexivity].
  - destruct data as [|b data].
    + split; [discriminate | intros [rest H]; discriminate].
    + rewrite andb_true_iff, IH. split.
      * intros [Hab [rest ->]]. apply Byte.byte_dec_bl in Hab. subst b.
        now exists rest.
      * intros [rest H]. injection H as -> ->.
        split; [apply Byte.byte_dec_lb; reflexivity | now exists rest].
Qed.

(** [_is_valid_image] accepts exactly the data that start with the three
    bytes FF D8 FF of JPEG or with the eight bytes of the PNG signature;
    data of fewer than three bytes are never accepted. *)
Theorem is_valid_image_iff (data : list Byte.byte) :
  (_is_valid_image data = true
   <-> (exists rest, data = (jpeg_header ++ rest)%list)
       \/ (exists rest, data = (png_header ++ rest)%list))
  /\ (_is_valid_image data = true -> (3 <= List.length data)%nat).
Proof.
  assert (H : _is_valid_image data = true
              <-> (exists rest, data = (jpeg_header ++ rest)%list)
                  \/ (exists rest, data = (png_header ++ rest)%list)).
  { unfold _is_valid_image.
    rewrite <- !bytes_startswith_iff.
    destruct (bytes_startswith jpeg_header data);
      destruct (bytes_startswith png_header data); intuition discriminate. }
  split; [exact H|].
  intros Hv. apply H in Hv.
  destruct Hv as [[rest ->] | [rest ->]]; rewrite length_app; simpl; lia.
Qed.

Lemma is_valid_image_witness :
  (3 <= List.length jpeg_bytes)%nat.
Proof.
  apply (proj2 (is_valid_image_iff jpeg_bytes)). reflexivity.
Defined.

(** ** The SOAP request of snapshot/base.py *)

(** [_create_soap_request] sends exactly one POST and never raises.  It
    returns a document exactly when the POST is answered with status 200
    and the text of the answer is parsed; a failed request, another
    status and a text that is not parsed all give [None]. *)
Theorem create_soap_request_outcome
        (env : Env) (timeout : Z) (url soap_message : string)
        (auth : Credential) (w : World) :
  exists r,
    _create_soap_request env timeout url soap_message auth w
    = (Ok r,
       add_events w
         [EvPost url (auth_handler_of auth) soap_message
                 [("Content-Type", "application/soap+xml")] timeout])
    /\ forall root,
         r = Some root
         <-> exists response,
               requests_post env (trace w) url (auth_handler_of auth)
                             soap_message = Ok response
               /\ status_code response = 200%Z
               /\ fromstring env (text response) = Ok root.
Proof.
  unfold _create_soap_request, try_except, bind, session_post, perform,
    lift, ret, add_events, any_Exception.
  simpl trace. simpl errors.
  destruct (requests_post env (trace w) url (auth_handler_of auth)
              soap_message) as [response|e].
  - destruct (Z.eqb_spec (status_code response) 200) as [Hs|Hs].
    + destruct (fromstring env (text response)) as [root|e] eqn:Hp.
      * exists (Some root). split; [reflexivity|]. intros root'. split.
        -- intros [= <-]. now exists response.
        -- intros (r' & [= <-] & _ & Hp'). rewrite Hp in Hp'.
           now injection Hp' as <-.
      * exists None. split; [reflexivity|]. intros root'. split.
        -- discriminate.
        -- intros (r' & [= <-] & _ & Hp'). rewrite Hp in Hp'. discriminate.
    + exists None. split; [reflexivity|]. intros root'. split.
      * discriminate.
      * intros (r' & [= <-] & Hs' & _). contradiction.
  - exists None. split; [reflexivity|]. intros root'. split.
    + discriminate.
    + intros (r' & H & _). discriminate.
Qed.

(** ** The prober of snapshot/base.py as it is *)

(** [ONVIFSnapshotBase._try_snapshot_url] never sends a request and never
    returns an image: with at least one attempt to make it raises
    [AttributeError] at [time.time()] before the first request, and with
    none it returns [None]; in both cases the world is left as it
    was. *)
Theorem base_try_snapshot_url_sends_nothing
        (env : Env) (timeout max_retries : Z) (url : string)
        (auth : Credential) (hdrs : list (string * string)) (w : World) :
  let run :=
    ONVIFSnapshotBase._try_snapshot_url env timeout max_retries url auth
      hdrs w in
  snd run = w
  /\ (forall data, fst run <> Ok (Some data))
  /\ ((0 < max_retries)%Z -> fst run = Raise no_attribute_time)
  /\ ((max_retries <= 0)%Z -> fst run = Ok None).
Proof.
  intros run. subst run.
  destruct (Z.lt_ge_cases 0 max_retries) as [Hpos|Hle].
  - rewrite base_try_snapshot_url_raises by exact Hpos. simpl.
    repeat split; try discriminate. lia.
  - rewrite base_try_snapshot_url_no_retries by exact Hle. simpl.
    repeat split; try discriminate. lia.
Qed.

Lemma base_try_snapshot_url_sends_nothing_witness :
  fst (ONVIFSnapshotBase._try_snapshot_url
         (simple_env (fun _ => Ok jpeg_response) demo_post demo_parse)
         5 3 "http://192.168.1.64:80/snapshot" demo_cred
         ONVIFSnapshot.probe_headers empty_world)
  = Raise no_attribute_time
  /\ fst (ONVIFSnapshotBase._try_snapshot_url
            (simple_env (fun _ => Ok jpeg_response) demo_post demo_parse)
            5 0 "http://192.168.1.64:80/snapshot" demo_cred
            ONVIFSnapshot.probe_headers empty_world)
     = Ok None.
Proof.
  split.
  - apply (base_try_snapshot_url_sends_nothing
             (simple_env (fun _ => Ok jpeg_response) demo_post demo_parse)
             5 3 "http://192.168.1.64:80/snapshot" demo_cred
             ONVIFSnapshot.probe_headers empty_world).
    reflexivity.
  - apply (base_try_snapshot_url_sends_nothing
             (simple_env (fun _ => Ok jpeg_response) demo_post demo_parse)
             5 0 "http://192.168.1.64:80/snapshot" demo_cred
             ONVIFSnapshot.probe_headers empty_world).
    discriminate.
Defined.

(** ** Stream URLs of snapshot/profile.py *)

(** [extract_uri_from_response] never extracts a URI: the lookup of the
    [Uri] element raises for every document, the exception is swallowed
    and [None] is returned, also for a document that holds a URI. *)
Theorem extract_uri_from_response_always_None (soap_response : ET.Element) :
  MediaProfileHandler.extract_uri_from_response soap_response = None
  /\ MediaProfileHandler.extract_uri_from_response demo_stream_uri_root
     = None
  /\ In (Some "rtsp://192.168.1.64:554/Streaming/Channels/101")
        (map ET.text (ET.iter demo_stream_uri_root)).
Proof.
  split; [reflexivity|]. split; [reflexivity|].
  simpl. tauto.
Qed.

(** The scheme that the model of [urlparse] finds in a URL that starts
    with "rtsp://". *)
Lemma urlparse_rtsp_scheme (rest : string) (parsed : UrlParse.ParseResult) :
  UrlParse.urlparse ("rtsp://" ++ rest) = Ok parsed ->
  UrlParse.scheme parsed = "rtsp".
Proof.
  unfold UrlParse.urlparse, UrlParse.urlsplit. simpl.
  destruct (PyStr.char_in "[" _ || PyStr.char_in "]" _); [discriminate|].
  destruct (UrlParse.partition "#" _) as [[url2 b2] fragment].
  destruct (UrlParse.partition "?" url2) as [[url3 b3] query].
  cbn.
  destruct (PyStr.char_in ";" url3);
    [destruct (UrlParse._splitparams url3)|];
    intros [= <-]; reflexivity.
Qed.

(** Every URL returned by [normalize_rtsp_url] starts with "rtsp://"
    (with [urlparse] as modelled). *)
Theorem normalize_rtsp_url_scheme (url device_host r : string) :
  MediaProfileHandler.normalize_rtsp_url UrlParse.urlparse url device_host
  = Ok r ->
  PyStr.startswith "rtsp://" r = true.
Proof.
  unfold MediaProfileHandler.normalize_rtsp_url.
  destruct (PyStr.startswith "rtsp://" url) eqn:Hs; simpl negb; cbv iota.
  - pose proof Hs as Hs'. apply startswith_iff in Hs'.
    destruct Hs' as [rest ->].
    destruct (UrlParse.urlparse ("rtsp://" ++ rest)) as [parsed|e] eqn:Hp;
      [|discriminate].
    apply urlparse_rtsp_scheme in Hp. simpl pbind.
    destruct (UrlParse.port parsed) as [port|e]; [|discriminate].
    simpl pbind.
    destruct (MediaProfileHandler.port_missing port).
    + intros [= <-]. rewrite Hp. reflexivity.
    + intros [= <-]. exact Hs.
  - intros [= <-]. reflexivity.
Qed.

Lemma normalize_rtsp_url_scheme_witness :
  PyStr.startswith "rtsp://" "rtsp://cam1:554/stream1" = true.
Proof.
  apply (normalize_rtsp_url_scheme "rtsp://CAM1/stream1?x=1" "other").
  reflexivity.
Defined.

(** ** The matcher of device_contexts.py *)

Lemma lower_app (a b : string) :
  PyStr.lower (a ++ b) = PyStr.lower a ++ PyStr.lower b.
Proof. induction a as [|c a IH]; simpl; [reflexivity | now rewrite IH]. Qed.

Lemma string_app_assoc (a b c : string) : (a ++ b) ++ c = a ++ b ++ c.
Proof. induction a as [|ch a IH]; simpl; [reflexivity | now rewrite IH]. Qed.

Lemma truthy_lower (n : string) :
  PyStr.truthy (PyStr.lower n) = PyStr.truthy n.
Proof. now destruct n. Qed.

(** Matching does not look at the case of the device name: two names
    that are equal once in lower case match the same profiles and get
    the same context. *)
Theorem get_context_case_insensitive (n1 n2 : string) :
  PyStr.lower n1 = PyStr.lower n2 ->
  get_context (Some n1) = get_context (Some n2)
  /\ forall c, matches c n1 = matches c n2.
Proof.
  intros H.
  assert (Hm : forall c, matches c n1 = matches c n2)
    by (intros c; unfold matches; now rewrite H).
  split; [|exact Hm].
  unfold get_context.
  rewrite <- (truthy_lower n1), <- (truthy_lower n2), H.
  replace (first_match (dict_values DEVICE_CONTEXTS) n1)
    with (first_match (dict_values DEVICE_CONTEXTS) n2); [reflexivity|].
  induction (dict_values DEVICE_CONTEXTS) as [|c cs IH]; simpl; trivial.
  now rewrite Hm, IH.
Qed.

Lemma get_context_case_insensitive_witness :
  get_context (Some "HIKVISION ds-2cd") = get_context (Some "hikvision DS-2CD").
Proof.
  apply (get_context_case_insensitive "HIKVISION ds-2cd" "hikvision DS-2CD").
  reflexivity.
Defined.

Lemma matches_embedded (c : DeviceContext) (n pre post : string) :
  matches c n = true -> matches c (pre ++ n ++ post) = true.
Proof.
  rewrite !matches_iff. intros (kw & Hin & a & b & Hab).
  exists kw. split; [exact Hin|].
  exists (PyStr.lower pre ++ a), (b ++ PyStr.lower post).
  rewrite !lower_app, Hab.
  now rewrite !string_app_assoc.
Qed.

(** A name that is recognised stays recognised inside a longer name:
    when [get_context] gives a vendor profile for a name, it gives a
    vendor profile (not the generic one) for every name that contains
    it. *)
Theorem get_context_recognised_when_embedded (n pre post : string) :
  get_context (Some n) <> generic_context ->
  get_context (Some (pre ++ n ++ post)) <> generic_context.
Proof.
  unfold get_context.
  destruct n as [|ch n']; [intros H; exfalso; apply H; reflexivity|].
  set (n := String ch n') in *.
  assert (Ht : PyStr.truthy (pre ++ n ++ post) = true).
  { destruct pre; reflexivity. }
  rewrite Ht. simpl PyStr.truthy. simpl negb. cbv iota.
  destruct (first_match (dict_values DEVICE_CONTEXTS) n) as [c|] eqn:E;
    [|intros H; now contradiction H].
  intros _.
  apply first_match_Some in E. destruct E as (before & after & E & Hm & _).
  destruct (first_match (dict_values DEVICE_CONTEXTS) (pre ++ n ++ post))
    as [c'|] eqn:E'.
  - apply first_match_Some in E'. destruct E' as (_ & _ & _ & Hm' & _).
    intros ->. now rewrite generic_matches_nothing in Hm'.
  - exfalso. rewrite first_match_None, Forall_forall in E'.
    assert (Hin : In c (dict_values DEVICE_CONTEXTS))
      by (rewrite E; apply in_or_app; right; now left).
    specialize (E' c Hin).
    now rewrite (matches_embedded c n pre post Hm) in E'.
Qed.

Lemma get_context_recognised_when_embedded_witness :
  get_context (Some "Shop front VIGI C540 (east)") <> generic_context.
Proof.
  apply (get_context_recognised_when_embedded "VIGI" "Shop front "
                                              " C540 (east)").
  vm_compute. discriminate.
Defined.

(** No vendor of the catalog is hidden by an earlier one: each keyword of
    a profile, given as a device name, selects this profile, and so does
    the name of the profile. *)
Theorem catalog_keywords_select_their_profile :
  Forall (fun c =>
            Forall (fun keyword => get_context (Some keyword) = c)
                   (keywords c)
            /\ get_context (Some (name c)) = c)
         (dict_values DEVICE_CONTEXTS).
Proof.
  repeat constructor.
Qed.

(** ** Capabilities (snapshot/capability.py) *)

(** The two-step lookup gives an element only when the lookup with the
    namespace prefix finds one that has children; in every other case
    the lookup by local name is evaluated, and raises. *)
Lemma find_or_local_cases (namespaces : list (string * string))
      (e : ET.Element) (prefix local : string) :
  CapabilityDetector.find_or_local namespaces e prefix local
  = match ET.find_prefixed e prefix local namespaces with
    | Ok (Some x) =>
        if ET.truthy x then Ok (Some x)
        else Raise (mkExn SyntaxError "invalid predicate")
    | Ok None => Raise (mkExn SyntaxError "invalid predicate")
    | Raise x => Raise x
    end.
Proof.
  unfold CapabilityDetector.find_or_local, pbind.
  now destruct (ET.find_prefixed e prefix local namespaces) as [[x|]|].
Qed.

(** [_extract_snapshot_capabilities] never reports a capability as
    missing: its result is always a beginning of the dict that has
    SupportsSnapshot, SupportsJPEG, SupportsH264 and SupportsImaging, all
    [True], in this order.  SupportsSnapshot is in the result exactly
    when the first Media element found with its prefix has children and
    the first SnapshotUri element found under it has children too; and
    without the prefix timg in the namespaces SupportsImaging is never
    in it. *)
Theorem extract_snapshot_capabilities_prefix
        (namespaces : list (string * string)) (soap_response : ET.Element) :
  let result :=
    CapabilityDetector._extract_snapshot_capabilities namespaces
      soap_response in
  (exists k,
      result = firstn k [("SupportsSnapshot", true); ("SupportsJPEG", true);
                         ("SupportsH264", true); ("SupportsImaging", true)]
      /\ (dict_getitem namespaces "timg" = None -> (k <= 3)%nat))
  /\ Forall (fun kv => snd kv = true) result
  /\ (In ("SupportsSnapshot", true) result
      <-> exists media snapshot,
            ET.find_prefixed soap_response "trt" "Media" namespaces
            = Ok (Some media)
            /\ ET.truthy media = true
            /\ ET.find_prefixed media "tt" "SnapshotUri" namespaces
               = Ok (Some snapshot)
            /\ ET.truthy snapshot = true).
Proof.
  intros result. subst result.
  unfold CapabilityDetector._extract_snapshot_capabilities,
    CapabilityDetector.media_capabilities.
  rewrite !find_or_local_cases.
  assert (Htimg : dict_getitem namespaces "timg" = None ->
                  ET.find_prefixed soap_response "timg" "Imaging" namespaces
                  = Raise (mkExn SyntaxError
                             ("prefix '" ++ "timg"
                              ++ "' not found in prefix map"))).
  { intros H. unfold ET.find_prefixed, ET.findall_prefixed. now rewrite H. }
  destruct (ET.find_prefixed soap_response "trt" "Media" namespaces)
    as [[media|]|e0] eqn:Hmedia;
    [destruct (ET.truthy media) eqn:Htm|..].
  2-4: (split; [exists 0%nat; split; [reflexivity | intros; lia]|];
        split; [constructor|];
        split; [intros [] |
                intros (m & sn & Hm & Ht & _);
                try discriminate; injection Hm as <-; congruence]).
  rewrite !find_or_local_cases.
  destruct (ET.find_prefixed media "tt" "SnapshotUri" namespaces)
    as [[snapshot|]|e1] eqn:Hsnap;
    [destruct (ET.truthy snapshot) eqn:Hts|..].
  2-4: (split; [exists 0%nat; split; [reflexivity | intros; lia]|];
        split; [constructor|];
        split; [intros [] |
                intros (m & sn & Hm & _ & Hs & Ht);
                injection Hm as <-; rewrite Hsnap in Hs;
                try discriminate; injection Hs as <-; congruence]).
  assert (Hiff : exists media0 snapshot0,
             Ok (Some media) = Ok (Some media0)
             /\ ET.truthy media0 = true
             /\ ET.find_prefixed media0 "tt" "SnapshotUri" namespaces
                = Ok (Some snapshot0)
             /\ ET.truthy snapshot0 = true)
    by (exists media, snapshot; auto).
  destruct (ET.find_prefixed media "tt" "JPEG" namespaces)
    as [[jpeg|]|e2]; [destruct (ET.truthy jpeg)|..].
  2-4: (split; [exists 1%nat; split; [reflexivity | intros; lia]|];
        split; [repeat constructor|];
        split; [intros _; exact Hiff | intros _; simpl; auto]).
  destruct (ET.find_prefixed media "tt" "H264" namespaces)
    as [[h264|]|e3]; [destruct (ET.truthy h264)|..].
  2-4: (split; [exists 2%nat; split; [reflexivity | intros; lia]|];
        split; [repeat constructor|];
        split; [intros _; exact Hiff | intros _; simpl; auto]).
  destruct (ET.find_prefixed soap_response "timg" "Imaging" namespaces)
    as [[imaging|]|e4] eqn:Himg; [destruct (ET.truthy imaging)|..].
  2-4: (split; [exists 3%nat; split; [reflexivity | intros; lia]|];
        split; [repeat constructor|];
        split; [intros _; exact Hiff | intros _; simpl; auto]).
  split; [exists 4%nat; split; [reflexivity|]|].
  - intros H. discriminate (Htimg H).
  - split; [repeat constructor|].
    split; [intros _; exact Hiff | intros _; simpl; auto].
Qed.

Lemma extract_snapshot_capabilities_witness :
  CapabilityDetector._extract_snapshot_capabilities snapshot_namespaces
    demo_capabilities_root
  = [("SupportsSnapshot", true)].
Proof.
  destruct (extract_snapshot_capabilities_prefix snapshot_namespaces
              demo_capabilities_root) as ((k & Hk & Hle) & _ & _).
  specialize (Hle eq_refl).
  rewrite Hk. clear Hle.
  assert (E : List.length
                (CapabilityDetector._extract_snapshot_capabilities
                   snapshot_namespaces demo_capabilities_root) = 1%nat)
    by reflexivity.
  rewrite Hk in E.
  destruct k as [|[|[|[|k]]]]; try discriminate E. reflexivity.
Defined.

(** Both endpoint methods always return the empty set: the lookup by
    local name raises before any endpoint is added, also the well-known
    paths, and the exception is swallowed. *)
Theorem capability_endpoints_always_empty
        (urlparse : string -> PyResult UrlParse.ParseResult)
        (device_url : string) (soap_response : ET.Element) :
  CapabilityDetector.get_snapshot_endpoints urlparse device_url soap_response
  = []
  /\ CapabilityDetector.get_stream_endpoints urlparse device_url
       soap_response = [].
Proof.
  unfold CapabilityDetector.get_snapshot_endpoints,
    CapabilityDetector.get_stream_endpoints.
  destruct (urlparse device_url) as [parsed|e]; [|split; reflexivity].
  split; [|reflexivity].
  now destruct (UrlParse.port parsed).
Qed.

(** ** The release script *)

Lemma unset_false_iff (getenv : Release.Getenv) (var : string) :
  Release.unset getenv var = false <-> env_set getenv var.
Proof.
  unfold Release.unset, env_set. destruct (getenv var) as [value|].
  - destruct value as [|c value]; simpl; split.
    + discriminate.
    + intros (v & Hv & Hne). inversion Hv. subst. now contradiction Hne.
    + intros _. eexists. split; [reflexivity | discriminate].
    + reflexivity.
  - split; [discriminate | intros (v & Hv & _); discriminate].
Qed.

Lemma unset_true_iff (getenv : Release.Getenv) (var : string) :
  Release.unset getenv var = true <-> ~ env_set getenv var.
Proof.
  rewrite <- unset_false_iff.
  destruct (Release.unset getenv var); split; congruence.
Qed.

(** [verify_environment] reports exactly the required variables that are
    unset or empty, and reports nothing exactly when both tokens are set
    to non-empty values. *)
Theorem verify_environment_reports_unset (getenv : Release.Getenv) :
  (forall var,
     In var (Release.verify_environment getenv)
     <-> In var Release.required_vars /\ ~ env_set getenv var)
  /\ (Release.verify_environment getenv = []
      <-> env_set getenv "GH_TOKEN" /\ env_set getenv "PYPI_TOKEN").
Proof.
  split.
  - intros var. unfold Release.verify_environment.
    rewrite filter_In, unset_true_iff. reflexivity.
  - rewrite <- !unset_false_iff.
    unfold Release.verify_environment, Release.required_vars. simpl.
    destruct (Release.unset getenv "GH_TOKEN"),
      (Release.unset getenv "PYPI_TOKEN");
      split; try discriminate; try (intros [? ?]; discriminate); auto.
Qed.

(** [find_dotenv] returns a file exactly when it is the [.env] of the
    nearest directory, from the working directory upwards and below the
    root, that has one. *)
Theorem find_dotenv_nearest (path_exists : Release.Path -> bool)
        (cwd f : Release.Path) :
  Release.find_dotenv path_exists cwd = Some f
  <-> nearest_dotenv path_exists cwd f.
Proof.
  unfold Release.find_dotenv, nearest_dotenv. split.
  - revert f. induction cwd as [|x p IH]; intros f H; [discriminate|].
    simpl in H.
    destruct (path_exists (Release.joinpath (x :: p) ".env")) eqn:E.
    + inversion H; subst. exists [], (x :: p).
      repeat split; try easy.
      intros i1 i2 Hi Hne. symmetry in Hi.
      apply app_eq_nil in Hi. now destruct Hi.
    + destruct (IH f H) as (inner & d & Hp & Hd & Hf & Hex & Hnear).
      exists (x :: inner), d. subst p.
      repeat split; trivial.
      intros [|a i1] i2 Hi Hne; simpl in Hi.
      * subst i2. exact E.
      * inversion Hi; subst. now apply (Hnear i1 i2).
  - intros (inner & d & Hcwd & Hd & Hf & Hex & Hnear). subst cwd.
    induction inner as [|a inner IH].
    + simpl. destruct d as [|x d]; [contradiction|].
      simpl. subst f. now rewrite Hex.
    + pose proof (Hnear [] (a :: inner) eq_refl ltac:(discriminate)) as E.
      cbn [app Release.find_dotenv_from] in E |- *. rewrite E.
      apply IH. intros i1 i2 Hi Hne.
      apply (Hnear (a :: i1) i2); [now subst inner | exact Hne].
Qed.

(** [find_dotenv] never looks into the root directory: its result does
    not depend on whether [/.env] exists. *)
Theorem find_dotenv_ignores_root (pe pe' : Release.Path -> bool)
        (cwd : Release.Path) :
  (forall p, p <> Release.joinpath [] ".env" -> pe p = pe' p) ->
  Release.find_dotenv pe cwd = Release.find_dotenv pe' cwd.
Proof.
  intros H. unfold Release.find_dotenv.
  induction cwd as [|x p IH]; [reflexivity|].
  simpl. rewrite <- (H (Release.joinpath (x :: p) ".env")) by discriminate.
  now rewrite IH.
Qed.

Lemma path_eqb_eq (p q : Release.Path) : path_eqb p q = true <-> p = q.
Proof.
  revert q. induction p as [|a p IH]; intros [|b q]; simpl;
    try (split; [discriminate | discriminate]); [easy|].
  rewrite andb_true_iff, String.eqb_eq, IH.
  split; [intros [-> ->]; reflexivity | intros E; inversion E; auto].
Qed.

Lemma find_dotenv_ignores_root_witness :
  Release.find_dotenv only_root_dotenv ["onvifscout"; "src"; "home"] = None.
Proof.
  rewrite (find_dotenv_ignores_root only_root_dotenv no_file).
  - reflexivity.
  - intros p Hp. unfold only_root_dotenv, no_file.
    destruct (path_eqb p [".env"]) eqn:E; [|reflexivity].
    apply path_eqb_eq in E. contradiction.
Defined.

Lemma outputs_run_nothing (cmd : list string) (l : list Release.Action) :
  Forall is_output l -> ~ In (Release.RunProcess cmd) l.
Proof.
  intros H Hin. rewrite Forall_forall in H. exact (H _ Hin).
Qed.

Lemma run_semantic_release_shape (h : Release.Host) (args : list string) :
  exists after,
    fst (Release.run_semantic_release h args)
    = ([Release.Stdout ("🚀 Running: semantic-release "
                        ++ String.concat " " args);
        Release.RunProcess ("semantic-release" :: args)] ++ after)%list
    /\ Forall is_output after
    /\ snd (Release.run_semantic_release h args)
       = match Release.run h ("semantic-release" :: args) with
         | Release.Completed _ _ => None
         | Release.CalledProcessError returncode _ _ => Some returncode
         | _ => Some 1%Z
         end.
Proof.
  unfold Release.run_semantic_release.
  destruct (Release.run h ("semantic-release" :: args))
    as [out err|rc out err| |msg]; simpl;
    try destruct (PyStr.truthy out); try destruct (PyStr.truthy err);
    eexists; (split; [reflexivity|]); (split; [|reflexivity]);
    repeat constructor.
Qed.

(** The shape of a run of [main]: either it stops before any process is
    started, with only output and at most the loading of the [.env], or
    every guard has passed and it starts [semantic-release] once. *)
Lemma main_cases (h : Release.Host) :
  (Forall (fun a => is_output a \/ exists f, a = Release.LoadDotenv f)
          (fst (Release.main h))
   /\ snd (Release.main h)
      = Some (if help_requested h then 0%Z else 1%Z))
  \/ exists script command rest env_file after,
       Release.argv h = script :: command :: rest
       /\ help_requested h = false
       /\ In command Release.valid_commands
       /\ Release.find_dotenv (Release.path_exists h) (Release.cwd h)
          = Some env_file
       /\ Release.verify_environment
            (Release.getenv_after_load h env_file) = []
       /\ fst (Release.main h)
          = ([Release.LoadDotenv env_file;
              Release.Stdout ("🚀 Running: semantic-release "
                              ++ String.concat " " (command :: rest));
              Release.RunProcess ("semantic-release" :: command :: rest)]
             ++ after)%list
       /\ Forall is_output after
       /\ snd (Release.main h)
          = match Release.run h ("semantic-release" :: command :: rest) with
            | Release.Completed _ _ => None
            | Release.CalledProcessError returncode _ _ => Some returncode
            | _ => Some 1%Z
            end.
Proof.
  unfold Release.main, help_requested.
  destruct (Release.argv h) as [|script [|command rest]].
  1-2: left; split; [repeat constructor; now left | reflexivity].
  destruct (mem_str command ["-h"; "--help"; "help"]) eqn:Hhelp.
  { left; split; [repeat constructor; now left | reflexivity]. }
  destruct (Release.find_dotenv (Release.path_exists h) (Release.cwd h))
    as [env_file|] eqn:Hfind.
  2: { left; split; [repeat constructor; now left | reflexivity]. }
  destruct (Release.verify_environment
              (Release.getenv_after_load h env_file))
    as [|var missing] eqn:Hmissing.
  2: { left; split; [|reflexivity]. cbn [fst].
       constructor; [right; now eexists|].
       constructor; [now left|].
       apply Forall_app. split; [|repeat constructor; now left].
       apply Forall_forall. intros a Ha. apply in_map_iff in Ha.
       destruct Ha as (v & <- & _). now left. }
  destruct (mem_str command Release.valid_commands) eqn:Hvalid; cbn [negb].
  2: { left; split; [|reflexivity]. cbn [fst].
       constructor; [right; now eexists|]. repeat constructor; now left. }
  right.
  destruct (run_semantic_release_shape h (command :: rest))
    as (after & Hfst & Hout & Hsnd).
  destruct (Release.run_semantic_release h (command :: rest))
    as [actions exit] eqn:Hrun.
  cbn [fst snd] in *. subst actions.
  exists script, command, rest, env_file, after.
  repeat split; trivial.
  now apply mem_str_iff.
Qed.

Lemma guarded_stop_runs_nothing (cmd : list string)
      (l : list Release.Action) :
  Forall (fun a => is_output a \/ exists f, a = Release.LoadDotenv f) l ->
  ~ In (Release.RunProcess cmd) l.
Proof.
  intros H Hin. rewrite Forall_forall in H.
  destruct (H _ Hin) as [Ho|(f & Hf)]; [exact Ho | discriminate].
Qed.

(** [main] starts a process only as [semantic-release] followed by the
    script's own arguments, only for one of the three release commands,
    and only after a [.env] file was found and loaded and both tokens are
    set; it is then the only process of the run. *)
Theorem main_runs_semantic_release_only_when_guarded
        (h : Release.Host) (cmd : list string) :
  In (Release.RunProcess cmd) (fst (Release.main h)) ->
  exists script command rest env_file after,
    Release.argv h = script :: command :: rest
    /\ cmd = "semantic-release" :: command :: rest
    /\ In command Release.valid_commands
    /\ Release.find_dotenv (Release.path_exists h) (Release.cwd h)
       = Some env_file
    /\ env_set (Release.getenv_after_load h env_file) "GH_TOKEN"
    /\ env_set (Release.getenv_after_load h env_file) "PYPI_TOKEN"
    /\ fst (Release.main h)
       = ([Release.LoadDotenv env_file;
           Release.Stdout ("🚀 Running: semantic-release "
                           ++ String.concat " " (command :: rest));
           Release.RunProcess cmd] ++ after)%list
    /\ Forall is_output after.
Proof.
  intros Hin.
  destruct (main_cases h) as [[Hstop _]|Hrun].
  { now apply guarded_stop_runs_nothing in Hin. }
  destruct Hrun as (script & command & rest & env_file & after & Hargv
                    & _ & Hvalid & Hfind & Hmissing & Hfst & Hout & _).
  assert (Hcmd : cmd = "semantic-release" :: command :: rest).
  { rewrite Hfst in Hin. simpl in Hin.
    destruct Hin as [Hin|[Hin|[Hin|Hin]]]; try discriminate.
    - now inversion Hin.
    - now apply outputs_run_nothing in Hin. }
  subst cmd.
  assert (Hset : env_set (Release.getenv_after_load h env_file) "GH_TOKEN"
                 /\ env_set (Release.getenv_after_load h env_file)
                      "PYPI_TOKEN").
  { rewrite <- !unset_false_iff.
    unfold Release.verify_environment, Release.required_vars in Hmissing.
    simpl in Hmissing.
    destruct (Release.unset (Release.getenv_after_load h env_file)
                "GH_TOKEN"),
      (Release.unset (Release.getenv_after_load h env_file) "PYPI_TOKEN");
      try discriminate. auto. }
  destruct Hset as [Hgh Hpypi].
  exists script, command, rest, env_file, after.
  repeat split; trivial.
Qed.

Lemma main_runs_semantic_release_witness :
  exists script command rest env_file after,
    Release.argv demo_release_host = script :: command :: rest
    /\ ["semantic-release"; "publish"] = "semantic-release" :: command :: rest
    /\ In command Release.valid_commands
    /\ Release.find_dotenv (Release.path_exists demo_release_host)
         (Release.cwd demo_release_host) = Some env_file
    /\ env_set (Release.getenv_after_load demo_release_host env_file)
         "GH_TOKEN"
    /\ env_set (Release.getenv_after_load demo_release_host env_file)
         "PYPI_TOKEN"
    /\ fst (Release.main demo_release_host)
       = ([Release.LoadDotenv env_file;
           Release.Stdout ("🚀 Running: semantic-release "
                           ++ String.concat " " (command :: rest));
           Release.RunProcess ["semantic-release"; "publish"]] ++ after)%list
    /\ Forall is_output after.
Proof.
  apply (main_runs_semantic_release_only_when_guarded demo_release_host).
  simpl. auto.
Defined.

(** [main] returns without [sys.exit] exactly when [semantic-release] was
    started and completed; when the process fails, [main] exits with the
    process's return code; when no process is started, it exits with 0 if
    help was requested and with 1 otherwise. *)
Theorem main_exit_status (h : Release.Host) :
  (snd (Release.main h) = None
   <-> exists cmd out err,
         In (Release.RunProcess cmd) (fst (Release.main h))
         /\ Release.run h cmd = Release.Completed out err)
  /\ (forall cmd returncode out err,
        In (Release.RunProcess cmd) (fst (Release.main h)) ->
        Release.run h cmd = Release.CalledProcessError returncode out err ->
        snd (Release.main h) = Some returncode)
  /\ ((forall cmd, ~ In (Release.RunProcess cmd) (fst (Release.main h))) ->
      snd (Release.main h) = Some (if help_requested h then 0%Z else 1%Z)).
Proof.
  destruct (main_cases h) as [[Hstop Hexit]|Hrun].
  - split; [split|split].
    + rewrite Hexit. discriminate.
    + intros (cmd & _ & _ & Hin & _).
      now apply guarded_stop_runs_nothing in Hin.
    + intros cmd rc out err Hin.
      now apply guarded_stop_runs_nothing in Hin.
    + intros _. exact Hexit.
  - destruct Hrun as (script & command & rest & env_file & after & _
                      & _ & _ & _ & _ & Hfst & Hout & Hsnd).
    assert (Hcmd : forall cmd,
               In (Release.RunProcess cmd) (fst (Release.main h)) ->
               cmd = "semantic-release" :: command :: rest).
    { intros cmd Hin. rewrite Hfst in Hin. simpl in Hin.
      destruct Hin as [Hin|[Hin|[Hin|Hin]]]; try discriminate.
      - now inversion Hin.
      - now apply outputs_run_nothing in Hin. }
    assert (Hin : In (Release.RunProcess
                        ("semantic-release" :: command :: rest))
                     (fst (Release.main h))).
    { rewrite Hfst. simpl. auto. }
    split; [split|split].
    + intros Hnone. rewrite Hnone in Hsnd.
      destruct (Release.run h ("semantic-release" :: command :: rest))
        as [out err| | |] eqn:E; try discriminate.
      exists ("semantic-release" :: command :: rest), out, err. auto.
    + intros (cmd & out & err & Hin' & Hc).
      rewrite (Hcmd _ Hin') in Hc. now rewrite Hsnd, Hc.
    + intros cmd rc out err Hin' Hc.
      rewrite (Hcmd _ Hin') in Hc. now rewrite Hsnd, Hc.
    + intros Hno. now apply Hno in Hin.
Qed.

(** ** The device store *)

Lemma dict_getitem_del_same {V : Type} (d : list (string * V)) (k : string) :
  dict_getitem (dict_del d k) k = None.
Proof.
  induction d as [|[k' v] d IH]; simpl; [reflexivity|].
  destruct (String.eqb k' k) eqn:E; simpl; [exact IH|].
  now rewrite E.
Qed.

Lemma dict_getitem_del_other {V : Type} (d : list (string * V))
      (k other : string) :
  other <> k -> dict_getitem (dict_del d k) other = dict_getitem d other.
Proof.
  intros Hne. induction d as [|[k' v] d IH]; simpl; [reflexivity|].
  destruct (String.eqb k' k) eqn:E; simpl.
  - apply String.eqb_eq in E. subst k'.
    destruct (String.eqb k other) eqn:E2; [|exact IH].
    apply String.eqb_eq in E2. congruence.
  - now rewrite IH.
Qed.

Lemma dict_getitem_set_same {V : Type} (d : list (string * V)) (k : string)
      (v : V) :
  dict_getitem (dict_set d k v) k = Some v.
Proof.
  induction d as [|[k' v'] d IH]; simpl.
  - now rewrite String.eqb_refl.
  - destruct (String.eqb k' k) eqn:E; simpl; now rewrite E.
Qed.

Lemma dict_getitem_set_other {V : Type} (d : list (string * V))
      (k other : string) (v : V) :
  other <> k -> dict_getitem (dict_set d k v) other = dict_getitem d other.
Proof.
  intros Hne. induction d as [|[k' v'] d IH]; simpl.
  - destruct (String.eqb k other) eqn:E; [|reflexivity].
    apply String.eqb_eq in E. congruence.
  - destruct (String.eqb k' k) eqn:E; simpl.
    + apply String.eqb_eq in E. subst k'.
      destruct (String.eqb k other) eqn:E2; [|reflexivity].
      apply String.eqb_eq in E2. congruence.
    + now rewrite IH.
Qed.

Lemma dict_set_keys {V : Type} (d : list (string * V)) (k : string) (v : V) :
  dict_getitem d k <> None -> map fst (dict_set d k v) = map fst d.
Proof.
  induction d as [|[k' v'] d IH]; simpl; [congruence|].
  destruct (String.eqb k' k) eqn:E; simpl; [reflexivity|].
  intros H. now rewrite IH.
Qed.

Lemma dict_set_same {V : Type} (d : list (string * V)) (k : string) (v : V) :
  dict_getitem d k = Some v -> dict_set d k v = d.
Proof.
  induction d as [|[k' v'] d IH]; simpl; [discriminate|].
  destruct (String.eqb k' k) eqn:E.
  - intros H. now inversion H.
  - intros H. now rewrite IH.
Qed.

Lemma load_devices_stored (f : DeviceManager.Faults)
      (st : DeviceManager.Store) :
  fst (DeviceManager.load_devices f st)
  = match stored f st with Some value => value | None => JObject [] end
  /\ DeviceManager.devices_file (snd (DeviceManager.load_devices f st))
     = DeviceManager.devices_file st
  /\ DeviceManager.temp_file (snd (DeviceManager.load_devices f st))
     = DeviceManager.temp_file st.
Proof.
  unfold DeviceManager.load_devices, stored.
  destruct (DeviceManager.exists_fault f); [now repeat split|].
  destruct (DeviceManager.devices_file st) as [[value|message]|] eqn:E;
    destruct (DeviceManager.read_fault f); simpl; now repeat split.
Qed.

Lemma write_devices_cases (f : DeviceManager.Faults) (devices : JSON)
      (st : DeviceManager.Store) :
  (writable f
   /\ DeviceManager.write_devices f devices st
      = (DeviceManager.Done tt,
         DeviceManager.mkStore (Some (DeviceManager.Parsable devices)) None
           (DeviceManager.log st)))
  \/ (~ writable f
      /\ exists message st2,
           DeviceManager.write_devices f devices st
           = (DeviceManager.Raised message, st2)
           /\ DeviceManager.devices_file st2 = DeviceManager.devices_file st).
Proof.
  unfold DeviceManager.write_devices, writable.
  destruct (DeviceManager.open_fault f) as [m|].
  { right. split; [intros (H & _); discriminate | now eauto]. }
  destruct (DeviceManager.dump_fault f) as [m|].
  { right. split; [intros (_ & H & _); discriminate | now eauto]. }
  destruct (DeviceManager.replace_fault f) as [m|].
  { right. split; [intros (_ & _ & H); discriminate | now eauto]. }
  left. auto.
Qed.

(** The two ways a call of [delete_device] can go. *)
Lemma delete_device_cases (f : DeviceManager.Faults) (address : string)
      (st : DeviceManager.Store) :
  (exists members,
      stored f st = Some (JObject members)
      /\ dict_getitem members address <> None
      /\ writable f
      /\ fst (DeviceManager.delete_device f address st) = true
      /\ DeviceManager.devices_file
           (snd (DeviceManager.delete_device f address st))
         = Some (DeviceManager.Parsable
                   (JObject (dict_del members address)))
      /\ DeviceManager.temp_file
           (snd (DeviceManager.delete_device f address st)) = None)
  \/ (~ (exists members,
            stored f st = Some (JObject members)
            /\ dict_getitem members address <> None
            /\ writable f)
      /\ fst (DeviceManager.delete_device f address st) = false
      /\ DeviceManager.devices_file
           (snd (DeviceManager.delete_device f address st))
         = DeviceManager.devices_file st).
Proof.
  destruct (load_devices_stored f st) as (Hv & Hd & _).
  unfold DeviceManager.delete_device.
  destruct (DeviceManager.load_devices f st) as [devices st1].
  cbn [fst snd] in Hv, Hd. subst devices.
  destruct (stored f st) as [[| b | n | s | items | members]|] eqn:Hs.
  1-5, 7: right; (split; [intros (m & Hm & Hin & _); discriminate|]).
  1-3, 6: now simpl.
  1-2: cbn [DeviceManager.contains DeviceManager.delitem];
       match goal with
       | |- context [if ?b then _ else _] => destruct b
       end; now simpl.
  cbn [DeviceManager.contains DeviceManager.delitem].
  destruct (dict_getitem members address) as [item|] eqn:Hin;
    cbn [is_not_None].
  2: { right. split; [|now simpl].
       intros (m & Hm & Hin' & _). inversion Hm. subst m. congruence. }
  destruct (write_devices_cases f (JObject (dict_del members address)) st1)
    as [(Hw & ->)|(Hw & message & st2 & -> & Hd2)].
  - left. exists members. rewrite Hin.
    split; [reflexivity|]. split; [discriminate|]. split; [exact Hw|].
    now simpl.
  - right. split; [now intros (m & _ & _ & H)|].
    split; [reflexivity|]. simpl. congruence.
Qed.

Lemma stored_Some (f : DeviceManager.Faults) (st : DeviceManager.Store)
      (value : JSON) :
  stored f st = Some value
  <-> DeviceManager.exists_fault f = None
      /\ DeviceManager.read_fault f = None
      /\ DeviceManager.devices_file st
         = Some (DeviceManager.Parsable value).
Proof.
  unfold stored.
  destruct (DeviceManager.exists_fault f),
    (DeviceManager.devices_file st) as [[v|m]|],
    (DeviceManager.read_fault f); split;
    try discriminate; try (intros (? & ? & ?); discriminate).
  - intros H. inversion H. auto.
  - intros (_ & _ & H). inversion H. reflexivity.
Qed.

Lemma metadata_fields (group : option string) (tags : option (list string))
      (description : option string) (device_data device_data' : JSON) :
  DeviceManager.set_if_given "description" (option_map JString description)
    (DeviceManager.set_if_given "tags"
       (option_map (fun l => JArray (map JString l)) tags)
       (DeviceManager.set_if_given "group" (option_map JString group)
          (DeviceManager.Done device_data)))
  = DeviceManager.Done device_data' ->
  (group = None /\ tags = None /\ description = None
   /\ device_data' = device_data)
  \/ exists fields fields',
       device_data = JObject fields
       /\ device_data' = JObject fields'
       /\ dict_getitem fields' "group"
          = field_after (option_map JString group)
              (dict_getitem fields "group")
       /\ dict_getitem fields' "tags"
          = field_after (option_map (fun l => JArray (map JString l)) tags)
              (dict_getitem fields "tags")
       /\ dict_getitem fields' "description"
          = field_after (option_map JString description)
              (dict_getitem fields "description")
       /\ forall key,
            key <> "group" -> key <> "tags" -> key <> "description" ->
            dict_getitem fields' key = dict_getitem fields key.
Proof.
  destruct device_data as [| b | n | s | items | fields];
    destruct group as [g|], tags as [t|], description as [d|];
    cbn [DeviceManager.set_if_given DeviceManager.setitem option_map];
    intros H; try discriminate H; inversion H; subst;
    try (left; now auto).
  all: right; eexists _, _; (split; [reflexivity|]);
    (split; [reflexivity|]); unfold field_after;
    repeat split; intros;
    repeat first
      [ rewrite dict_getitem_set_same
      | rewrite dict_getitem_set_other by (discriminate || assumption) ];
    reflexivity.
Qed.

(** The two ways a call of [update_device_metadata] can go. *)
Lemma update_device_metadata_cases (f : DeviceManager.Faults)
      (address : string) (group : option string)
      (tags : option (list string)) (description : option string)
      (st : DeviceManager.Store) :
  (exists members device_data device_data',
      stored f st = Some (JObject members)
      /\ dict_getitem members address = Some device_data
      /\ DeviceManager.set_if_given "description"
           (option_map JString description)
           (DeviceManager.set_if_given "tags"
              (option_map (fun l => JArray (map JString l)) tags)
              (DeviceManager.set_if_given "group" (option_map JString group)
                 (DeviceManager.Done device_data)))
         = DeviceManager.Done device_data'
      /\ writable f
      /\ fst (DeviceManager.update_device_metadata f address group tags
                description st) = true
      /\ DeviceManager.devices_file
           (snd (DeviceManager.update_device_metadata f address group tags
                   description st))
         = Some (DeviceManager.Parsable
                   (JObject (dict_set members address device_data')))
      /\ DeviceManager.temp_file
           (snd (DeviceManager.update_device_metadata f address group tags
                   description st)) = None)
  \/ (fst (DeviceManager.update_device_metadata f address group tags
             description st) = false
      /\ DeviceManager.devices_file
           (snd (DeviceManager.update_device_metadata f address group tags
                   description st))
         = DeviceManager.devices_file st).
Proof.
  destruct (load_devices_stored f st) as (Hv & Hd & _).
  unfold DeviceManager.update_device_metadata.
  destruct (DeviceManager.load_devices f st) as [devices st1].
  cbn [fst snd] in Hv, Hd. subst devices.
  destruct (stored f st) as [[| b | n | s | items | members]|] eqn:Hs.
  1-3, 7: right; now simpl.
  1-2: right; cbn [DeviceManager.contains DeviceManager.getitem];
       match goal with
       | |- context [if ?b then _ else _] => destruct b
       end; now simpl.
  cbn [DeviceManager.contains DeviceManager.getitem].
  destruct (dict_getitem members address) as [device_data|] eqn:Hin;
    cbn [is_not_None]; [|right; now simpl].
  destruct (DeviceManager.set_if_given "description"
              (option_map JString description)
              (DeviceManager.set_if_given "tags"
                 (option_map (fun l => JArray (map JString l)) tags)
                 (DeviceManager.set_if_given "group"
                    (option_map JString group)
                    (DeviceManager.Done device_data))))
    as [device_data'|message] eqn:Hset; [|right; now simpl].
  cbn [DeviceManager.held].
  destruct (write_devices_cases f
              (JObject (dict_set members address device_data')) st1)
    as [(Hw & ->)|(Hw & message & st2 & -> & Hd2)].
  - left. exists members, device_data, device_data'.
    split; [reflexivity|]. split; [exact Hin|]. split; [exact Hset|].
    split; [exact Hw|]. now simpl.
  - right. split; [reflexivity|]. simpl. congruence.
Qed.

Lemma clear_all_cases (f : DeviceManager.Faults) (st : DeviceManager.Store) :
  (DeviceManager.exists_fault f = None
   /\ (DeviceManager.devices_file st = None
       \/ DeviceManager.unlink_fault f = None)
   /\ DeviceManager.clear_all f st
      = (true,
         DeviceManager.mkStore None (DeviceManager.temp_file st)
           (DeviceManager.log st)))
  \/ (~ (DeviceManager.exists_fault f = None
         /\ (DeviceManager.devices_file st = None
             \/ DeviceManager.unlink_fault f = None))
      /\ fst (DeviceManager.clear_all f st) = false
      /\ DeviceManager.devices_file (snd (DeviceManager.clear_all f st))
         = DeviceManager.devices_file st).
Proof.
  unfold DeviceManager.clear_all.
  destruct (DeviceManager.exists_fault f) as [m|].
  { right. split; [intros (H & _); discriminate | now simpl]. }
  destruct st as [[data|] temp lg]; cbn [DeviceManager.devices_file].
  - destruct (DeviceManager.unlink_fault f) as [m|].
    + right. split; [|now simpl].
      intros (_ & [H|H]); discriminate.
    + left. auto.
  - left. auto.
Qed.

(** Whatever happens, [delete_device], [update_device_metadata] and
    [clear_all] either return [False] with the devices file as it was, or
    return [True] with the new content completely in place: a failure
    while writing only ever touches the temporary file. *)
Theorem devices_file_intact_or_complete
        (f : DeviceManager.Faults) (address : string)
        (group : option string) (tags : option (list string))
        (description : option string) (st : DeviceManager.Store) :
  (let r := DeviceManager.delete_device f address st in
   (fst r = false
    /\ DeviceManager.devices_file (snd r) = DeviceManager.devices_file st)
   \/ (fst r = true
       /\ exists members,
            DeviceManager.devices_file (snd r)
            = Some (DeviceManager.Parsable (JObject members))))
  /\ (let r := DeviceManager.update_device_metadata f address group tags
                 description st in
      (fst r = false
       /\ DeviceManager.devices_file (snd r) = DeviceManager.devices_file st)
      \/ (fst r = true
          /\ exists members,
               DeviceManager.devices_file (snd r)
               = Some (DeviceManager.Parsable (JObject members))))
  /\ (let r := DeviceManager.clear_all f st in
      (fst r = false
       /\ DeviceManager.devices_file (snd r) = DeviceManager.devices_file st)
      \/ (fst r = true /\ DeviceManager.devices_file (snd r) = None)).
Proof.
  split; [|split]; cbv zeta.
  - destruct (delete_device_cases f address st)
      as [(members & _ & _ & _ & Ht & Hfile & _)|(_ & Hf & Hfile)].
    + right. split; [exact Ht|]. now exists (dict_del members address).
    + left. now split.
  - destruct (update_device_metadata_cases f address group tags description
                st)
      as [(members & d & d' & _ & _ & _ & _ & Ht & Hfile & _)|(Hf & Hfile)].
    + right. split; [exact Ht|]. now exists (dict_set members address d').
    + left. now split.
  - destruct (clear_all_cases f st) as [(_ & _ & ->)|(_ & Hf & Hfile)].
    + right. now split.
    + left. now split.
Qed.

(** [delete_device] returns [True] exactly when the devices file is read
    without failure as a JSON object that has the address as a key, and
    nothing fails while the new content is written. *)
Theorem delete_device_succeeds_iff
        (f : DeviceManager.Faults) (address : string)
        (st : DeviceManager.Store) :
  fst (DeviceManager.delete_device f address st) = true
  <-> exists members,
        stored f st = Some (JObject members)
        /\ dict_getitem members address <> None
        /\ writable f.
Proof.
  destruct (delete_device_cases f address st)
    as [(members & Hs & Hin & Hw & Ht & _)|(Hno & Hf & _)].
  - split; [|intros _; exact Ht]. intros _. now exists members.
  - rewrite Hf. split; [discriminate | intros H; contradiction].
Qed.

(** After a successful [delete_device] the devices file holds the devices
    it held before without the one deleted, every other device with its
    data unchanged, and no temporary file is left; the store then reads
    back as that object, and deleting the same address again fails. *)
Theorem delete_device_removes_only_that_device
        (f : DeviceManager.Faults) (address : string)
        (st : DeviceManager.Store) :
  fst (DeviceManager.delete_device f address st) = true ->
  exists members,
    let st' := snd (DeviceManager.delete_device f address st) in
    DeviceManager.devices_file st
    = Some (DeviceManager.Parsable (JObject members))
    /\ DeviceManager.devices_file st'
       = Some (DeviceManager.Parsable (JObject (dict_del members address)))
    /\ DeviceManager.temp_file st' = None
    /\ (forall other,
          dict_getitem (dict_del members address) other
          = if String.eqb other address then None
            else dict_getitem members other)
    /\ (forall f',
          DeviceManager.exists_fault f' = None ->
          DeviceManager.read_fault f' = None ->
          fst (DeviceManager.load_devices f' st')
          = JObject (dict_del members address))
    /\ (forall f', fst (DeviceManager.delete_device f' address st') = false).
Proof.
  intros Ht.
  destruct (delete_device_cases f address st)
    as [(members & Hs & Hin & Hw & _ & Hfile & Htemp)|(_ & Hf & _)];
    [|congruence].
  exists members. cbv zeta.
  apply stored_Some in Hs. destruct Hs as (_ & _ & Hold).
  split; [exact Hold|]. split; [exact Hfile|]. split; [exact Htemp|].
  split; [|split].
  - intros other. destruct (String.eqb other address) eqn:E.
    + apply String.eqb_eq in E. subst other. apply dict_getitem_del_same.
    + apply dict_getitem_del_other. intros ->.
      now rewrite String.eqb_refl in E.
  - intros f' He Hr.
    destruct (load_devices_stored f'
                (snd (DeviceManager.delete_device f address st)))
      as (-> & _).
    assert (Hst : stored f' (snd (DeviceManager.delete_device f address st))
                  = Some (JObject (dict_del members address)))
      by (apply stored_Some; auto).
    now rewrite Hst.
  - intros f'.
    destruct (delete_device_cases f' address
                (snd (DeviceManager.delete_device f address st)))
      as [(m & Hs' & Hin' & _)|(_ & Hf' & _)]; [|exact Hf'].
    apply stored_Some in Hs'. destruct Hs' as (_ & _ & Hs').
    rewrite Hfile in Hs'. inversion Hs'. subst m.
    now rewrite dict_getitem_del_same in Hin'.
Qed.

Lemma delete_device_removes_only_that_device_witness :
  exists members,
    let st' := snd (DeviceManager.delete_device no_faults "192.168.1.10"
                      demo_store) in
    DeviceManager.devices_file demo_store
    = Some (DeviceManager.Parsable (JObject members))
    /\ DeviceManager.devices_file st'
       = Some (DeviceManager.Parsable
                 (JObject (dict_del members "192.168.1.10")))
    /\ DeviceManager.temp_file st' = None
    /\ (forall other,
          dict_getitem (dict_del members "192.168.1.10") other
          = if String.eqb other "192.168.1.10" then None
            else dict_getitem members other)
    /\ (forall f',
          DeviceManager.exists_fault f' = None ->
          DeviceManager.read_fault f' = None ->
          fst (DeviceManager.load_devices f' st')
          = JObject (dict_del members "192.168.1.10"))
    /\ (forall f',
          fst (DeviceManager.delete_device f' "192.168.1.10" st') = false).
Proof.
  apply (delete_device_removes_only_that_device no_faults "192.168.1.10"
           demo_store).
  reflexivity.
Defined.

(** After a successful [update_device_metadata] the devices file holds
    the same devices in the same order, every other device with its data
    unchanged; the data of the device is unchanged when no field was
    given, and otherwise it is an object in which each given field has
    the new value and every other field the old one. *)
Theorem update_device_metadata_changes_only_given_fields
        (f : DeviceManager.Faults) (address : string)
        (group : option string) (tags : option (list string))
        (description : option string) (st : DeviceManager.Store) :
  fst (DeviceManager.update_device_metadata f address group tags description
         st) = true ->
  exists members device_data device_data',
    let st' := snd (DeviceManager.update_device_metadata f address group
                      tags description st) in
    DeviceManager.devices_file st
    = Some (DeviceManager.Parsable (JObject members))
    /\ dict_getitem members address = Some device_data
    /\ DeviceManager.devices_file st'
       = Some (DeviceManager.Parsable
                 (JObject (dict_set members address device_data')))
    /\ DeviceManager.temp_file st' = None
    /\ map fst (dict_set members address device_data') = map fst members
    /\ (forall other,
          dict_getitem (dict_set members address device_data') other
          = if String.eqb other address then Some device_data'
            else dict_getitem members other)
    /\ ((group = None /\ tags = None /\ description = None
         /\ device_data' = device_data
         /\ DeviceManager.devices_file st' = DeviceManager.devices_file st)
        \/ exists fields fields',
             device_data = JObject fields
             /\ device_data' = JObject fields'
             /\ dict_getitem fields' "group"
                = field_after (option_map JString group)
                    (dict_getitem fields "group")
             /\ dict_getitem fields' "tags"
                = field_after
                    (option_map (fun l => JArray (map JString l)) tags)
                    (dict_getitem fields "tags")
             /\ dict_getitem fields' "description"
                = field_after (option_map JString description)
                    (dict_getitem fields "description")
             /\ forall key,
                  key <> "group" -> key <> "tags" -> key <> "description" ->
                  dict_getitem fields' key = dict_getitem fields key).
Proof.
  intros Ht.
  destruct (update_device_metadata_cases f address group tags description st)
    as [(members & d & d' & Hs & Hin & Hset & Hw & _ & Hfile & Htemp)
       |(Hf & _)]; [|congruence].
  exists members, d, d'. cbv zeta.
  apply stored_Some in Hs. destruct Hs as (_ & _ & Hold).
  split; [exact Hold|]. split; [exact Hin|]. split; [exact Hfile|].
  split; [exact Htemp|].
  split; [apply dict_set_keys; congruence|].
  split.
  - intros other. destruct (String.eqb other address) eqn:E.
    + apply String.eqb_eq in E. subst other. apply dict_getitem_set_same.
    + apply dict_getitem_set_other. intros ->.
      now rewrite String.eqb_refl in E.
  - destruct (metadata_fields group tags description d d' Hset)
      as [(Hg & Htg & Hde & Heq)|Hfields]; [left|right; exact Hfields].
    repeat (split; [assumption|]).
    subst d'. rewrite Hfile, Hold. now rewrite (dict_set_same _ _ _ Hin).
Qed.

Lemma update_device_metadata_witness :
  exists members device_data device_data',
    let st' := snd (DeviceManager.update_device_metadata no_faults
                      "192.168.1.11" (Some "garage") None (Some "gate")
                      demo_store) in
    DeviceManager.devices_file demo_store
    = Some (DeviceManager.Parsable (JObject members))
    /\ dict_getitem members "192.168.1.11" = Some device_data
    /\ DeviceManager.devices_file st'
       = Some (DeviceManager.Parsable
                 (JObject (dict_set members "192.168.1.11" device_data')))
    /\ DeviceManager.temp_file st' = None
    /\ map fst (dict_set members "192.168.1.11" device_data')
       = map fst members
    /\ (forall other,
          dict_getitem (dict_set members "192.168.1.11" device_data') other
          = if String.eqb other "192.168.1.11" then Some device_data'
            else dict_getitem members other)
    /\ ((Some "garage" = None /\ @None (list string) = None
         /\ Some "gate" = None
         /\ device_data' = device_data
         /\ DeviceManager.devices_file st'
            = DeviceManager.devices_file demo_store)
        \/ exists fields fields',
             device_data = JObject fields
             /\ device_data' = JObject fields'
             /\ dict_getitem fields' "group"
                = field_after (option_map JString (Some "garage"))
                    (dict_getitem fields "group")
             /\ dict_getitem fields' "tags"
                = field_after
                    (option_map (fun l => JArray (map JString l)) None)
                    (dict_getitem fields "tags")
             /\ dict_getitem fields' "description"
                = field_after (option_map JString (Some "gate"))
                    (dict_getitem fields "description")
             /\ forall key,
                  key <> "group" -> key <> "tags" -> key <> "description" ->
                  dict_getitem fields' key = dict_getitem fields key).
Proof.
  apply (update_device_metadata_changes_only_given_fields no_faults
           "192.168.1.11" (Some "garage") None (Some "gate") demo_store).
  reflexivity.
Defined.

Lemma stored_absent (f : DeviceManager.Faults) (st : DeviceManager.Store) :
  DeviceManager.devices_file st = None -> stored f st = None.
Proof.
  intros H. unfold stored. rewrite H.
  now destruct (DeviceManager.exists_fault f).
Qed.

(** [clear_all] returns [True] exactly when the existence test does not
    fail and the devices file is absent or its removal does not fail; the
    store is then empty: it reads back as no devices, and no address can
    be deleted from it or updated in it. *)
Theorem clear_all_empties_the_store
        (f : DeviceManager.Faults) (st : DeviceManager.Store) :
  (fst (DeviceManager.clear_all f st) = true
   <-> DeviceManager.exists_fault f = None
       /\ (DeviceManager.devices_file st = None
           \/ DeviceManager.unlink_fault f = None))
  /\ (fst (DeviceManager.clear_all f st) = true ->
      forall f',
        fst (DeviceManager.load_devices f'
               (snd (DeviceManager.clear_all f st))) = JObject []
        /\ forall address group tags description,
             fst (DeviceManager.delete_device f' address
                    (snd (DeviceManager.clear_all f st))) = false
             /\ fst (DeviceManager.update_device_metadata f' address group
                       tags description
                       (snd (DeviceManager.clear_all f st))) = false).
Proof.
  destruct (clear_all_cases f st) as [(He & Hu & Hc)|(Hno & Hf & _)].
  2: { rewrite Hf. split; [split|]; try discriminate.
       intros H. contradiction. }
  rewrite Hc. cbn [fst snd]. split; [split; auto|].
  intros _ f'.
  set (st' := DeviceManager.mkStore None (DeviceManager.temp_file st)
                (DeviceManager.log st)).
  assert (Hst : stored f' st' = None) by now apply stored_absent.
  split.
  - destruct (load_devices_stored f' st') as (-> & _). now rewrite Hst.
  - intros address group tags description. split.
    + destruct (delete_device_cases f' address st')
        as [(m & Hs & _)|(_ & Hf & _)]; [congruence | exact Hf].
    + destruct (update_device_metadata_cases f' address group tags
                  description st')
        as [(m & d & d' & Hs & _)|(Hf & _)]; [congruence | exact Hf].
Qed.
